(** * Sales analyzer and inventory reports: a shallow embedding

    The development follows the four Python sources:
    - [main.py]      : the command-line analyzer ([top], [monthly], ...);
    - [dashboard.py] : the dashboard pages and their chronological sort key;
    - [inventory.py] : the low-stock alert of the inventory manager;
    - [reports.py]   : the low-stock report and its CSV export.

    Python values are modelled as follows.  A [str] is a [string] whose
    characters are read as code points below 256.  An [int] is a [Z].  A
    number held in a data frame column is a rational [Q].  Sums and
    percentages are kept exact.  Two parts of IEEE arithmetic are modelled:
    the special values produced by a division by zero (see [fnum]), and the
    rounding to 53 significant bits of the quotient and of the products
    that the stock classifiers compare with their thresholds (see
    [to_float]).  A [dict] is a [gmap].  An exception is a value of [exn]
    carried by [result]. *)

From Stdlib Require Import ZArith QArith Qminmax Qround Qabs Qpower.
From Stdlib Require Import String Ascii List Lia Permutation Sorted.
From stdpp Require Import base decidable option list gmap strings.
From Stdlib Require Import Lqa.

Open Scope Z_scope.

(** ** Python prelude *)

Module Py.

(** Exceptions that the modelled code can raise. *)
Inductive exn : Type :=
| ZeroDivisionError
| ValueError
| IndexError.

Inductive result (A : Type) : Type :=
| Ok (a : A)
| Raise (e : exn).
Arguments Ok {A} a.
Arguments Raise {A} e.

Definition bind {A B} (r : result A) (k : A -> result B) : result B :=
  match r with
  | Ok a => k a
  | Raise e => Raise e
  end.

(** [l[i]] for an index that is not negative. *)
Definition index {A} (l : list A) (i : nat) : result A :=
  match l !! i with
  | Some x => Ok x
  | None => Raise IndexError
  end.

(** [for x in l: out.append(f(x))]: the first exception ends the loop. *)
Fixpoint for_each {A B} (f : A -> result B) (l : list A) : result (list B) :=
  match l with
  | [] => Ok []
  | x :: l' => bind (f x) (fun y => bind (for_each f l') (fun out => Ok (y :: out)))
  end.

(** [str.isspace] on the code points below 256: the ASCII controls
    9-13 and 28-31, the space, NEL (133) and the no-break space (160). *)
Definition is_space (c : ascii) : bool :=
  let n := N_of_ascii c in
  ((9 <=? n) && (n <=? 13) || (28 <=? n) && (n <=? 32)
   || (n =? 133) || (n =? 160))%N.

(** [s.split()] with no argument: the maximal runs of non-blank
    characters, in order; no empty token is ever produced.  [tok] is the
    token being read. *)
Fixpoint split_go (tok : string) (s : string) : list string :=
  match s with
  | EmptyString => if decide (tok = "") then [] else [tok]
  | String c s' =>
      if is_space c
      then (if decide (tok = "") then split_go "" s' else tok :: split_go "" s')
      else split_go (tok +:+ String c "") s'
  end.

Definition split (s : string) : list string := split_go "" s.

(** [s[:n]] *)
Fixpoint slice_to (n : nat) (s : string) : string :=
  match n, s with
  | S n', String c s' => String c (slice_to n' s')
  | _, _ => ""
  end.

(** [a < b] on [str]: lexicographic on code points. *)
Definition str_lt (a b : string) : bool := String.ltb a b.

(** [a < b] on pairs of integers (tuple comparison). *)
Definition tuple_lt (a b : Z * Z) : bool :=
  (a.1 <? b.1) || ((a.1 =? b.1) && (a.2 <? b.2)).

Definition tuple_le (a b : Z * Z) : bool := negb (tuple_lt b a).

(** A dict display [{k1: v1, k2: v2, ...}]: the pairs are stored from left
    to right, a later pair replacing an earlier one with the same key. *)
Definition dict_lit {V} (kvs : list (string * V)) : gmap string V :=
  foldl (fun d kv => <[kv.1 := kv.2]> d) ∅ kvs.

(** [d.get(k, dflt)] *)
Definition dict_get {V} (d : gmap string V) (k : string) (dflt : V) : V :=
  default dflt (d !! k).

(** [sorted(l, key=key)], for a key that can raise: the keys are computed
    first (an exception aborts the call), then the elements are put in
    order by a stable insertion; [le] is [not (b < a)] on keys. *)
Section Sorted.
Context {A K : Type} (le : K -> K -> bool).

Fixpoint insert_by (x : K * A) (l : list (K * A)) : list (K * A) :=
  match l with
  | [] => [x]
  | y :: l' => if le x.1 y.1 then x :: y :: l' else y :: insert_by x l'
  end.

Definition sort_keyed (l : list (K * A)) : list (K * A) :=
  foldr insert_by [] l.

Fixpoint keyed (key : A -> result K) (l : list A) : result (list (K * A)) :=
  match l with
  | [] => Ok []
  | x :: l' =>
      bind (key x) (fun k => bind (keyed key l') (fun kl => Ok ((k, x) :: kl)))
  end.

Definition sorted (key : A -> result K) (l : list A) : result (list A) :=
  bind (keyed key l) (fun kl => Ok (map snd (sort_keyed kl))).
End Sorted.

(** *** Binary floats *)

(** Rounding to the nearest integer, a tie going to the even one. *)
Definition round_half_even (x : Q) : Z :=
  let f := Qfloor x in
  match Qcompare (x - inject_Z f) (1 # 2) with
  | Lt => f
  | Gt => f + 1
  | Eq => if Z.even f then f else f + 1
  end.

(** The exponent [e] of a real [x <> 0]: [2^e <= |x| < 2^(e+1)]. *)
Definition exponent (x : Q) : Z :=
  let k := Z.log2 (Z.abs (Qnum x)) - Z.log2 (Z.pos (Qden x)) in
  if Qle_bool (2 ^ k) (Qabs x) then k else k - 1.

(** The float nearest to a real: 53 significant bits, a tie going to the
    even significand.  It is what the conversion of an [int], the quotient
    [a / b] of two [int]s and the product of two floats return for the
    exact value.  The range of the exponent is not modelled: the values
    rounded here come from the integers of a table, which have 64 bits, so
    that no quotient or product leaves the range of the floats. *)
Definition to_float (x : Q) : Q :=
  if Qeq_bool x 0 then 0%Q
  else
    let ulp := (2 ^ (exponent x - 52))%Q in
    (inject_Z (round_half_even (x / ulp)) * ulp)%Q.

(** [x / y] on two numbers. *)
Definition float_div (x y : Q) : result Q :=
  if Qeq_bool y 0 then Raise ZeroDivisionError else Ok (x / y)%Q.

(** [sum(...)] over integers and over floats: from 0, left to right. *)
Definition sum_int (l : list Z) : Z := foldl Z.add 0 l.

Definition sum_float (l : list Q) : Q := foldl Qplus 0%Q l.

(** [l[i]] for any [int] index: a negative index counts from the end. *)
Definition getitem {A} (l : list A) (i : Z) : result A :=
  if decide (0 <= i) then index l (Z.to_nat i)
  else if decide (0 <= i + Z.of_nat (length l))
       then index l (Z.to_nat (i + Z.of_nat (length l)))
       else Raise IndexError.

(** A [dict] that is iterated: the pairs in the order of their first
    insertion.  [dict_find] is [d.get(k)], [dict_store] is [d[k] = v]. *)
Fixpoint dict_find {V} (k : string) (d : list (string * V)) : option V :=
  match d with
  | [] => None
  | (k', v) :: d' => if decide (k = k') then Some v else dict_find k d'
  end.

Fixpoint dict_store {V} (k : string) (v : V) (d : list (string * V)) : list (string * V) :=
  match d with
  | [] => [(k, v)]
  | (k', v') :: d' =>
      if decide (k = k') then (k, v) :: d' else (k', v') :: dict_store k v d'
  end.

(** [if k not in d: d[k] = init] followed by an update of [d[k]]. *)
Definition dict_upsert {V} (k : string) (init : V) (f : V -> V)
    (d : list (string * V)) : list (string * V) :=
  dict_store k (f (default init (dict_find k d))) d.

(** [sorted(l, key=key, reverse=True)] for a numeric key: the largest key
    first, elements with equal keys in their original order. *)
Definition sorted_desc {A} (key : A -> Q) (l : list A) : list A :=
  map snd (sort_keyed (fun a b => Qle_bool b a) (map (fun x => (key x, x)) l)).

(** [sorted(l, key=key)] for an integer key that cannot raise. *)
Definition sorted_int {A} (key : A -> Z) (l : list A) : list A :=
  map snd (sort_keyed Z.leb (map (fun x => (key x, x)) l)).

(** [sorted(l, reverse=True)] on strings. *)
Definition sorted_str_desc (l : list string) : list string :=
  map snd (sort_keyed (fun a b => String.leb b a) (map (fun x => (x, x)) l)).

(** [d[k]]: a failed subscript; the prelude reports the missing key of a
    dict with the same exception as the bad index of a list. *)
Definition dict_item {V} (k : string) (d : list (string * V)) : result V :=
  match dict_find k d with
  | Some v => Ok v
  | None => Raise IndexError
  end.

End Py.

Import Py.

(** ** Data frames of the monthly reports *)

(** One row of a report's data frame.  A missing cell of a text column
    (pandas' NaN) is [None]. *)
Record row : Type := Row {
  Name : option string;
  Category_Name : option string;
  Sold : Q;
  Net_Sales : Q
}.

Abbreviation frame := (list row).

(** [df[df['Category Name'] != 'TOTAL']]: a missing category is different
    from every string. *)
Definition drop_total (df : frame) : frame :=
  filter (fun r => Category_Name r ≠ Some "TOTAL") df.

(** [df[col].sum()] *)
Definition col_sum (col : row -> Q) (df : frame) : Q :=
  foldr (fun r acc => col r + acc)%Q 0%Q df.

(** [pd.concat(dfs)] *)
Definition concat_frames (dfs : list frame) : frame := concat dfs.

(** ** [main.py] *)

Module Main.

(** A parsed report, as [analyzer.parse_report] returns it: the month and
    year tokens and the data frame.  The year is kept as the text the
    sources convert with [int] wherever a number is needed. *)
Record report : Type := Report {
  month : string;
  year : string;
  data : frame
}.

Definition month_order : gmap string Z :=
  dict_lit [("Jan", 1); ("Feb", 2); ("Mar", 3); ("Apr", 4); ("May", 5); ("Jun", 6);
            ("Jul", 7); ("Aug", 8); ("Sep", 9); ("Oct", 10); ("Nov", 11); ("Dec", 12)].

(** [f"{report['month']} {report['year']}"] *)
Definition month_label (r : report) : string := month r +:+ " " +:+ year r.

(** N/A is [None]; otherwise the number that is then printed with two
    decimals. *)
Definition growth_rate (prev cur : Q) : option Q :=
  if Qlt_le_dec 0 prev then Some ((cur - prev) / prev * 100)%Q else None.

(** One line of [growth_data]. *)
Definition growth_line (months : list string) (total_units total_sales : list Q)
    (i : nat) : result (string * option Q * option Q) :=
  bind (index months (i - 1)) (fun m0 =>
  bind (index months i) (fun m1 =>
  bind (index total_units (i - 1)) (fun u0 =>
  bind (index total_units i) (fun u1 =>
  bind (index total_sales (i - 1)) (fun s0 =>
  bind (index total_sales i) (fun s1 =>
  Ok (m0 +:+ " to " +:+ m1, growth_rate u0 u1, growth_rate s0 s1))))))).

(** [for i in range(1, n): growth_data.append(...)] *)
Definition growth_data (n : nat) (months : list string)
    (total_units total_sales : list Q) : result (list (string * option Q * option Q)) :=
  for_each (growth_line months total_units total_sales) (seq 1 (n - 1)).

Section WithInt.
(** The builtin [int] applied to a [str]; it raises [ValueError] on text
    that is not an integer literal. *)
Variable int : string -> result Z.

Definition get_sort_key (r : report) : result (Z * Z) :=
  let month := month r in
  bind (int (year r)) (fun year =>
  let month_num := dict_get month_order (slice_to 3 month) 0 in
  Ok (year, month_num)).

Definition sorted_reports (parsed_reports : list report) : result (list report) :=
  sorted tuple_le get_sort_key parsed_reports.

(** The [monthly] command: what it tabulates.  The growth table is only
    printed for two reports or more. *)
Inductive monthly_output : Type :=
| NotEnoughReports
| Tables (totals : list (string * Q * Q))
         (growth : option (list (string * option Q * option Q))).

Definition monthly (parsed_reports : list report) : result monthly_output :=
  if decide (length parsed_reports < 2)%nat then Ok NotEnoughReports
  else
    bind (sorted_reports parsed_reports) (fun sorted_reports =>
    let df_filtered r := drop_total (data r) in
    let months := map month_label sorted_reports in
    let total_units := map (fun r => col_sum Sold (df_filtered r)) sorted_reports in
    let total_sales := map (fun r => col_sum Net_Sales (df_filtered r)) sorted_reports in
    let totals := zip (zip months total_units) total_sales in
    if decide (2 <= length sorted_reports)%nat then
      bind (growth_data (length sorted_reports) months total_units total_sales)
           (fun growth => Ok (Tables totals (Some growth)))
    else Ok (Tables totals None)).
End WithInt.

(** The [top] and [category] commands: all frames are concatenated, then
    the TOTAL rows are removed. *)
Definition all_data_filtered (parsed_reports : list report) : frame :=
  drop_total (concat_frames (map data parsed_reports)).

End Main.

(** ** [dashboard.py] *)

Module Dashboard.

(** The table of [get_month_year_key] (the page-level function and its
    copy in the overview page hold the same display). *)
Definition month_num : gmap string string :=
  dict_lit [("January", "01"); ("February", "02"); ("March", "03"); ("April", "04");
            ("May", "05"); ("June", "06"); ("July", "07"); ("August", "08");
            ("September", "09"); ("October", "10"); ("November", "11");
            ("December", "12");
            ("Jan", "01"); ("Feb", "02"); ("Mar", "03"); ("Apr", "04"); ("May", "05");
            ("Jun", "06"); ("Jul", "07"); ("Aug", "08"); ("Sep", "09"); ("Oct", "10");
            ("Nov", "11"); ("Dec", "12")].

Definition get_month_year_key (month_year_str : string) : string :=
  match split month_year_str with
  | [month; year] =>
      let month_val := dict_get month_num month "00" in
      year +:+ "-" +:+ month_val
  | _ => ""
  end.

(** The key of [get_reports]: the year as the report holds it, and the
    number of the month token, taken whole. *)
Definition month_order : gmap string Z :=
  dict_lit [("Jan", 1); ("Feb", 2); ("Mar", 3); ("Apr", 4); ("May", 5); ("Jun", 6);
            ("Jul", 7); ("Aug", 8); ("Sep", 9); ("Oct", 10); ("Nov", 11); ("Dec", 12)].

Definition get_reports_key (x : Main.report) : string * Z :=
  (Main.year x, dict_get month_order (Main.month x) 0).

(** [a < b] on such keys (tuple comparison). *)
Definition reports_key_lt (a b : string * Z) : bool :=
  str_lt a.1 b.1 || (bool_decide (a.1 = b.1) && (a.2 <? b.2)).

Definition reports_key_le (a b : string * Z) : bool := negb (reports_key_lt b a).

(** [get_reports]: the parsed reports in the order of [sorted] by that key
    (a stable sort). *)
Definition get_reports (reports : list Main.report) : list Main.report :=
  map snd (sort_keyed reports_key_le (map (fun x => (get_reports_key x, x)) reports)).

(** A row of the combined frame: a row of a report and the columns that
    [get_combined_data] adds to it. *)
Record combined_row : Type := CombinedRow {
  source_row : row;
  Month : string;
  MonthSort : string;
  MonthIndex : Z;
  Year : Z
}.

(** The table [month_order] local to [get_combined_data]. *)
Definition combined_month_order : gmap string string :=
  dict_lit [("Jan", "01"); ("Feb", "02"); ("Mar", "03"); ("Apr", "04"); ("May", "05");
            ("Jun", "06"); ("Jul", "07"); ("Aug", "08"); ("Sep", "09"); ("Oct", "10");
            ("Nov", "11"); ("Dec", "12")].

Section Combined.
(** The builtin [int] applied to a [str]. *)
Variable int : string -> result Z.

(** The columns added to the rows of one report; [int] raises
    [ValueError] on a year that is not an integer literal. *)
Definition combined_frame (report : Main.report) : result (list combined_row) :=
  let df := drop_total (Main.data report) in
  let month_label := Main.month report +:+ " " +:+ Main.year report in
  let month_num := dict_get combined_month_order (Main.month report) "00" in
  let month_sort := Main.year report +:+ "-" +:+ month_num in
  bind (int month_num) (fun month_index =>
  bind (int (Main.year report)) (fun year =>
  Ok (map (fun r => CombinedRow r month_label month_sort month_index year) df))).

(** [get_combined_data]: each report's frame loses its TOTAL rows and gains
    its columns before the frames are concatenated; without a report the
    frame is empty. *)
Definition get_combined_data (reports : list Main.report) : result (list combined_row) :=
  bind (for_each combined_frame reports) (fun all_dfs => Ok (concat all_dfs)).
End Combined.

(** A float that a division can produce: a finite value or one of the
    IEEE special values. *)
Inductive fnum : Type :=
| Fin (q : Q)
| PInf
| NInf
| NaN.

(** [x / y] on two finite column values, as numpy divides: no exception,
    a zero divisor gives an infinity, or NaN for [0 / 0]. *)
Definition fdiv (x y : Q) : fnum :=
  if Qeq_bool y 0 then
    (if Qeq_bool x 0 then NaN
     else if Qlt_le_dec 0 x then PInf else NInf)
  else Fin (x / y).

(** [v - 1] and [v * 100]: the special values are kept. *)
Definition fminus1 (v : fnum) : fnum :=
  match v with Fin q => Fin (q - 1) | s => s end.

Definition ftimes100 (v : fnum) : fnum :=
  match v with Fin q => Fin (q * 100) | s => s end.

(** [pd.notna] *)
Definition notna (v : fnum) : bool :=
  match v with NaN => false | _ => true end.

(** [col.pct_change()]: [col / col.shift(1) - 1]; the first entry has no
    predecessor and is NaN. *)
Fixpoint pct_change_from (prev : Q) (col : list Q) : list fnum :=
  match col with
  | [] => []
  | cur :: col' => fminus1 (fdiv cur prev) :: pct_change_from cur col'
  end.

Definition pct_change (col : list Q) : list fnum :=
  match col with
  | [] => []
  | first :: col' => NaN :: pct_change_from first col'
  end.

(** The growth column of the Monthly Analysis page, computed when the
    frame has more than one row. *)
Definition sales_growth (net_sales : list Q) : list fnum :=
  map ftimes100 (pct_change net_sales).

(** The cell of the Monthly Performance table: N/A is [None]. *)
Definition growth_cell (v : fnum) : option fnum :=
  if notna v then Some v else None.

(** The Average Price metric of the overview page. *)
Definition avg_price (total_sales total_units : Q) : Q :=
  if Qlt_le_dec 0 total_units then (total_sales / total_units)%Q else 0%Q.

(** One row of a grouped frame ([product_perf], [category_data],
    [product_data]). *)
Record group : Type := Group {
  g_name : string;
  g_category : string;
  g_net_sales : Q;
  g_sold : Q
}.

(** [df['Avg Price'] = df['Net Sales'] / df['Sold']] *)
Definition Avg_Price (g : group) : fnum := fdiv (g_net_sales g) (g_sold g).

(** [product_data[product_data['Sold'] >= min_units]] *)
Definition at_least (min_units : Q) (product_data : list group) : list group :=
  filter (fun g => Qle_bool min_units (g_sold g)) product_data.

Section TopProducts.
(** [df.sort_values(col, ascending=False)] with pandas' default
    algorithm, whose code is not part of the sources. *)
Variable sort_values_desc : (group -> fnum) -> list group -> list group.

Definition top_by_margin (min_units : Q) (top_n : nat) (product_data : list group)
    : list group :=
  take top_n (sort_values_desc Avg_Price (at_least min_units product_data)).

Definition top_by_rev (top_n : nat) (product_data : list group) : list group :=
  take top_n (sort_values_desc (fun g => Fin (g_net_sales g)) product_data).
End TopProducts.

(** [group_months_by_year]: the month names of each year, in the order of
    the labels. *)
Fixpoint group_months_from (years_dict : list (string * list string))
    (months_list : list string) : result (list (string * list string)) :=
  match months_list with
  | [] => Ok years_dict
  | month :: rest =>
      let parts := split month in
      bind (index parts 0) (fun month_name =>
      bind (index parts 1) (fun year =>
      group_months_from
        (dict_upsert year [] (fun names => names ++ [month_name]) years_dict) rest))
  end.

Definition group_months_by_year (months_list : list string)
    : result (list (string * list string)) :=
  group_months_from [] months_list.

(** The timeline of the sidebar: one line per year, the newest year first,
    the months of a year by month number. *)
Definition timeline (months : list string) : result (list (string * list string)) :=
  match months with
  | [] => Ok []
  | _ =>
      bind (group_months_by_year months) (fun years_dict =>
      for_each (fun year =>
                  bind (dict_item year years_dict) (fun month_names =>
                  Ok (year, sorted_int (fun m => dict_get month_order m 0) month_names)))
               (sorted_str_desc (map fst years_dict)))
  end.

End Dashboard.

(** ** The low-stock query shared by [inventory.py] and [reports.py] *)

Module Store.

(** A row of the [products] table (the columns the low-stock code reads). *)
Record product : Type := Product {
  sku : string;
  name : string;
  category : string;
  quantity : Z;
  min_stock : Z;
  cost : Q
}.

(** [quantity * 1.0 / min_stock] in SQL: NULL ([None]) for a zero divisor;
    otherwise both integers are converted to floats and the quotient is a
    float. *)
Definition sql_ratio (p : product) : option Q :=
  if decide (min_stock p = 0) then None
  else Some (to_float (to_float (inject_Z (quantity p))
                       / to_float (inject_Z (min_stock p)))).

(** The ascending order of [ORDER BY ratio, name]: NULL comes first. *)
Definition order_le (a b : option Q * string) : bool :=
  match a.1, b.1 with
  | None, None => String.leb a.2 b.2
  | None, Some _ => true
  | Some _, None => false
  | Some x, Some y =>
      if Qlt_le_dec x y then true
      else if Qlt_le_dec y x then false
      else String.leb a.2 b.2
  end.

(** [SELECT ... FROM products WHERE quantity <= min_stock
     ORDER BY (quantity * 1.0 / min_stock), name] *)
Definition low_stock_query (products : list product) : list product :=
  map snd (sort_keyed order_le
             (map (fun p => ((sql_ratio p, name p), p))
                  (filter (fun p => quantity p <= min_stock p) products))).


End Store.

(** ** [inventory.py] *)

Module Inventory.
Import Store.

(** [a / b] on two [int]s: the float nearest to the quotient. *)
Definition true_div (a b : Z) : result Q :=
  if decide (b = 0) then Raise ZeroDivisionError
  else Ok (to_float (inject_Z a / inject_Z b)).

(** The body of the loop of [check_low_stock]: the status of one row. *)
Definition status (quantity min_stock : Z) : result string :=
  bind (true_div quantity min_stock) (fun ratio =>
  if decide (quantity = 0) then Ok "OUT OF STOCK"
  else if Qle_bool ratio (1 # 4) then Ok "CRITICAL"
  else if Qle_bool ratio (1 # 2) then Ok "LOW"
  else Ok "WARNING").

(** The loop: the lines printed, and the exception that ended the loop
    if one was raised. *)
Fixpoint print_rows (low_stock : list product) : list (product * string) * option exn :=
  match low_stock with
  | [] => ([], None)
  | product :: rest =>
      match status (quantity product) (min_stock product) with
      | Raise e => ([], Some e)
      | Ok s => let '(lines, e) := print_rows rest in ((product, s) :: lines, e)
      end
  end.

Definition check_low_stock (products : list product)
    : list (product * string) * option exn :=
  print_rows (low_stock_query products).

Section Selection.
(** The builtin [int] applied to what the user typed. *)
Variable int : string -> result Z.

(** [add_product]: the category chosen by its number; [None] is the
    "Invalid category selection" return. *)
Definition select_category (categories : list string) (typed : string)
    : result (option string) :=
  bind (int typed) (fun cat_choice =>
  if decide (cat_choice < 1 \/ cat_choice > Z.of_nat (length categories))
  then Ok None
  else bind (getitem categories (cat_choice - 1)) (fun category => Ok (Some category))).

(** [update_product]: the product to update among the matches; [None] is a
    return without update ("No products found", "Invalid selection"). *)
Definition select_product (products : list product) (typed : string)
    : result (option product) :=
  match products with
  | [] => Ok None
  | _ =>
      if decide (1 < length products)%nat then
        bind (int typed) (fun choice =>
        if decide (choice < 1 \/ choice > Z.of_nat (length products))
        then Ok None
        else bind (getitem products (choice - 1)) (fun product => Ok (Some product)))
      else bind (getitem products 0) (fun product => Ok (Some product))
  end.
End Selection.

End Inventory.

(** ** [reports.py] *)

Module Reports.
Import Store.

(** [item['quantity'] <= item['min_stock'] * f] for a float factor [f]:
    the minimum is converted to a float, the product is a float, and the
    [int] on the left is compared with it exactly. *)
Definition within (quantity min_stock : Z) (f : Q) : bool :=
  Qle_bool (inject_Z quantity) (to_float (to_float (inject_Z min_stock) * f)).

(** The status column of the CSV export. *)
Definition csv_status (quantity min_stock : Z) : string :=
  if decide (quantity = 0) then "OUT OF STOCK"
  else if within quantity min_stock (1 # 4) then "CRITICAL"
  else if within quantity min_stock (1 # 2) then "LOW"
  else "WARNING".

(** The three groups of the displayed report. *)
Inductive severity : Type := critical | low | warning.

Definition group_of (quantity min_stock : Z) : severity :=
  if decide (quantity = 0) then critical
  else if within quantity min_stock (1 # 4) then critical
  else if within quantity min_stock (1 # 2) then low
  else warning.


(** *** The restock cost and the groups of the low-stock report *)



(** The loop that fills the lists [critical], [low] and [warning]. *)
Definition severity_groups (low_stock : list product)
    : list product * list product * list product :=
  foldl (fun '(critical_l, low_l, warning_l) item =>
           match group_of (quantity item) (min_stock item) with
           | critical => (critical_l ++ [item], low_l, warning_l)
           | low => (critical_l, low_l ++ [item], warning_l)
           | warning => (critical_l, low_l, warning_l ++ [item])
           end)
        ([], [], []) low_stock.

(** [len([i for i in low_stock if i['quantity'] == 0])] *)
Definition out_of_stock_count (low_stock : list product) : nat :=
  length (filter (fun i => quantity i = 0) low_stock).

(** *** Product performance *)


(** *** Inventory valuation *)

(** A row of the valuation query; [inventory_value] and [retail_value] are
    its computed columns [quantity * cost] and [quantity * price]. *)
Record stock_row : Type := StockRow {
  v_sku : string;
  v_name : string;
  v_category : string;
  v_quantity : Z;
  v_cost : Q;
  v_price : Q
}.

Definition inventory_value (item : stock_row) : Q :=
  (inject_Z (v_quantity item) * v_cost item)%Q.

Definition retail_value (item : stock_row) : Q :=
  (inject_Z (v_quantity item) * v_price item)%Q.

(** An entry of the dict [categories]. *)
Record cat_totals : Type := CatTotals {
  c_items : Z;
  c_cost : Q;
  c_retail : Q
}.

Definition add_item (item : stock_row) (data : cat_totals) : cat_totals :=
  {| c_items := c_items data + v_quantity item;
     c_cost := c_cost data + inventory_value item;
     c_retail := c_retail data + retail_value item |}.

(** The loop that groups the inventory by category. *)
Definition valuation_categories (inventory : list stock_row)
    : list (string * cat_totals) :=
  foldl (fun categories item =>
           dict_upsert (v_category item) (CatTotals 0 0 0) (add_item item) categories)
        [] inventory.

(** What the valuation report shows; [None] is "No inventory data found". *)
Record valuation : Type := Valuation {
  total_items : Z;
  total_cost : Q;
  total_retail : Q;
  potential_profit : Q;
  average_markup : Q;
  by_category : list (string * cat_totals * Q);
  top_items : list stock_row
}.

Section Valuation.
(** The builtin [sum] on the floats of a column.  How it rounds is the
    interpreter's choice (plain additions from left to right up to Python
    3.11, compensated ones from 3.12 on), not the sources': it is a
    parameter of the report, whose only test on a total is whether it is
    zero. *)
Variable float_sum : list Q -> Q.

Definition inventory_valuation_report (inventory : list stock_row)
    : result (option valuation) :=
  match inventory with
  | [] => Ok None
  | _ =>
      let total_items := sum_int (map v_quantity inventory) in
      let total_cost := float_sum (map inventory_value inventory) in
      let total_retail := float_sum (map retail_value inventory) in
      let potential_profit := (total_retail - total_cost)%Q in
      let categories := valuation_categories inventory in
      bind (float_div total_retail total_cost) (fun q =>
      bind (for_each (fun '(cat, data) =>
                        bind (float_div (c_cost data) total_cost) (fun share =>
                        Ok (cat, data, (share * 100)%Q)))
                     (sorted_desc (fun x => c_cost x.2) categories)) (fun rows =>
      Ok (Some {| total_items := total_items;
                  total_cost := total_cost;
                  total_retail := total_retail;
                  potential_profit := potential_profit;
                  average_markup := ((q - 1) * 100)%Q;
                  by_category := rows;
                  top_items := take 10 (sorted_desc inventory_value inventory) |})))
  end.
End Valuation.

(** *** Profit margin analysis *)

(** An entry of the dict [categories] of the margin analysis. *)
Record margin_stats : Type := MarginStats {
  m_count : Z;
  m_total_margin : Q;
  m_lowest : Q;
  m_highest : Q
}.

Definition add_margin (margin_percent : Q) (data : margin_stats) : margin_stats :=
  {| m_count := m_count data + 1;
     m_total_margin := m_total_margin data + margin_percent;
     m_lowest := Qmin (m_lowest data) margin_percent;
     m_highest := Qmax (m_highest data) margin_percent |}.

(** The loop over the products, each given by its category and its
    [margin_percent]. *)
Definition margin_categories (products : list (string * Q))
    : list (string * margin_stats) :=
  foldl (fun categories item =>
           dict_upsert item.1 (MarginStats 0 0 100 0) (add_margin item.2) categories)
        [] products.

(** [categories[cat]['avg_margin'] = total_margin / count], for every
    category. *)
Definition category_averages (categories : list (string * margin_stats))
    : result (list (string * margin_stats * Q)) :=
  for_each (fun '(cat, data) =>
              bind (float_div (m_total_margin data) (inject_Z (m_count data)))
                   (fun avg => Ok (cat, data, avg)))
           categories.

(** *** Report periods *)

(** A calendar date ([datetime] at midnight). *)
Record date : Type := Date {
  d_year : Z;
  d_month : Z;
  d_day : Z
}.

Definition is_leap (y : Z) : bool :=
  (y mod 4 =? 0) && (negb (y mod 100 =? 0) || (y mod 400 =? 0)).

Definition days_in_month (y m : Z) : Z :=
  if m =? 2 then (if is_leap y then 29 else 28)
  else if (m =? 4) || (m =? 6) || (m =? 9) || (m =? 11) then 30
  else 31.

(** The dates that [datetime] can hold. *)
Definition valid_date (d : date) : Prop :=
  1 <= d_year d <= 9999 /\ 1 <= d_month d <= 12
  /\ 1 <= d_day d <= days_in_month (d_year d) (d_month d).

Definition valid_dateb (y m d : Z) : bool :=
  (1 <=? y) && (y <=? 9999) && (1 <=? m) && (m <=? 12)
  && (1 <=? d) && (d <=? days_in_month y m).

(** [today.replace(year=y, month=m, day=d)] *)
Definition replace_ymd (y m d : Z) : result date :=
  if valid_dateb y m d then Ok (Date y m d) else Raise ValueError.

(** The "Last Month" period: its first day and the day it ends before. *)
Definition last_month_period (today : date) : result (date * date) :=
  let last_month := d_month today - 1 in
  let last_month_year := d_year today in
  let '(last_month, last_month_year) :=
    if decide (last_month = 0) then (12, last_month_year - 1)
    else (last_month, last_month_year) in
  bind (replace_ymd last_month_year last_month 1) (fun start_date =>
  bind (replace_ymd (d_year today) (d_month today) 1) (fun end_date =>
  Ok (start_date, end_date))).

(** [d - timedelta(days=1)]; [None] is the OverflowError raised before the
    first date. *)
Definition minus_one_day (d : date) : option date :=
  if decide (1 < d_day d) then Some (Date (d_year d) (d_month d) (d_day d - 1))
  else if decide (1 < d_month d)
       then Some (Date (d_year d) (d_month d - 1)
                       (days_in_month (d_year d) (d_month d - 1)))
       else if decide (1 < d_year d) then Some (Date (d_year d - 1) 12 31)
            else None.

(** [d.replace(day=1)] on a date that [datetime] holds. *)
Definition first_day (d : date) : date := Date (d_year d) (d_month d) 1.

(** [(d - timedelta(days=1)).replace(day=1)] *)
Definition previous_month_start (d : date) : option date :=
  first_day <$> minus_one_day d.

(** [for _ in range(k): start_date = (start_date - timedelta(days=1)).replace(day=1)] *)
Fixpoint months_back (k : nat) (start_date : date) : option date :=
  match k with
  | O => Some start_date
  | S k' => previous_month_start start_date ≫= months_back k'
  end.

(** The first day of the "Last 3 Months" and "Last 6 Months" periods. *)
Definition last_3_months_start (today : date) : option date :=
  previous_month_start (first_day today) ≫= previous_month_start.

Definition last_6_months_start (today : date) : option date :=
  months_back 5 (first_day today).

End Reports.

(** ** Reference data used in the statements *)

(** The twelve canonical month names, each in its three-letter and its full
    form. *)
Definition canonical_months : list (string * string) :=
  [("Jan", "January"); ("Feb", "February"); ("Mar", "March"); ("Apr", "April");
   ("May", "May"); ("Jun", "June"); ("Jul", "July"); ("Aug", "August");
   ("Sep", "September"); ("Oct", "October"); ("Nov", "November"); ("Dec", "December")].

(** A month token at a place of the calendar (0 for January): the
    three-letter name or the full name of that month. *)
Definition month_at (n : nat) (m : string) : Prop :=
  exists short full, canonical_months !! n = Some (short, full) /\ (m = short \/ m = full).

(** The same for the three-letter name only. *)
Definition short_month_at (n : nat) (m : string) : Prop :=
  exists full, canonical_months !! n = Some (m, full).

(** In a list, every occurrence of [a] stands before every occurrence of
    [b]. *)
Definition comes_before {A} (l : list A) (a b : A) : Prop :=
  forall i j : nat, l !! i = Some a -> l !! j = Some b -> (i < j)%nat.

(** The month index that [get_sort_key] gives to a report. *)
Definition month_index (r : Main.report) : Z :=
  dict_get Main.month_order (slice_to 3 (Main.month r)) 0.

(** A token: no blank character in it. *)
Fixpoint no_space (m : string) : bool :=
  match m with
  | EmptyString => true
  | String c m' => negb (is_space c) && no_space m'
  end.

(** [int] on a non-empty string of ASCII digits; any other text is refused.
    The builtin accepts more (blanks around, a sign, underscores): this
    instance runs the model on the year tokens of the examples. *)
Fixpoint digits_value (acc : Z) (s : string) : option Z :=
  match s with
  | EmptyString => Some acc
  | String c s' =>
      match Ascii.is_nat c with
      | Some d => digits_value (10 * acc + Z.of_nat d) s'
      | None => None
      end
  end.

Definition int_of_digits (s : string) : result Z :=
  match s with
  | EmptyString => Raise ValueError
  | _ => match digits_value 0 s with Some z => Ok z | None => Raise ValueError end
  end.

(** A text made of ASCII digits only. *)
Fixpoint all_digits (s : string) : bool :=
  match s with
  | EmptyString => true
  | String c s' => match Ascii.is_nat c with Some _ => all_digits s' | None => false end
  end.

(** The sum of floats by plain additions from left to right, each one
    rounded: the builtin [sum] up to Python 3.11. *)
Definition sum_left_to_right (l : list Q) : Q :=
  foldl (fun acc x => to_float (acc + x)) 0%Q l.

(** The months counted from year 0: the position of a date's month. *)
Definition month_number (d : Reports.date) : Z :=
  12 * Reports.d_year d + (Reports.d_month d - 1).

(** Whether the displayed low-stock report lists an item in a group. *)
Definition in_group (g : Reports.severity) (item : Store.product) : bool :=
  match Reports.group_of (Store.quantity item) (Store.min_stock item), g with
  | Reports.critical, Reports.critical
  | Reports.low, Reports.low
  | Reports.warning, Reports.warning => true
  | _, _ => false
  end.

(** The first and the second token of a month label. *)
Definition first_token (label : string) : string := default "" (split label !! 0%nat).

Definition second_token (label : string) : string := default "" (split label !! 1%nat).

(** Whether a report has a given sort key. *)
Definition has_sort_key (int : string -> result Z) (k : Z * Z) (r : Main.report) : bool :=
  match Main.get_sort_key int r with
  | Ok k' => bool_decide (k' = k)
  | Raise _ => false
  end.

(** * Properties *)

(** ** Strings and [split] *)

Lemma app_cons (c : ascii) (a b : string) : String c a +:+ b = String c (a +:+ b).
Proof. reflexivity. Qed.

Lemma app_snoc_cons (a : string) (c : ascii) (b : string) :
  (a +:+ String c "") +:+ b = a +:+ String c b.
Proof. induction a as [|x a IH]; [reflexivity|]. rewrite !app_cons. by rewrite IH. Qed.

Lemma app_empty_r (a : string) : a +:+ "" = a.
Proof. induction a as [|x a IH]; [reflexivity|]. by rewrite app_cons, IH. Qed.

Lemma split_go_token (m tok s : string) :
  no_space m = true -> split_go tok (m +:+ s) = split_go (tok +:+ m) s.
Proof.
  revert tok. induction m as [|c m IH]; intros tok Hm.
  - by rewrite app_empty_r.
  - simpl in Hm. apply andb_prop in Hm as [Hc Hm].
    rewrite app_cons. simpl. apply negb_true_iff in Hc. rewrite Hc.
    rewrite IH by done. by rewrite app_snoc_cons.
Qed.

(** A label made of a token, one space and a rest splits into the token
    followed by the tokens of the rest. *)
Lemma split_label (m y : string) :
  no_space m = true -> m <> "" -> split (m +:+ " " +:+ y) = m :: split y.
Proof.
  intros Hm Hne. unfold split. rewrite split_go_token by done.
  change ("" +:+ m) with m. rewrite app_cons. simpl.
  destruct (decide (m = "")); [done|reflexivity].
Qed.

Lemma compare_prefix (p a b : string) :
  String.compare (p +:+ a) (p +:+ b) = String.compare a b.
Proof.
  induction p as [|c p IH]; [reflexivity|].
  rewrite !app_cons. simpl. unfold Ascii.compare. by rewrite N.compare_refl.
Qed.

Lemma str_lt_prefix (p a b : string) : str_lt (p +:+ a) (p +:+ b) = str_lt a b.
Proof. unfold str_lt, String.ltb. by rewrite compare_prefix. Qed.

Lemma str_lt_empty (y a : string) : a <> "" -> str_lt "" (y +:+ a) = true.
Proof. intros Ha. destruct y; [by destruct a|reflexivity]. Qed.

(** ** The month tables *)

Lemma month_num_values :
  map_Forall (fun _ v => str_lt "-00" ("-" +:+ v) = true /\ v <> "") Dashboard.month_num.
Proof. apply (bool_decide_unpack _). by vm_compute. Qed.

(** ** The chronological sort key of the dashboard *)

Section MonthYearKey.
Import Dashboard.

Lemma key_of_two (s month year : string) :
  split s = [month; year] ->
  get_month_year_key s = year +:+ "-" +:+ dict_get month_num month "00".
Proof. unfold get_month_year_key. by intros ->. Qed.

Lemma key_of_other (s : string) :
  length (split s) <> 2%nat -> get_month_year_key s = "".
Proof.
  unfold get_month_year_key. intros Hlen.
  destruct (split s) as [|a [|b [|c l]]]; try reflexivity. by destruct Hlen.
Qed.

Lemma key_nonempty (s : string) :
  length (split s) = 2%nat -> str_lt "" (get_month_year_key s) = true.
Proof.
  intros Hlen. destruct (split s) as [|m [|y [|c l]]] eqn:Hs; try discriminate Hlen.
  rewrite (key_of_two _ _ _ Hs). by apply str_lt_empty.
Qed.

(** C10. [get_month_year_key] is defined on every string, and every string
    falls in one of three cases: it does not split into exactly two
    tokens and its key is the empty string; it splits into a month that
    is not in the table and a year, and its key is the year followed by
    "-00"; or it splits into a month of the table and a year, and its key
    is the year, a dash and the month's two digits.  The empty key comes
    strictly before the key of every two-token label, and the "-00" key
    comes strictly before the key of every label of the same year whose
    month is in the table. *)
Theorem get_month_year_key_total :
  (forall s : string,
      (length (split s) <> 2%nat /\ get_month_year_key s = "")
      \/ (exists month year, split s = [month; year] /\ month_num !! month = None
                              /\ get_month_year_key s = year +:+ "-00")
      \/ (exists month year v, split s = [month; year] /\ month_num !! month = Some v
                                /\ get_month_year_key s = year +:+ "-" +:+ v))
  /\ (forall s w : string,
        length (split s) <> 2%nat -> length (split w) = 2%nat ->
        str_lt (get_month_year_key s) (get_month_year_key w) = true)
  /\ (forall s w month month' year : string,
        split s = [month; year] -> month_num !! month = None ->
        split w = [month'; year] -> is_Some (month_num !! month') ->
        str_lt (get_month_year_key s) (get_month_year_key w) = true).
Proof.
  split; [|split].
  - intros s. destruct (decide (length (split s) = 2%nat)) as [Hlen|Hlen].
    + right. destruct (split s) as [|m [|y [|c l]]] eqn:Hs; try discriminate Hlen.
      rewrite (key_of_two _ _ _ Hs). unfold dict_get.
      destruct (month_num !! m) as [v|] eqn:Hm; [right|left]; eauto 6.
    + left. split; [done|]. by apply key_of_other.
  - intros s w Hs Hw. rewrite (key_of_other _ Hs). by apply key_nonempty.
  - intros s w m m' y Hs Hm Hw [v Hv].
    rewrite (key_of_two _ _ _ Hs), (key_of_two _ _ _ Hw). unfold dict_get.
    rewrite Hm, Hv. simpl. rewrite str_lt_prefix.
    by destruct (month_num_values _ _ Hv).
Qed.

Lemma get_month_year_key_total_witness :
  get_month_year_key "2024" = ""
  /\ str_lt (get_month_year_key "Jan 2024 final") (get_month_year_key "Jan 2024") = true
  /\ str_lt (get_month_year_key "Smarch 2024") (get_month_year_key "Jan 2024") = true.
Proof.
  destruct get_month_year_key_total as (Hcases & Hempty & Hzero).
  split; [|split].
  - destruct (Hcases "2024") as [[_ H]|[(m & y & H & _)|(m & y & v & H & _)]];
      [exact H|discriminate H|discriminate H].
  - apply Hempty; vm_compute; [discriminate|reflexivity].
  - apply (Hzero _ _ "Smarch" "Jan" "2024"); vm_compute; eauto.
Defined.

(** The two forms of a canonical month give the same entry of both month
    tables. *)
Lemma canonical_same_entry (abbr full : string) :
  (abbr, full) ∈ canonical_months ->
  no_space abbr = true /\ no_space full = true /\ abbr <> "" /\ full <> ""
  /\ is_Some (month_num !! abbr)
  /\ month_num !! abbr = month_num !! full
  /\ is_Some (Main.month_order !! slice_to 3 abbr)
  /\ slice_to 3 abbr = slice_to 3 full.
Proof.
  intros H. apply list_elem_of_In in H. simpl in H.
  repeat (destruct H as [H|H];
          [injection H as <- <-; vm_compute; repeat split; (discriminate || eauto)|]).
  destruct H.
Qed.

(** C6 (amended). Month tokens are matched exactly as written in the
    tables, in the capitalised spelling only.  For each of the twelve
    canonical months, the three-letter form and the full form, followed
    by the same year text, get the same key from [get_month_year_key] and
    the same key from [get_sort_key], and that key carries the month's
    number (the token is found in the table). *)
Theorem canonical_forms_same_key (abbr full : string) :
  (abbr, full) ∈ canonical_months ->
  (forall y : string,
      get_month_year_key (abbr +:+ " " +:+ y) = get_month_year_key (full +:+ " " +:+ y))
  /\ (forall (int : string -> result Z) (y : string) (d : frame),
        Main.get_sort_key int (Main.Report abbr y d)
        = Main.get_sort_key int (Main.Report full y d))
  /\ is_Some (month_num !! abbr) /\ month_num !! abbr = month_num !! full
  /\ is_Some (Main.month_order !! slice_to 3 abbr).
Proof.
  intros H. destruct (canonical_same_entry _ _ H)
    as (Ha & Hf & Hane & Hfne & Hin & Heq & Hin' & Hsl).
  repeat split; try done.
  - intros y. unfold get_month_year_key. rewrite !split_label by done.
    destruct (split y) as [|yr [|]]; try reflexivity.
    unfold dict_get. by rewrite Heq.
  - intros int y d. unfold Main.get_sort_key. cbn [Main.month Main.year].
    by rewrite Hsl.
Qed.

Lemma canonical_forms_same_key_witness :
  get_month_year_key "Sep 2024" = get_month_year_key "September 2024"
  /\ Main.get_sort_key int_of_digits (Main.Report "Sep" "2024" [])
     = Main.get_sort_key int_of_digits (Main.Report "September" "2024" []).
Proof.
  assert (Hin : ("Sep", "September") ∈ canonical_months)
    by (apply list_elem_of_In; simpl; tauto).
  destruct (canonical_forms_same_key "Sep" "September" Hin) as (Hkey & Hsort & _).
  split; [exact (Hkey "2024")|exact (Hsort int_of_digits "2024" [])].
Defined.

(** C6, as stated, fails: a lower-case token is not found in either table,
    so "jan" and "January" with the same year get different keys. *)
Lemma lower_case_month_differs :
  get_month_year_key "jan 2024" = "2024-00"
  /\ get_month_year_key "January 2024" = "2024-01"
  /\ get_month_year_key "jan 2024" <> get_month_year_key "January 2024"
  /\ Main.get_sort_key int_of_digits (Main.Report "jan" "2024" []) = Ok (2024, 0)
  /\ Main.get_sort_key int_of_digits (Main.Report "January" "2024" []) = Ok (2024, 1)
  /\ Main.get_sort_key int_of_digits (Main.Report "jan" "2024" [])
     <> Main.get_sort_key int_of_digits (Main.Report "January" "2024" []).
Proof. repeat split; vm_compute; discriminate. Qed.

End MonthYearKey.


(** ** Chronological order of the reports ([main.py]) *)

Section SortKey.
Import Main.
Variable int : string -> result Z.

Lemma get_sort_key_ok (r : report) (y : Z) :
  int (year r) = Ok y -> get_sort_key int r = Ok (y, month_index r).
Proof. unfold get_sort_key. by intros ->. Qed.

Lemma tuple_lt_spec (a b : Z * Z) :
  tuple_lt a b = true <-> a.1 < b.1 \/ (a.1 = b.1 /\ a.2 < b.2).
Proof. unfold tuple_lt. destruct a, b; simpl. lia. Qed.

Lemma tuple_le_total (a b : Z * Z) : tuple_le a b = false -> tuple_le b a = true.
Proof.
  unfold tuple_le. rewrite negb_false_iff, negb_true_iff. intros H%tuple_lt_spec.
  apply not_true_is_false. rewrite tuple_lt_spec. lia.
Qed.

End SortKey.

(** ** [sorted]: the result is an ordered rearrangement *)

Section SortedFacts.
Context {A K : Type} (le : K -> K -> bool).
Hypothesis le_total : forall a b, le a b = false -> le b a = true.

Lemma insert_by_perm (x : K * A) (l : list (K * A)) : insert_by le x l ≡ₚ x :: l.
Proof.
  induction l as [|y l IH]; simpl; [done|].
  destruct (le x.1 y.1); [done|]. rewrite IH. apply Permutation_swap.
Qed.

Lemma sort_keyed_perm (l : list (K * A)) : sort_keyed le l ≡ₚ l.
Proof.
  induction l as [|x l IH]; simpl; [done|].
  unfold sort_keyed in IH. by rewrite insert_by_perm, IH.
Qed.

Lemma insert_by_sorted (x : K * A) (l : list (K * A)) :
  Sorted (fun a b => le a.1 b.1 = true) l ->
  Sorted (fun a b => le a.1 b.1 = true) (insert_by le x l).
Proof.
  induction 1 as [|y l Hl IH Hhd]; simpl.
  - by repeat constructor.
  - destruct (le x.1 y.1) eqn:Hxy.
    + constructor; [by constructor|by constructor].
    + constructor; [done|].
      destruct l as [|z l]; simpl in *.
      * constructor. by apply le_total.
      * destruct (le x.1 z.1); constructor; [by apply le_total|by inversion Hhd].
Qed.

Lemma sort_keyed_sorted (l : list (K * A)) :
  Sorted (fun a b => le a.1 b.1 = true) (sort_keyed le l).
Proof.
  induction l as [|x l IH]; simpl; [constructor|]. by apply insert_by_sorted.
Qed.

Lemma keyed_ok (key : A -> result K) (l : list A) (kl : list (K * A)) :
  keyed key l = Ok kl ->
  map snd kl = l /\ Forall (fun kx => key kx.2 = Ok kx.1) kl.
Proof.
  revert kl. induction l as [|x l IH]; simpl; intros kl H.
  - injection H as <-. by split.
  - destruct (key x) as [k|e] eqn:Hk; [|discriminate]. simpl in H.
    destruct (keyed key l) as [kl'|e] eqn:Hkl; [|discriminate]. simpl in H.
    injection H as <-. destruct (IH _ eq_refl) as [Hm Hf]. simpl. split.
    + by rewrite Hm.
    + by constructor.
Qed.

(** [sorted] returns a rearrangement of its argument in which each element's
    key is at most the key of the next one. *)
Lemma sorted_ordered (key : A -> result K) (l l' : list A) :
  sorted le key l = Ok l' ->
  l' ≡ₚ l
  /\ Sorted (fun a b => exists ka kb,
                 key a = Ok ka /\ key b = Ok kb /\ le ka kb = true) l'.
Proof.
  unfold sorted. destruct (keyed key l) as [kl|e] eqn:Hkl; [|discriminate].
  simpl. intros [= <-]. destruct (keyed_ok _ _ _ Hkl) as [Hm Hf]. split.
  - rewrite <- Hm. apply Permutation_map, sort_keyed_perm.
  - assert (Hf' : Forall (fun kx => key kx.2 = Ok kx.1) (sort_keyed le kl))
      by (by rewrite sort_keyed_perm).
    pose proof (sort_keyed_sorted kl) as Hs. clear Hkl Hm Hf.
    induction Hs as [|y l0 Hl IH Hhd]; simpl; [constructor|].
    inversion Hf' as [|? ? Hy Hrest]; subst. constructor; [by apply IH|].
    destruct Hhd as [|z l1 Hyz]; simpl; constructor.
    inversion Hrest; subst. by exists y.1, z.1.
Qed.

End SortedFacts.

(** The reports of the [monthly] command are processed in a non-decreasing
    order of their (year, month index) keys. *)
Lemma sorted_reports_ordered (int : string -> result Z) (l l' : list Main.report) :
  Main.sorted_reports int l = Ok l' ->
  l' ≡ₚ l
  /\ Sorted (fun a b => exists ka kb,
                 Main.get_sort_key int a = Ok ka /\ Main.get_sort_key int b = Ok kb
                 /\ tuple_le ka kb = true) l'.
Proof. apply (sorted_ordered tuple_le tuple_le_total). Qed.

(** ** Sorting by a key that cannot raise *)

Section SortByKey.
Context {A K : Type} (le : K -> K -> bool) (key : A -> K).
Hypothesis le_total : forall a b, le a b = false -> le b a = true.

Lemma sort_by_key_perm (l : list A) :
  map snd (sort_keyed le (map (fun x => (key x, x)) l)) ≡ₚ l.
Proof.
  rewrite (sort_keyed_perm le), map_map. simpl. by rewrite map_id.
Qed.

Lemma sort_by_key_sorted (R : A -> A -> Prop) (l : list A) :
  (forall a b, le (key a) (key b) = true -> R a b) ->
  Sorted R (map snd (sort_keyed le (map (fun x => (key x, x)) l))).
Proof.
  intros HR.
  assert (Hf : Forall (fun kx => kx.1 = key kx.2)
                      (sort_keyed le (map (fun x => (key x, x)) l))).
  { rewrite (sort_keyed_perm le). apply Forall_forall.
    intros kx (x & -> & _)%list_elem_of_fmap. done. }
  pose proof (sort_keyed_sorted le le_total (map (fun x => (key x, x)) l)) as Hs.
  induction Hs as [|y l0 Hl IH Hhd]; simpl; [constructor|].
  inversion Hf as [|? ? Hy Hrest]; subst. constructor; [by apply IH|].
  destruct Hhd as [|z l1 Hyz]; simpl; constructor.
  inversion Hrest as [|? ? Hz _]; subst. apply HR. by rewrite <- Hy, <- Hz.
Qed.

(** Stability: the elements whose keys fall in one class of equal keys
    keep their order. *)
Lemma sort_by_key_stable (same : K -> bool) (l : list A) :
  (forall a b, le a b = false -> same a = true -> same b = true -> False) ->
  filter (fun x => same (key x) = true)
         (map snd (sort_keyed le (map (fun x => (key x, x)) l)))
  = filter (fun x => same (key x) = true) l.
Proof.
  intros Hsame.
  assert (Hins : forall (x : K * A) kl,
             filter (fun kx => same kx.1 = true) (insert_by le x kl)
             = filter (fun kx => same kx.1 = true) (x :: kl)).
  { intros x kl. induction kl as [|y kl IH]; simpl; [done|].
    destruct (le x.1 y.1) eqn:Hxy; [done|].
    rewrite filter_cons, IH, !filter_cons.
    destruct (decide (same y.1 = true)) as [Hy|Hy];
      destruct (decide (same x.1 = true)) as [Hx|Hx]; try done.
    destruct (Hsame _ _ Hxy Hx Hy). }
  assert (Hsort : forall kl : list (K * A),
             filter (fun kx => same kx.1 = true) (sort_keyed le kl)
             = filter (fun kx => same kx.1 = true) kl).
  { induction kl as [|x kl IH]; [done|].
    change (sort_keyed le (x :: kl)) with (insert_by le x (sort_keyed le kl)).
    by rewrite Hins, !filter_cons, IH. }
  assert (Hsnd : forall kl : list (K * A),
             Forall (fun kx => kx.1 = key kx.2) kl ->
             filter (fun x => same (key x) = true) (map snd kl)
             = map snd (filter (fun kx => same kx.1 = true) kl)).
  { induction 1 as [|kx kl Hkx _ IH]; [done|]. cbn [map].
    rewrite !filter_cons, IH, Hkx.
    by destruct (decide (same (key kx.2) = true)). }
  rewrite Hsnd, Hsort, <- Hsnd.
  - by rewrite map_map, map_id.
  - apply Forall_forall. intros kx (x & -> & _)%list_elem_of_fmap. done.
  - rewrite (sort_keyed_perm le). apply Forall_forall.
    intros kx (x & -> & _)%list_elem_of_fmap. done.
Qed.

End SortByKey.

(** ** Month-over-month growth *)

Lemma growth_rate_spec (prev cur : Q) :
  ((0 < prev)%Q -> Main.growth_rate prev cur = Some ((cur - prev) / prev * 100)%Q)
  /\ ((prev <= 0)%Q -> Main.growth_rate prev cur = None).
Proof.
  unfold Main.growth_rate. destruct (Qlt_le_dec 0 prev) as [Hlt|Hle]; split; intros H;
    try reflexivity.
  - by destruct (Qlt_not_le _ _ Hlt).
  - by destruct (Qlt_not_le _ _ H).
Qed.

(** The [monthly] command of [main.py] on [n] monthly totals: the loop never
    indexes out of range, it yields [n - 1] lines, and line [i] holds the
    growth from total [i] to total [i + 1]. *)
Lemma for_each_ok {A B} (f : A -> result B) (l : list A) :
  (forall x, x ∈ l -> exists y, f x = Ok y) ->
  exists out, for_each f l = Ok out /\ Forall2 (fun x y => f x = Ok y) l out.
Proof.
  induction l as [|x l IH]; intros Hf; simpl.
  - exists []. by split.
  - destruct (Hf x) as [y Hy]; [by left|].
    destruct IH as (out & Hout & Hall); [intros z Hz; apply Hf; by right|].
    exists (y :: out). rewrite Hy, Hout. split; [done|by constructor].
Qed.

Lemma index_lt {A} (l : list A) (i : nat) :
  (i < length l)%nat -> exists x, l !! i = Some x /\ index l i = Ok x.
Proof.
  intros Hi. destruct (lookup_lt_is_Some_2 l i Hi) as [x Hx].
  exists x. unfold index. by rewrite Hx.
Qed.

Lemma index_Some {A} (l : list A) (i : nat) (x : A) : l !! i = Some x -> index l i = Ok x.
Proof. unfold index. by intros ->. Qed.

Lemma growth_data_adjacent (n : nat) (months : list string) (units sales : list Q) :
  length months = n -> length units = n -> length sales = n ->
  exists g,
    Main.growth_data n months units sales = Ok g
    /\ length g = (n - 1)%nat
    /\ forall (i : nat) m0 m1 u0 u1 s0 s1,
        months !! i = Some m0 -> months !! S i = Some m1 ->
        units !! i = Some u0 -> units !! S i = Some u1 ->
        sales !! i = Some s0 -> sales !! S i = Some s1 ->
        g !! i = Some (m0 +:+ " to " +:+ m1,
                       Main.growth_rate u0 u1, Main.growth_rate s0 s1).
Proof.
  intros Hm Hu Hs. unfold Main.growth_data.
  destruct (for_each_ok (Main.growth_line months units sales) (seq 1 (n - 1)))
    as (g & Hg & Hall).
  - intros i Hi%elem_of_seq. unfold Main.growth_line.
    destruct (index_lt months (i - 1)) as (m0 & _ & ->); [lia|].
    destruct (index_lt months i) as (m1 & _ & ->); [lia|].
    destruct (index_lt units (i - 1)) as (u0 & _ & ->); [lia|].
    destruct (index_lt units i) as (u1 & _ & ->); [lia|].
    destruct (index_lt sales (i - 1)) as (s0 & _ & ->); [lia|].
    destruct (index_lt sales i) as (s1 & _ & ->); [lia|].
    simpl. eauto.
  - exists g. split; [done|]. split.
    + apply Forall2_length in Hall. by rewrite length_seq in Hall.
    + intros i m0 m1 u0 u1 s0 s1 Hm0 Hm1 Hu0 Hu1 Hs0 Hs1.
      assert (Hi : (S i < n)%nat) by (rewrite <- Hm; by eapply lookup_lt_Some).
      assert (Hseq : seq 1 (n - 1) !! i = Some (S i))
        by (rewrite lookup_seq_lt by lia; reflexivity).
      destruct (Forall2_lookup_l _ _ _ _ _ Hall Hseq) as (y & Hy & Hline).
      rewrite Hy. f_equal. unfold Main.growth_line in Hline.
      replace (S i - 1)%nat with i in Hline by lia.
      rewrite (index_Some _ _ _ Hm0), (index_Some _ _ _ Hm1), (index_Some _ _ _ Hu0),
        (index_Some _ _ _ Hu1), (index_Some _ _ _ Hs0), (index_Some _ _ _ Hs1) in Hline.
      simpl in Hline. by injection Hline.
Qed.

Lemma keyed_total {A K} (key : A -> result K) (l : list A) :
  (forall x, x ∈ l -> exists k, key x = Ok k) -> exists kl, keyed key l = Ok kl.
Proof.
  induction l as [|x l IH]; intros Hk; simpl; [by eexists|].
  destruct (Hk x) as [k ->]; [by left|].
  destruct IH as [kl ->]; [intros z Hz; apply Hk; by right|]. by eexists.
Qed.

(** The [monthly] command on two reports or more whose years are integers:
    it prints one total per report and one growth line less. *)
Lemma monthly_growth_lines (int : string -> result Z) (l : list Main.report) :
  (2 <= length l)%nat ->
  (forall r, r ∈ l -> exists y, int (Main.year r) = Ok y) ->
  exists totals g,
    Main.monthly int l = Ok (Main.Tables totals (Some g))
    /\ length totals = length l
    /\ length g = (length l - 1)%nat.
Proof.
  intros Hlen Hint. unfold Main.monthly.
  destruct (decide (length l < 2)%nat) as [?|_]; [lia|].
  destruct (keyed_total (Main.get_sort_key int) l) as [kl Hkl].
  { intros r Hr. destruct (Hint r Hr) as [y Hy]. eexists. by apply get_sort_key_ok. }
  destruct (Main.sorted_reports int l) as [l'|e] eqn:Hsort;
    [|unfold Main.sorted_reports, sorted in Hsort; by rewrite Hkl in Hsort].
  destruct (sorted_reports_ordered _ _ _ Hsort) as [Hperm _].
  apply Permutation_length in Hperm. simpl.
  destruct (decide (2 <= length l')%nat) as [_|?]; [|lia].
  destruct (growth_data_adjacent (length l') (map Main.month_label l')
              (map (fun r => col_sum Sold (drop_total (Main.data r))) l')
              (map (fun r => col_sum Net_Sales (drop_total (Main.data r))) l'))
    as (g & -> & Hg & _); try apply length_map.
  simpl. eexists _, g. split; [reflexivity|]. split; [|lia].
  rewrite !length_zip_with, !length_map. lia.
Qed.

(** A zero base in the dashboard's growth column: [pct_change] divides by
    it and the cell holds an infinity, which is not a missing value. *)
Lemma pct_change_zero_base (prev cur : Q) :
  (prev == 0)%Q -> (0 < cur)%Q ->
  Dashboard.sales_growth [prev; cur] = [Dashboard.NaN; Dashboard.PInf]
  /\ Dashboard.growth_cell Dashboard.PInf = Some Dashboard.PInf.
Proof.
  intros Hp Hc. split; [|reflexivity].
  unfold Dashboard.sales_growth, Dashboard.pct_change. simpl. unfold Dashboard.fdiv.
  rewrite (Qeq_eq_bool _ _ Hp).
  destruct (Qeq_bool cur 0) eqn:Hz.
  - apply Qeq_bool_eq in Hz. rewrite Hz in Hc. by destruct (Qlt_irrefl 0).
  - destruct (Qlt_le_dec 0 cur) as [_|Hle]; [reflexivity|].
    by destruct (Qlt_not_le _ _ Hc).
Qed.

(** A positive base in the dashboard's growth column: the cell holds the
    same growth as the formula of [main.py]. *)
Lemma pct_change_positive_base (prev cur : Q) :
  (0 < prev)%Q ->
  exists g : Q,
    Dashboard.sales_growth [prev; cur] = [Dashboard.NaN; Dashboard.Fin g]
    /\ (g == (cur - prev) / prev * 100)%Q
    /\ Main.growth_rate prev cur = Some ((cur - prev) / prev * 100)%Q.
Proof.
  intros Hp. exists ((cur / prev - 1) * 100)%Q.
  assert (Hne : ~ (prev == 0)%Q) by (intros H; rewrite H in Hp; by destruct (Qlt_irrefl 0)).
  split; [|split].
  - unfold Dashboard.sales_growth, Dashboard.pct_change. simpl. unfold Dashboard.fdiv.
    destruct (Qeq_bool prev 0) eqn:Hz; [|reflexivity].
    by apply Qeq_bool_eq in Hz.
  - field. exact Hne.
  - by apply growth_rate_spec.
Qed.

(** C2 on the Monthly Analysis page of [dashboard.py]: for the monthly
    totals 100, 150, 0, 50 the growth column has four entries, the first one
    missing, and the growth from the zero total is an infinity that the
    table shows as a number, where [main.py] prints N/A. *)
Theorem dashboard_growth_from_zero :
  exists a b : Q,
    (a == 50)%Q /\ (b == -100)%Q
    /\ map Dashboard.growth_cell (Dashboard.sales_growth [100; 150; 0; 50]%Q)
       = [None; Some (Dashboard.Fin a); Some (Dashboard.Fin b); Some Dashboard.PInf]
    /\ Main.growth_rate 0 50 = None.
Proof. eexists _, _. split; [|split; [|split; reflexivity]]; reflexivity. Qed.


(** ** Years written in digits *)

Lemma is_nat_code (c : ascii) (x : nat) :
  Ascii.is_nat c = Some x ->
  N_of_ascii c = (48 + N.of_nat x)%N /\ (x < 10)%nat /\ is_space c = false.
Proof.
  destruct c as [[] [] [] [] [] [] [] []]; simpl; intros H; try discriminate H;
    injection H as <-; repeat split; lia.
Qed.

Lemma all_digits_no_space (s : string) : all_digits s = true -> no_space s = true.
Proof.
  induction s as [|c s IH]; simpl; [done|].
  destruct (Ascii.is_nat c) as [x|] eqn:Hc; [|done]. intros Hs.
  destruct (is_nat_code c x Hc) as (_ & _ & ->). simpl. by apply IH.
Qed.

Lemma digits_value_bounds (s : string) (acc : Z) :
  all_digits s = true ->
  exists v, digits_value acc s = Some v
            /\ acc * 10 ^ Z.of_nat (String.length s) <= v
               < (acc + 1) * 10 ^ Z.of_nat (String.length s).
Proof.
  revert acc. induction s as [|c s IH]; intros acc; simpl.
  - intros _. exists acc. split; [done|]. change (10 ^ 0) with 1. lia.
  - destruct (Ascii.is_nat c) as [x|] eqn:Hc; [|done]. intros Hs.
    destruct (is_nat_code c x Hc) as (_ & Hx & _).
    destruct (IH (10 * acc + Z.of_nat x) Hs) as (v & Hv & Hlo & Hhi).
    exists v. split; [done|].
    rewrite Nat2Z.inj_succ, Z.pow_succ_r by lia.
    assert (0 < 10 ^ Z.of_nat (String.length s)) by (apply Z.pow_pos_nonneg; lia).
    nia.
Qed.

Lemma compare_digits (a b : string) (acc va vb : Z) :
  all_digits a = true -> all_digits b = true -> String.length a = String.length b ->
  digits_value acc a = Some va -> digits_value acc b = Some vb ->
  String.compare a b = (va ?= vb).
Proof.
  revert b acc. induction a as [|c a IH]; intros [|d b] acc; simpl; try done.
  - intros _ _ _ [= <-] [= <-]. by rewrite Z.compare_refl.
  - destruct (Ascii.is_nat c) as [x|] eqn:Hc; [|done].
    destruct (Ascii.is_nat d) as [y|] eqn:Hd; [|done].
    intros Ha Hb [= Hlen] Hva Hvb.
    destruct (is_nat_code c x Hc) as (Hcx & Hx & _).
    destruct (is_nat_code d y Hd) as (Hdy & Hy & _).
    unfold Ascii.compare. rewrite Hcx, Hdy.
    destruct (digits_value_bounds a (10 * acc + Z.of_nat x) Ha) as (va' & Hva' & Hla & Hha).
    destruct (digits_value_bounds b (10 * acc + Z.of_nat y) Hb) as (vb' & Hvb' & Hlb & Hhb).
    rewrite Hva in Hva'. rewrite Hvb in Hvb'. injection Hva' as <-. injection Hvb' as <-.
    rewrite <- Hlen in Hlb, Hhb.
    assert (0 < 10 ^ Z.of_nat (String.length a)) by (apply Z.pow_pos_nonneg; lia).
    destruct (N.compare_spec (48 + N.of_nat x) (48 + N.of_nat y)) as [Heq|Hlt|Hgt].
    + assert (x = y) by lia. subst y. by apply (IH b (10 * acc + Z.of_nat x)).
    + symmetry. apply Z.compare_lt_iff. nia.
    + symmetry. apply Z.compare_gt_iff. nia.
Qed.

(** ** The order of the sorted reports *)

Lemma StronglySorted_lookup {A} (R : A -> A -> Prop) (l : list A) (i j : nat) (x y : A) :
  StronglySorted R l -> l !! i = Some x -> l !! j = Some y -> (i < j)%nat -> R x y.
Proof.
  intros Hs. revert i j. induction Hs as [|z l Hs IH Hz]; intros i j Hi Hj Hij.
  - by rewrite lookup_nil in Hi.
  - destruct i as [|i], j as [|j]; try lia; simpl in Hi, Hj.
    + injection Hi as <-. rewrite Forall_forall in Hz. apply Hz.
      by eapply list_elem_of_lookup_2.
    + apply (IH i j); [done|done|lia].
Qed.

(** In a list sorted by a transitive relation, an element stands before
    the elements that are not related to it the other way round. *)
Lemma sorted_comes_before {A} (R : A -> A -> Prop) (l : list A) (a b : A) :
  Transitive R -> Sorted R l -> ~ R b a -> a <> b -> comes_before l a b.
Proof.
  intros Htr Hs Hn Hne i j Hi Hj.
  apply (Sorted_StronglySorted Htr) in Hs.
  destruct (lt_eq_lt_dec i j) as [[Hlt | ->] | Hgt]; [done| |].
  - rewrite Hi in Hj. by injection Hj.
  - destruct Hn. by apply (StronglySorted_lookup R l j i).
Qed.

Lemma tuple_le_trans (a b c : Z * Z) :
  tuple_le a b = true -> tuple_le b c = true -> tuple_le a c = true.
Proof.
  unfold tuple_le. rewrite !negb_true_iff. intros Hab Hbc.
  apply not_true_is_false. intros Hca%tuple_lt_spec.
  apply not_true_iff_false in Hab, Hbc. rewrite tuple_lt_spec in Hab, Hbc. lia.
Qed.

(** [main.py]: a report whose key is smaller stands before the other one
    in the sorted list. *)
Lemma sorted_reports_before (int : string -> result Z) (l l' : list Main.report)
    (a b : Main.report) (ka kb : Z * Z) :
  Main.sorted_reports int l = Ok l' ->
  Main.get_sort_key int a = Ok ka -> Main.get_sort_key int b = Ok kb ->
  tuple_lt ka kb = true -> comes_before l' a b.
Proof.
  intros Hs Ha Hb Hlt. destruct (sorted_reports_ordered int l l' Hs) as [_ Hsorted].
  eapply sorted_comes_before; [|exact Hsorted| |].
  - intros x y z (kx & ky & Hx & Hy & Hxy) (ky' & kz & Hy' & Hz & Hyz).
    rewrite Hy in Hy'. injection Hy' as <-.
    exists kx, kz. split; [done|]. split; [done|]. by eapply tuple_le_trans.
  - intros (kb' & ka' & Hb' & Ha' & Hle).
    rewrite Ha in Ha'. rewrite Hb in Hb'. injection Ha' as <-. injection Hb' as <-.
    unfold tuple_le in Hle. rewrite Hlt in Hle. discriminate.
  - intros ->. rewrite Ha in Hb. injection Hb as <-.
    apply tuple_lt_spec in Hlt. lia.
Qed.

(** The order of strings. *)
Lemma str_compare_trans (a b c : string) :
  String.compare a b = Lt -> String.compare b c = Lt -> String.compare a c = Lt.
Proof.
  revert b c. induction a as [|x a IH]; intros [|y b] [|z c]; simpl; try done.
  unfold Ascii.compare.
  destruct (N.compare_spec (N_of_ascii x) (N_of_ascii y)),
           (N.compare_spec (N_of_ascii y) (N_of_ascii z)),
           (N.compare_spec (N_of_ascii x) (N_of_ascii z));
    try done; try lia.
  apply IH.
Qed.

Lemma str_compare_cases (a b : string) :
  String.compare a b = Lt \/ a = b \/ String.compare b a = Lt.
Proof.
  destruct (String.compare a b) eqn:H.
  - right. left. by apply String.compare_eq_iff.
  - by left.
  - right. right. rewrite String.compare_antisym, H. reflexivity.
Qed.

Lemma str_compare_irrefl (a : string) : String.compare a a <> Lt.
Proof.
  intros H. pose proof (String.compare_antisym a a) as E. rewrite H in E. discriminate.
Qed.

Lemma reports_key_lt_spec (a b : string * Z) :
  Dashboard.reports_key_lt a b = true
  <-> String.compare a.1 b.1 = Lt \/ (a.1 = b.1 /\ a.2 < b.2).
Proof.
  unfold Dashboard.reports_key_lt, str_lt, String.ltb.
  rewrite orb_true_iff, andb_true_iff, bool_decide_eq_true, Z.ltb_lt.
  destruct (String.compare a.1 b.1); split; intros [H|H]; auto; discriminate.
Qed.

Lemma reports_key_le_total (a b : string * Z) :
  Dashboard.reports_key_le a b = false -> Dashboard.reports_key_le b a = true.
Proof.
  unfold Dashboard.reports_key_le. rewrite negb_false_iff, negb_true_iff.
  intros Hba%reports_key_lt_spec. apply not_true_is_false.
  intros Hab%reports_key_lt_spec.
  destruct Hba as [Hba|[Hba ?]], Hab as [Hab|[Hab ?]]; try lia.
  - by destruct (str_compare_irrefl a.1); eapply str_compare_trans.
  - rewrite Hab in Hba. by destruct (str_compare_irrefl b.1).
  - rewrite Hba in Hab. by destruct (str_compare_irrefl a.1).
Qed.

Lemma reports_key_le_trans (a b c : string * Z) :
  Dashboard.reports_key_le a b = true -> Dashboard.reports_key_le b c = true ->
  Dashboard.reports_key_le a c = true.
Proof.
  unfold Dashboard.reports_key_le. rewrite !negb_true_iff. intros Hab Hbc.
  apply not_true_is_false. intros Hca%reports_key_lt_spec.
  apply not_true_iff_false in Hab, Hbc. rewrite reports_key_lt_spec in Hab, Hbc.
  destruct (str_compare_cases a.1 b.1) as [H|[H|H]]; [| |tauto].
  - destruct Hca as [Hca|[Hca _]].
    + destruct Hbc. left. by eapply str_compare_trans.
    + destruct Hbc. left. by rewrite Hca.
  - destruct Hca as [Hca|[Hca Hlt]].
    + destruct Hbc. left. by rewrite <- H.
    + assert (~ b.2 < a.2) by (intros ?; apply Hab; right; by split).
      assert (~ c.2 < b.2) by (intros ?; apply Hbc; right; split; [congruence|done]).
      lia.
Qed.

(** [dashboard.py]: the same for [get_reports]. *)
Lemma get_reports_perm (l : list Main.report) : Dashboard.get_reports l ≡ₚ l.
Proof. apply (sort_by_key_perm Dashboard.reports_key_le). Qed.

Lemma get_reports_before (l : list Main.report) (a b : Main.report) :
  Dashboard.reports_key_lt (Dashboard.get_reports_key a) (Dashboard.get_reports_key b)
  = true ->
  comes_before (Dashboard.get_reports l) a b.
Proof.
  intros Hlt.
  apply (sorted_comes_before
           (fun x y => Dashboard.reports_key_le (Dashboard.get_reports_key x)
                                                (Dashboard.get_reports_key y) = true)).
  - intros x y z. apply reports_key_le_trans.
  - apply (sort_by_key_sorted Dashboard.reports_key_le Dashboard.get_reports_key
             reports_key_le_total). auto.
  - unfold Dashboard.reports_key_le. by rewrite Hlt.
  - intros ->. apply reports_key_lt_spec in Hlt as [H|[_ H]]; [|lia].
    by destruct (str_compare_irrefl (Dashboard.get_reports_key b).1).
Qed.

(** The month tables give a month token its place in the calendar. *)
Lemma month_at_index (n : nat) (m : string) :
  month_at n m -> dict_get Main.month_order (slice_to 3 m) 0 = Z.of_nat n + 1.
Proof.
  intros (short & full & Hn & Hm).
  do 12 (destruct n as [|n];
         [injection Hn as <- <-; destruct Hm as [-> | ->]; reflexivity|]).
  discriminate Hn.
Qed.

Lemma short_month_at_index (n : nat) (m : string) :
  short_month_at n m -> dict_get Dashboard.month_order m 0 = Z.of_nat n + 1.
Proof.
  intros (full & Hn).
  do 12 (destruct n as [|n]; [injection Hn as <- <-; reflexivity|]).
  discriminate Hn.
Qed.

Lemma int_of_digits_value (s : string) (v : Z) :
  int_of_digits s = Ok v -> digits_value 0 s = Some v.
Proof.
  unfold int_of_digits. destruct s as [|c s]; [done|].
  by destruct (digits_value 0 (String c s)); intros [= <-].
Qed.

(** C1. Reports are ordered by year, then by the place of the month in
    the calendar.  In [main.py] the sort of the [monthly] command returns,
    when every year is an integer, a rearrangement of the reports in which
    a report of an earlier year stands before every report of a later year,
    whatever the months and the order of the labels as strings, and, within
    a year, a report of an earlier month (three-letter or full name) stands
    before the reports of the later months; the key of a report is the pair
    of its year and of the number of its month.  In [dashboard.py], where
    [get_reports] compares the years as the reports hold them, the same
    holds for years written with the same number of digits and months
    written with their three-letter names. *)
Theorem earlier_year_sorts_first :
  (forall (int : string -> result Z) (l : list Main.report),
      (forall r, r ∈ l -> exists y, int (Main.year r) = Ok y) ->
      exists l', Main.sorted_reports int l = Ok l')
  /\ (forall (int : string -> result Z) (l l' : list Main.report)
             (a b : Main.report) (ya yb : Z),
        Main.sorted_reports int l = Ok l' ->
        int (Main.year a) = Ok ya -> int (Main.year b) = Ok yb ->
        l' ≡ₚ l
        /\ (forall na, month_at na (Main.month a) ->
                       Main.get_sort_key int a = Ok (ya, Z.of_nat na + 1))
        /\ (ya < yb -> comes_before l' a b)
        /\ (forall na nb,
              ya = yb -> month_at na (Main.month a) -> month_at nb (Main.month b) ->
              (na < nb)%nat -> comes_before l' a b))
  /\ (forall (l : list Main.report) (a b : Main.report) (ya yb : Z),
        all_digits (Main.year a) = true -> all_digits (Main.year b) = true ->
        String.length (Main.year a) = String.length (Main.year b) ->
        int_of_digits (Main.year a) = Ok ya -> int_of_digits (Main.year b) = Ok yb ->
        Dashboard.get_reports l ≡ₚ l
        /\ (ya < yb -> comes_before (Dashboard.get_reports l) a b)
        /\ (forall na nb,
              ya = yb ->
              short_month_at na (Main.month a) -> short_month_at nb (Main.month b) ->
              (na < nb)%nat -> comes_before (Dashboard.get_reports l) a b)).
Proof.
  split; [|split].
  - intros int l Hint. unfold Main.sorted_reports, sorted.
    destruct (keyed_total (Main.get_sort_key int) l) as [kl ->]; [|by eexists].
    intros r Hr. destruct (Hint r Hr) as [y Hy]. eexists. by apply get_sort_key_ok.
  - intros int l l' a b ya yb Hs Ha Hb.
    pose proof (get_sort_key_ok int a ya Ha) as Hka.
    pose proof (get_sort_key_ok int b yb Hb) as Hkb.
    split; [by apply (sorted_reports_ordered int)|]. split; [|split].
    + intros na Hna. rewrite Hka. unfold month_index. by rewrite (month_at_index na).
    + intros Hlt. apply (sorted_reports_before int l l' a b _ _ Hs Hka Hkb).
      apply tuple_lt_spec. simpl. lia.
    + intros na nb Hy Hna Hnb Hlt.
      apply (sorted_reports_before int l l' a b _ _ Hs Hka Hkb).
      apply tuple_lt_spec. unfold month_index. cbn [fst snd].
      rewrite (month_at_index na), (month_at_index nb) by done. lia.
  - intros l a b ya yb Hda Hdb Hlen Ha%int_of_digits_value Hb%int_of_digits_value.
    pose proof (compare_digits _ _ 0 ya yb Hda Hdb Hlen Ha Hb) as Hcmp.
    split; [apply get_reports_perm|]. split.
    + intros Hlt. apply get_reports_before, reports_key_lt_spec. left.
      unfold Dashboard.get_reports_key. cbn [fst snd].
      rewrite Hcmp. by apply Z.compare_lt_iff.
    + intros na nb Hy Hna Hnb Hlt.
      apply get_reports_before, reports_key_lt_spec. right. split.
      * unfold Dashboard.get_reports_key. cbn [fst snd].
        apply String.compare_eq_iff. rewrite Hcmp. by apply Z.compare_eq_iff.
      * unfold Dashboard.get_reports_key. cbn [fst snd].
        rewrite (short_month_at_index na), (short_month_at_index nb) by done. lia.
Qed.

Lemma earlier_year_sorts_first_witness :
  Main.sorted_reports int_of_digits
    [Main.Report "Jan" "2024" []; Main.Report "Dec" "2023" []; Main.Report "Nov" "2023" []]
  = Ok [Main.Report "Nov" "2023" []; Main.Report "Dec" "2023" []; Main.Report "Jan" "2024" []]
  /\ comes_before
       [Main.Report "Nov" "2023" []; Main.Report "Dec" "2023" []; Main.Report "Jan" "2024" []]
       (Main.Report "Dec" "2023" []) (Main.Report "Jan" "2024" [])
  /\ comes_before
       [Main.Report "Nov" "2023" []; Main.Report "Dec" "2023" []; Main.Report "Jan" "2024" []]
       (Main.Report "Nov" "2023" []) (Main.Report "Jan" "2024" [])
  /\ str_lt "Jan 2024" "Nov 2023" = true
  /\ comes_before
       (Dashboard.get_reports
          [Main.Report "Jan" "2024" []; Main.Report "Dec" "2023" [];
           Main.Report "Nov" "2023" []])
       (Main.Report "Dec" "2023" []) (Main.Report "Jan" "2024" []).
Proof.
  destruct earlier_year_sorts_first as (_ & Hmain & Hdash).
  assert (Hs : Main.sorted_reports int_of_digits
                 [Main.Report "Jan" "2024" []; Main.Report "Dec" "2023" [];
                  Main.Report "Nov" "2023" []]
               = Ok [Main.Report "Nov" "2023" []; Main.Report "Dec" "2023" [];
                     Main.Report "Jan" "2024" []]) by (vm_compute; reflexivity).
  split; [exact Hs|]. split; [|split; [|split]].
  - apply (Hmain int_of_digits _ _ (Main.Report "Dec" "2023" [])
             (Main.Report "Jan" "2024" []) 2023 2024 Hs eq_refl eq_refl). lia.
  - apply (Hmain int_of_digits _ _ (Main.Report "Nov" "2023" [])
             (Main.Report "Jan" "2024" []) 2023 2024 Hs eq_refl eq_refl). lia.
  - reflexivity.
  - apply (Hdash _ (Main.Report "Dec" "2023" []) (Main.Report "Jan" "2024" []) 2023 2024
             eq_refl eq_refl eq_refl eq_refl eq_refl). lia.
Defined.

(** ** Average price *)

(** C3, as stated, fails: with no unit sold the overview's average price is
    the number 0, and a group with sales but no unit sold gets an infinite
    average price. *)
Lemma avg_price_no_units_is_zero :
  Dashboard.avg_price 0 0 = 0%Q
  /\ Dashboard.Avg_Price (Dashboard.Group "Pod" "Pods" 10 0) = Dashboard.PInf.
Proof. split; reflexivity. Qed.

(** C3 (amended). The overview's average price is total sales divided by
    total units when the units are positive, and the number 0 otherwise.
    The average price of a group is its sales divided by its units when the
    units are positive, and the missing value NaN, shown as N/A, when both
    its units and its sales are zero. *)
Theorem avg_price_by_units (total_sales total_units : Q) (g : Dashboard.group) :
  ((0 < total_units)%Q ->
   Dashboard.avg_price total_sales total_units = (total_sales / total_units)%Q)
  /\ ((total_units <= 0)%Q -> Dashboard.avg_price total_sales total_units = 0%Q)
  /\ ((0 < Dashboard.g_sold g)%Q ->
      Dashboard.Avg_Price g
      = Dashboard.Fin (Dashboard.g_net_sales g / Dashboard.g_sold g))
  /\ ((Dashboard.g_sold g == 0)%Q -> (Dashboard.g_net_sales g == 0)%Q ->
      Dashboard.Avg_Price g = Dashboard.NaN
      /\ Dashboard.notna (Dashboard.Avg_Price g) = false).
Proof.
  unfold Dashboard.avg_price, Dashboard.Avg_Price, Dashboard.fdiv.
  split; [|split; [|split]].
  - intros H. destruct (Qlt_le_dec 0 total_units) as [_|Hle]; [reflexivity|].
    by destruct (Qlt_not_le _ _ H).
  - intros H. destruct (Qlt_le_dec 0 total_units) as [Hlt|_]; [|reflexivity].
    by destruct (Qlt_not_le _ _ Hlt).
  - intros H. destruct (Qeq_bool (Dashboard.g_sold g) 0) eqn:Hz; [|reflexivity].
    apply Qeq_bool_eq in Hz. rewrite Hz in H. by destruct (Qlt_irrefl 0).
  - intros Hs Hn. by rewrite (Qeq_eq_bool _ _ Hs), (Qeq_eq_bool _ _ Hn).
Qed.

Lemma avg_price_by_units_witness :
  Dashboard.avg_price 30 4 = (30 / 4)%Q
  /\ Dashboard.avg_price 30 0 = 0%Q
  /\ Dashboard.Avg_Price (Dashboard.Group "Pod" "Pods" 30 4) = Dashboard.Fin (30 / 4)
  /\ Dashboard.Avg_Price (Dashboard.Group "Coil" "Coils" 0 0) = Dashboard.NaN.
Proof.
  split; [|split; [|split]].
  - apply (avg_price_by_units 30 4 (Dashboard.Group "Pod" "Pods" 30 4)). reflexivity.
  - apply (avg_price_by_units 30 0 (Dashboard.Group "Pod" "Pods" 30 4)). discriminate.
  - apply (avg_price_by_units 30 4 (Dashboard.Group "Pod" "Pods" 30 4)). reflexivity.
  - apply (avg_price_by_units 30 4 (Dashboard.Group "Coil" "Coils" 0 0)); reflexivity.
Defined.

(** ** The TOTAL rows *)

Lemma drop_total_skip (df1 df2 : frame) (r : row) :
  Category_Name r = Some "TOTAL" ->
  drop_total (df1 ++ r :: df2) = drop_total (df1 ++ df2).
Proof.
  intros Hr. unfold drop_total. rewrite !filter_app, filter_cons.
  destruct (decide (Category_Name r ≠ Some "TOTAL")); [done|reflexivity].
Qed.

Lemma drop_total_keep (df1 df2 : frame) (r : row) :
  Category_Name r ≠ Some "TOTAL" ->
  drop_total (df1 ++ r :: df2) = drop_total df1 ++ r :: drop_total df2.
Proof.
  intros Hr. unfold drop_total. rewrite filter_app, filter_cons.
  destruct (decide (Category_Name r ≠ Some "TOTAL")); [reflexivity|done].
Qed.

Lemma drop_total_concat (dfs : list frame) :
  drop_total (concat_frames dfs) = concat_frames (map drop_total dfs).
Proof.
  unfold concat_frames, drop_total. induction dfs as [|df dfs IH]; [done|].
  cbn [concat map]. by rewrite filter_app, IH.
Qed.

(** The month codes of [get_combined_data] are written in digits. *)
Lemma month_code_values :
  map_Forall (fun _ v => all_digits v = true /\ v <> "") Dashboard.combined_month_order.
Proof. apply (bool_decide_unpack _). by vm_compute. Qed.

Lemma month_code_digits (m : string) :
  all_digits (dict_get Dashboard.combined_month_order m "00") = true
  /\ dict_get Dashboard.combined_month_order m "00" <> "".
Proof.
  unfold dict_get.
  destruct (Dashboard.combined_month_order !! m) as [c|] eqn:Hc; [|by split].
  exact (month_code_values _ _ Hc).
Qed.

(** C5. The rows kept by the normalization are exactly the rows whose
    category is not the text TOTAL, compared exactly: a row with category
    TOTAL is removed wherever it stands and the other rows stay in place,
    so it adds nothing to a sum; a row with any other category, missing
    included, is kept; and the two ways the sources filter (all frames
    joined then filtered in [main.py], or each frame filtered then joined
    in [dashboard.py]) give the same rows: whenever [get_combined_data]
    returns, which it does when every year is written in digits, its rows
    are the rows that [main.py] keeps, with the added columns. *)
Theorem drop_total_exact :
  (forall (df : frame) (r : row),
      r ∈ drop_total df <-> r ∈ df /\ Category_Name r ≠ Some "TOTAL")
  /\ (forall (df1 df2 : frame) (r : row),
        Category_Name r = Some "TOTAL" ->
        drop_total (df1 ++ r :: df2) = drop_total (df1 ++ df2)
        /\ forall col, col_sum col (drop_total (r :: df2)) = col_sum col (drop_total df2))
  /\ (forall (df1 df2 : frame) (r : row),
        Category_Name r ≠ Some "TOTAL" ->
        drop_total (df1 ++ r :: df2) = drop_total df1 ++ r :: drop_total df2)
  /\ (forall (int : string -> result Z) (reports : list Main.report),
        (forall df,
            Dashboard.get_combined_data int reports = Ok df ->
            map Dashboard.source_row df = Main.all_data_filtered reports)
        /\ ((forall s, all_digits s = true -> s <> "" -> exists k, int s = Ok k) ->
            Forall (fun r => all_digits (Main.year r) = true /\ Main.year r <> "")
                   reports ->
            exists df, Dashboard.get_combined_data int reports = Ok df)).
Proof.
  split; [|split; [|split]].
  - intros df r. unfold drop_total. rewrite list_elem_of_filter. tauto.
  - intros df1 df2 r Hr. split; [by apply drop_total_skip|].
    intros col. f_equal. exact (drop_total_skip [] df2 r Hr).
  - apply drop_total_keep.
  - intros int reports. split.
    + intros df. unfold Main.all_data_filtered, Dashboard.get_combined_data.
      rewrite drop_total_concat. unfold concat_frames.
      destruct (for_each _ reports) as [all_dfs|e] eqn:Hall; [|discriminate].
      intros [= <-]. revert all_dfs Hall.
      induction reports as [|r reports IH]; intros all_dfs Hall; simpl in Hall.
      * by injection Hall as <-.
      * destruct (Dashboard.combined_frame int r) as [rows|e] eqn:Hr; [|discriminate].
        destruct (for_each _ reports) as [dfs|e]; [|discriminate].
        injection Hall as <-. cbn [concat map]. rewrite map_app, (IH dfs eq_refl).
        f_equal. unfold Dashboard.combined_frame in Hr.
        destruct (int (dict_get _ _ _)); [|discriminate].
        destruct (int (Main.year r)); [|discriminate].
        injection Hr as <-. rewrite map_map. apply map_id.
    + intros Hint Hyears. unfold Dashboard.get_combined_data.
      destruct (for_each_ok (Dashboard.combined_frame int) reports) as (dfs & -> & _);
        [|by eexists].
      intros r Hr. rewrite Forall_forall in Hyears. destruct (Hyears r Hr) as [Hd Hne].
      unfold Dashboard.combined_frame.
      destruct (month_code_digits (Main.month r)) as [Hcd Hcne].
      destruct (Hint _ Hcd Hcne) as [k ->].
      destruct (Hint (Main.year r) Hd Hne) as [y ->]. by eexists.
Qed.

Lemma drop_total_exact_witness :
  drop_total [Row (Some "Mint 30ml") (Some "E-Liquid") 3 45;
              Row None (Some "TOTAL") 8 120;
              Row (Some "Sum of pods") (Some "Subtotal") 5 75;
              Row (Some "Lower") (Some "total") 1 2;
              Row (Some "No category") None 1 2]
  = [Row (Some "Mint 30ml") (Some "E-Liquid") 3 45;
     Row (Some "Sum of pods") (Some "Subtotal") 5 75;
     Row (Some "Lower") (Some "total") 1 2;
     Row (Some "No category") None 1 2].
Proof.
  destruct drop_total_exact as (_ & Hskip & Hkeep & _).
  etransitivity;
    [apply (Hkeep [] _ (Row (Some "Mint 30ml") (Some "E-Liquid") 3 45)); discriminate|].
  change (drop_total []) with (@nil row). cbn [app]. apply (f_equal (cons _)).
  etransitivity;
    [apply (Hskip [] [Row (Some "Sum of pods") (Some "Subtotal") 5 75;
                      Row (Some "Lower") (Some "total") 1 2;
                      Row (Some "No category") None 1 2]
                  (Row None (Some "TOTAL") 8 120) eq_refl)|].
  reflexivity.
Defined.


(** ** Binary floats *)

Lemma pow2_pos (e : Z) : (0 < 2 ^ e)%Q.
Proof. by apply Qpower_0_lt. Qed.

Lemma pow2_add (a b : Z) : (2 ^ (a + b) == 2 ^ a * 2 ^ b)%Q.
Proof. by apply Qpower_plus. Qed.

Lemma pow2_le (a b : Z) : a <= b -> (2 ^ a <= 2 ^ b)%Q.
Proof. intros H. by apply Qpower_le_compat_l. Qed.

Lemma pow2_lt (a b : Z) : a < b -> (2 ^ a < 2 ^ b)%Q.
Proof. intros H. by apply Qpower_lt_compat_l. Qed.

Lemma pow2_Z (a : Z) : 0 <= a -> (2 ^ a == inject_Z (2 ^ a))%Q.
Proof. intros H. by rewrite Zpower_Qpower. Qed.

(** *** Rounding to an integer *)

Lemma round_half_even_cases (x : Q) :
  let f := Qfloor x in
  (inject_Z f <= x)%Q /\ (x < inject_Z f + 1)%Q
  /\ ((x - inject_Z f < 1 # 2)%Q /\ round_half_even x = f
      \/ ((1 # 2) < x - inject_Z f)%Q /\ round_half_even x = f + 1
      \/ (x - inject_Z f == 1 # 2)%Q
         /\ round_half_even x = (if Z.even f then f else f + 1)).
Proof.
  intros f. split; [apply Qfloor_le|]. split.
  { pose proof (Qlt_floor x) as H. rewrite inject_Z_plus in H. exact H. }
  unfold round_half_even. fold f.
  destruct (Qcompare_spec (x - inject_Z f) (1 # 2)) as [H|H|H]; auto.
Qed.

Lemma Z_lt_Q (a b : Z) : (inject_Z a < inject_Z b + 1)%Q -> a <= b.
Proof.
  intros H. assert (a < b + 1); [|lia]. rewrite Zlt_Qlt, inject_Z_plus. exact H.
Qed.

(** An integer bound on a real is a bound on the rounded integer. *)
Lemma round_half_even_ge (n : Z) (x : Q) :
  (inject_Z n <= x)%Q -> n <= round_half_even x.
Proof.
  intros Hn. destruct (round_half_even_cases x) as (Hlo & Hhi & Hc).
  assert (n <= Qfloor x) by (apply Z_lt_Q; lra).
  destruct Hc as [[_ ->]|[[_ ->]|[_ ->]]]; [lia|lia|]. destruct (Z.even (Qfloor x)); lia.
Qed.

Lemma round_half_even_le (n : Z) (x : Q) :
  (x <= inject_Z n)%Q -> round_half_even x <= n.
Proof.
  intros Hn. destruct (round_half_even_cases x) as (Hlo & Hhi & Hc).
  assert (Hf : Qfloor x <= n) by (rewrite Zle_Qle; lra).
  destruct (decide (Qfloor x = n)) as [He|He].
  - rewrite He in *. destruct Hc as [[_ ->]|[[? _]|[? _]]]; [lia|lra|lra].
  - destruct Hc as [[_ ->]|[[_ ->]|[_ ->]]]; [lia|lia|]. destruct (Z.even (Qfloor x)); lia.
Qed.

(** At a tie above an even integer the rounding goes down. *)
Lemma round_half_even_le_even (n : Z) (x : Q) :
  Z.even n = true ->
  round_half_even x <= n <-> (x <= inject_Z n + (1 # 2))%Q.
Proof.
  intros Hev. destruct (round_half_even_cases x) as (Hlo & Hhi & Hc). split.
  - intros Hr. destruct (Z.lt_trichotomy (Qfloor x) n) as [Hf|[Hf|Hf]].
    + assert (Hf' : Qfloor x + 1 <= n) by lia.
      rewrite Zle_Qle, inject_Z_plus in Hf'. change (inject_Z 1) with 1%Q in Hf'. lra.
    + rewrite Hf in *. destruct Hc as [[? _]|[[_ E]|[? _]]]; [lra| lia |lra].
    + destruct Hc as [[_ E]|[[_ E]|[_ E]]]; rewrite E in Hr; try lia.
      destruct (Z.even (Qfloor x)); lia.
  - intros Hx. assert (Hf : Qfloor x <= n) by (apply Z_lt_Q; lra).
    destruct (decide (Qfloor x = n)) as [He|He].
    + rewrite He in *. destruct Hc as [[_ ->]|[[? _]|[_ ->]]]; [lia|lra|].
      rewrite Hev. lia.
    + destruct Hc as [[_ ->]|[[_ ->]|[_ ->]]]; [lia|lia|]. destruct (Z.even (Qfloor x)); lia.
Qed.

Lemma round_half_even_Z (n : Z) (x : Q) : (x == inject_Z n)%Q -> round_half_even x = n.
Proof.
  intros Hx. apply Z.le_antisymm.
  - apply round_half_even_le. lra.
  - apply round_half_even_ge. lra.
Qed.

Lemma round_half_even_comp (x y : Q) : (x == y)%Q -> round_half_even x = round_half_even y.
Proof.
  intros H. unfold round_half_even. rewrite (Qfloor_comp _ _ H).
  assert (E : (x - inject_Z (Qfloor y) ?= 1 # 2)%Q = (y - inject_Z (Qfloor y) ?= 1 # 2)%Q)
    by (by rewrite H).
  by rewrite E.
Qed.

(** *** The exponent *)

Lemma exponent_spec (x : Q) :
  ~ (x == 0)%Q ->
  (2 ^ exponent x <= Qabs x)%Q /\ (Qabs x < 2 ^ (exponent x + 1))%Q.
Proof.
  intros Hx. unfold exponent.
  set (n := Z.abs (Qnum x)). set (d := Z.pos (Qden x)).
  assert (Hn : 0 < n).
  { unfold n. destruct x as [[|p|p] q]; simpl; try lia. by destruct Hx. }
  assert (Hd : 0 < d) by (unfold d; lia).
  destruct (Z.log2_spec n Hn) as [Hn1 Hn2]. destruct (Z.log2_spec d Hd) as [Hd1 Hd2].
  pose proof (Z.log2_nonneg n) as Ha. pose proof (Z.log2_nonneg d) as Hb.
  set (a := Z.log2 n) in *. set (b := Z.log2 d) in *.
  rewrite Z.pow_succ_r in Hn2, Hd2 by done.
  rewrite Zle_Qle in Hn1, Hd1. rewrite Zlt_Qlt in Hn2, Hd2.
  rewrite inject_Z_mult in Hn2, Hd2. rewrite <- pow2_Z in Hn1, Hn2, Hd1, Hd2 by done.
  change (inject_Z 2) with 2%Q in *.
  assert (HX : (Qabs x * inject_Z d == inject_Z n)%Q).
  { unfold n, d. destruct x as [m q]. unfold Qabs, Qeq, Qmult, inject_Z. simpl. lia. }
  assert (HK : (2 ^ (a - b) * 2 ^ b == 2 ^ a)%Q)
    by (rewrite <- pow2_add; by replace (a - b + b) with a by lia).
  assert (HK1 : (2 ^ (a - b + 1) == 2 * 2 ^ (a - b))%Q)
    by (rewrite pow2_add; change (2 ^ 1)%Q with 2%Q; ring).
  assert (HK2 : (2 * 2 ^ (a - b - 1) == 2 ^ (a - b))%Q).
  { replace (a - b) with (a - b - 1 + 1) at 2 by lia. rewrite pow2_add.
    change (2 ^ 1)%Q with 2%Q. ring. }
  pose proof (pow2_pos (a - b)) as HKpos. pose proof (pow2_pos b) as HBpos.
  assert (HXpos : (0 <= Qabs x)%Q) by apply Qabs_nonneg.
  assert (Hup : (Qabs x < 2 * 2 ^ (a - b))%Q).
  { destruct (Qlt_le_dec (Qabs x) (2 * 2 ^ (a - b))) as [|Hge]; [done|]. exfalso. nra. }
  assert (Hlo : (2 ^ (a - b) < 2 * Qabs x)%Q).
  { destruct (Qlt_le_dec (2 ^ (a - b)) (2 * Qabs x)) as [|Hge]; [done|]. exfalso. nra. }
  destruct (Qle_bool (2 ^ (a - b)) (Qabs x)) eqn:Ht.
  - apply Qle_bool_iff in Ht. split; [done|]. by rewrite HK1.
  - assert (Hlt : (Qabs x < 2 ^ (a - b))%Q).
    { apply Qnot_le_lt. intros H%Qle_bool_iff. congruence. }
    replace (a - b - 1 + 1) with (a - b) by lia. split; [|done]. lra.
Qed.

Lemma exponent_unique (x : Q) (e : Z) :
  (2 ^ e <= Qabs x)%Q -> (Qabs x < 2 ^ (e + 1))%Q -> exponent x = e.
Proof.
  intros Hlo Hhi.
  assert (Hx : ~ (x == 0)%Q).
  { intros H. rewrite H in Hlo. pose proof (pow2_pos e). change (Qabs 0) with 0%Q in Hlo. lra. }
  destruct (exponent_spec x Hx) as [Hlo' Hhi'].
  destruct (Z.lt_trichotomy (exponent x) e) as [H|[H|H]]; [|done|].
  - pose proof (pow2_le (exponent x + 1) e ltac:(lia)). lra.
  - pose proof (pow2_le (e + 1) (exponent x) ltac:(lia)). lra.
Qed.

Lemma exponent_comp (x y : Q) : (x == y)%Q -> ~ (x == 0)%Q -> exponent x = exponent y.
Proof.
  intros Hxy Hx. destruct (exponent_spec x Hx) as [Hlo Hhi].
  symmetry. apply exponent_unique; by rewrite <- Hxy.
Qed.

(** *** The nearest float *)

Lemma to_float_comp (x y : Q) : (x == y)%Q -> (to_float x == to_float y)%Q.
Proof.
  intros Hxy. unfold to_float.
  destruct (Qeq_bool x 0) eqn:Hx.
  - apply Qeq_bool_iff in Hx. rewrite Hxy in Hx. apply Qeq_bool_iff in Hx. by rewrite Hx.
  - assert (Hx' : ~ (x == 0)%Q) by (intros H%Qeq_bool_iff; congruence).
    assert (Hy : Qeq_bool y 0 = false).
    { apply not_true_is_false. intros H%Qeq_bool_iff. apply Hx'. by rewrite Hxy. }
    rewrite Hy, <- (exponent_comp x y Hxy Hx').
    rewrite (round_half_even_comp (x / 2 ^ (exponent x - 52)) (y / 2 ^ (exponent x - 52)));
      [reflexivity|by apply Qdiv_comp].
Qed.

Lemma to_float_unfold (x : Q) :
  ~ (x == 0)%Q ->
  to_float x
  = (inject_Z (round_half_even (x / 2 ^ (exponent x - 52))) * 2 ^ (exponent x - 52))%Q.
Proof.
  intros Hx. unfold to_float. destruct (Qeq_bool x 0) eqn:E; [|done].
  by apply Qeq_bool_iff in E.
Qed.

Lemma to_float_nonpos (x : Q) : (x <= 0)%Q -> (to_float x <= 0)%Q.
Proof.
  intros Hx. unfold to_float. destruct (Qeq_bool x 0); [lra|].
  pose proof (pow2_pos (exponent x - 52)) as Hu.
  set (u := (2 ^ (exponent x - 52))%Q) in *.
  assert (Hr : round_half_even (x / u) <= 0).
  { apply round_half_even_le. change (inject_Z 0) with 0%Q.
    apply Qle_shift_div_r; [done|]. lra. }
  rewrite Zle_Qle in Hr. change (inject_Z 0) with 0%Q in Hr. nra.
Qed.

Lemma pow2_succ (e : Z) : (2 ^ (e + 1) == 2 * 2 ^ e)%Q.
Proof. rewrite pow2_add. change (2 ^ 1)%Q with 2%Q. ring. Qed.

(** The significand of a float lies between 2^52 and 2^53. *)
Lemma significand_bounds (x : Q) :
  (0 < x)%Q ->
  let u := (2 ^ (exponent x - 52))%Q in
  (0 < u)%Q /\ (2 ^ exponent x == inject_Z (2 ^ 52) * u)%Q
  /\ (inject_Z (2 ^ 52) * u <= x)%Q /\ (x < 2 * inject_Z (2 ^ 52) * u)%Q
  /\ 2 ^ 52 <= round_half_even (x / u) <= 2 * 2 ^ 52.
Proof.
  intros Hx u.
  assert (Hu : (0 < u)%Q) by apply pow2_pos.
  assert (He : (2 ^ exponent x == inject_Z (2 ^ 52) * u)%Q).
  { unfold u. rewrite <- (pow2_Z 52), <- pow2_add by lia.
    by replace (52 + (exponent x - 52)) with (exponent x) by lia. }
  destruct (exponent_spec x) as [Hlo Hhi]; [lra|].
  rewrite Qabs_pos in Hlo, Hhi by lra. rewrite pow2_succ in Hhi.
  split; [done|]. split; [done|]. split; [lra|]. split; [lra|].
  assert (Hy : (x / u * u == x)%Q) by (field; lra).
  split.
  - apply round_half_even_ge.
    destruct (Qlt_le_dec (x / u) (inject_Z (2 ^ 52))); [exfalso; nra|done].
  - apply round_half_even_le. rewrite inject_Z_mult. change (inject_Z 2) with 2%Q.
    destruct (Qlt_le_dec (2 * inject_Z (2 ^ 52)) (x / u)); [exfalso; nra|done].
Qed.

(** A float is at most a power of two exactly when the real is at most
    half a unit in the last place above it: the tie goes to the power of
    two, whose significand is even. *)
Lemma to_float_le_pow2 (k : Z) (x : Q) :
  (to_float x <= 2 ^ k)%Q <-> (x <= 2 ^ k + 2 ^ (k - 53))%Q.
Proof.
  pose proof (pow2_pos k) as Hk. pose proof (pow2_pos (k - 53)) as Hk'.
  destruct (Qlt_le_dec 0 x) as [Hpos|Hneg].
  2:{ pose proof (to_float_nonpos x Hneg). split; intros _; lra. }
  rewrite to_float_unfold by lra.
  destruct (significand_bounds x Hpos) as (Hu & He & Hlo & Hhi & Hr1 & Hr2).
  set (u := (2 ^ (exponent x - 52))%Q) in *.
  set (r := round_half_even (x / u)) in *.
  assert (Hy : (x / u * u == x)%Q) by (field; lra).
  rewrite Zle_Qle in Hr1, Hr2. rewrite inject_Z_mult in Hr2.
  change (inject_Z 2) with 2%Q in Hr2.
  destruct (Z.lt_trichotomy (exponent x) k) as [Hek|[Hek|Hek]].
  - pose proof (pow2_le (exponent x + 1) k ltac:(lia)) as Hle.
    rewrite pow2_succ in Hle. split; intros _; nra.
  - assert (Hhalf : (2 * 2 ^ (k - 53) == u)%Q).
    { unfold u. rewrite Hek, <- pow2_succ. by replace (k - 53 + 1) with (k - 52) by lia. }
    rewrite Hek in He. split.
    + intros Hle. assert (Hr : r <= 2 ^ 52).
      { rewrite Zle_Qle. destruct (Qlt_le_dec (inject_Z (2 ^ 52)) (inject_Z r)); [|done].
        exfalso. nra. }
      apply (round_half_even_le_even (2 ^ 52) (x / u) eq_refl) in Hr. nra.
    + intros Hle. assert (Hr : r <= 2 ^ 52).
      { apply (round_half_even_le_even (2 ^ 52) (x / u) eq_refl).
        destruct (Qlt_le_dec (inject_Z (2 ^ 52) + (1 # 2)) (x / u)); [|done].
        exfalso. nra. }
      rewrite Zle_Qle in Hr. nra.
  - pose proof (pow2_le (k + 1) (exponent x) ltac:(lia)) as Hle.
    rewrite pow2_succ in Hle.
    pose proof (pow2_lt (k - 53) k ltac:(lia)) as Hlt.
    split; intros H; exfalso; nra.
Qed.

(** A real with at most 53 significant bits is a float. *)
Lemma to_float_exact (n j : Z) (x : Q) :
  Z.abs n <= 2 ^ 53 -> (x == inject_Z n * 2 ^ j)%Q -> (to_float x == x)%Q.
Proof.
  intros Hn Hx. pose proof (pow2_pos j) as Hj.
  destruct (decide (n = 0)) as [->|Hn0].
  { assert (H0 : (x == 0)%Q) by (rewrite Hx; ring).
    unfold to_float. apply Qeq_bool_iff in H0 as E. rewrite E. by rewrite H0. }
  assert (Hxn : ~ (x == 0)%Q).
  { rewrite Hx. intros [H|H]%Qmult_integral; [|lra].
    unfold Qeq, inject_Z in H. simpl in H. lia. }
  rewrite to_float_unfold by done.
  destruct (exponent_spec x Hxn) as [Hlo _].
  set (e := exponent x) in *. set (u := (2 ^ (e - 52))%Q).
  assert (Hu : (0 < u)%Q) by apply pow2_pos.
  assert (Habs : (Qabs x == inject_Z (Z.abs n) * 2 ^ j)%Q).
  { rewrite Hx, Qabs_Qmult, (Qabs_pos (2 ^ j)) by lra. reflexivity. }
  rewrite Habs in Hlo.
  assert (Hje : e <= 53 + j).
  { apply (Qpower_le_compat_l_inv 2); [|reflexivity].
    rewrite pow2_add, (pow2_Z 53) by lia.
    rewrite Zle_Qle in Hn. nra. }
  assert (Hz : exists z : Z, (x / u == inject_Z z)%Q).
  { destruct (decide (e - 52 <= j)) as [Hle|Hgt].
    - exists (n * 2 ^ (j - (e - 52))).
      rewrite inject_Z_mult, <- pow2_Z by lia.
      apply Qeq_trans with (inject_Z n * 2 ^ (j - (e - 52)) * u / u)%Q; [|field; lra].
      apply Qdiv_comp; [|reflexivity]. unfold u.
      rewrite <- Qmult_assoc, <- pow2_add. rewrite Hx.
      by replace (j - (e - 52) + (e - 52)) with j by lia.
    - assert (Hej : e - 52 = j + 1) by lia.
      assert (Hu2 : (u == 2 * 2 ^ j)%Q) by (unfold u; rewrite Hej; apply pow2_succ).
      assert (Hbig : 2 ^ 53 <= Z.abs n).
      { rewrite Zle_Qle. replace e with (53 + j) in Hlo by lia.
        rewrite pow2_add, (pow2_Z 53) in Hlo by lia.
        destruct (Qlt_le_dec (inject_Z (Z.abs n)) (inject_Z (2 ^ 53))); [|done].
        exfalso. nra. }
      exists (n / 2).
      assert (Hn2 : n = 2 * (n / 2)).
      { assert (Z.abs n = 2 ^ 53) as Hn' by lia.
        destruct (Z.abs_eq_or_opp n) as [E|E]; rewrite E in Hn'.
        - rewrite Hn'. reflexivity.
        - assert (n = - 2 ^ 53) as -> by lia. reflexivity. }
      apply Qeq_trans with (inject_Z (n / 2) * u / u)%Q; [|field; lra].
      apply Qdiv_comp; [|reflexivity].
      rewrite Hx, Hu2. rewrite Hn2 at 1. rewrite inject_Z_mult.
      change (inject_Z 2) with 2%Q. ring. }
  destruct Hz as [z Hz]. rewrite (round_half_even_Z z _ Hz).
  rewrite <- Hz. fold u. field. lra.
Qed.

(** ** Stock severity *)

Lemma low_stock_query_elem (products : list Store.product) (p : Store.product) :
  p ∈ Store.low_stock_query products
  <-> p ∈ products /\ Store.quantity p <= Store.min_stock p.
Proof.
  unfold Store.low_stock_query.
  rewrite (sort_keyed_perm Store.order_le), map_map. simpl.
  rewrite map_id. rewrite list_elem_of_filter. tauto.
Qed.

(** The ratio of two integers against a fraction, as integer inequalities. *)
Lemma ratio_le_iff (q m a : Z) (b : positive) :
  0 < m -> (inject_Z q / inject_Z m <= a # b)%Q <-> q * Z.pos b <= a * m.
Proof.
  intros Hm. destruct m as [|p|p]; try lia.
  unfold Qle, Qdiv, Qmult, Qinv, inject_Z. simpl. lia.
Qed.

Lemma ratio_lt_iff (q m a : Z) (b : positive) :
  0 < m -> (a # b < inject_Z q / inject_Z m)%Q <-> a * m < q * Z.pos b.
Proof.
  intros Hm. destruct m as [|p|p]; try lia.
  unfold Qlt, Qdiv, Qmult, Qinv, inject_Z. simpl. lia.
Qed.

(** Up to a divisor of 2^53 the rounding of the quotient does not change
    its comparison with 0.25 or with 0.5. *)
Lemma true_div_le_quarter (q m : Z) :
  0 < m <= 2 ^ 53 ->
  Qle_bool (to_float (inject_Z q / inject_Z m)) (1 # 4) = (q * 4 <=? 1 * m).
Proof.
  intros [Hm Hb]. apply eq_true_iff_eq. rewrite Qle_bool_iff, Z.leb_le.
  assert (E : (1 # 4 == 2 ^ (-2))%Q) by reflexivity. rewrite E, to_float_le_pow2.
  assert (E2 : (2 ^ (-2) + 2 ^ (-2 - 53) == 9007199254740993 # 36028797018963968)%Q)
    by (vm_compute; reflexivity).
  rewrite E2, ratio_le_iff by done.
  change (2 ^ 53) with 9007199254740992 in Hb. lia.
Qed.

Lemma true_div_le_half (q m : Z) :
  0 < m <= 2 ^ 53 ->
  Qle_bool (to_float (inject_Z q / inject_Z m)) (1 # 2) = (q * 2 <=? 1 * m).
Proof.
  intros [Hm Hb]. apply eq_true_iff_eq. rewrite Qle_bool_iff, Z.leb_le.
  assert (E : (1 # 2 == 2 ^ (-1))%Q) by reflexivity. rewrite E, to_float_le_pow2.
  assert (E2 : (2 ^ (-1) + 2 ^ (-1 - 53) == 9007199254740993 # 18014398509481984)%Q)
    by (vm_compute; reflexivity).
  rewrite E2, ratio_le_iff by done.
  change (2 ^ 53) with 9007199254740992 in Hb. lia.
Qed.

(** Up to a minimum of 2^53 the minimum is a float, and so is its quarter
    or its half. *)
Lemma min_stock_fraction (m j : Z) :
  Z.abs m <= 2 ^ 53 ->
  (to_float (to_float (inject_Z m) * 2 ^ j) == inject_Z m * 2 ^ j)%Q.
Proof.
  intros Hm.
  assert (E : (to_float (inject_Z m) == inject_Z m)%Q).
  { apply (to_float_exact m 0); [done|]. change (2 ^ 0)%Q with 1%Q. ring. }
  rewrite (to_float_comp _ (inject_Z m * 2 ^ j)) by (by rewrite E).
  by apply (to_float_exact m j).
Qed.

Lemma within_quarter (q m : Z) :
  Z.abs m <= 2 ^ 53 -> Reports.within q m (1 # 4) = (q * 4 <=? 1 * m).
Proof.
  intros Hm. apply eq_true_iff_eq. unfold Reports.within.
  rewrite Qle_bool_iff, Z.leb_le.
  change (1 # 4)%Q with (2 ^ (-2))%Q. rewrite (min_stock_fraction m (-2) Hm).
  change (2 ^ (-2))%Q with (/ 4)%Q.
  unfold Qle, Qmult, Qinv, inject_Z. simpl. lia.
Qed.

Lemma within_half (q m : Z) :
  Z.abs m <= 2 ^ 53 -> Reports.within q m (1 # 2) = (q * 2 <=? 1 * m).
Proof.
  intros Hm. apply eq_true_iff_eq. unfold Reports.within.
  rewrite Qle_bool_iff, Z.leb_le.
  change (1 # 2)%Q with (2 ^ (-1))%Q. rewrite (min_stock_fraction m (-1) Hm).
  change (2 ^ (-1))%Q with (/ 2)%Q.
  unfold Qle, Qmult, Qinv, inject_Z. simpl. lia.
Qed.

Lemma status_zero (q : Z) : Inventory.status q 0 = Raise ZeroDivisionError.
Proof. reflexivity. Qed.

Lemma status_nonzero (q m : Z) :
  m <> 0 ->
  Inventory.status q m =
  Ok (if decide (q = 0) then "OUT OF STOCK"
      else if Qle_bool (to_float (inject_Z q / inject_Z m)) (1 # 4) then "CRITICAL"
      else if Qle_bool (to_float (inject_Z q / inject_Z m)) (1 # 2) then "LOW"
      else "WARNING").
Proof.
  intros Hm. unfold Inventory.status, Inventory.true_div.
  destruct (decide (m = 0)); [done|]. cbn [bind].
  destruct (decide (q = 0)); [done|].
  by repeat destruct (Qle_bool _ _).
Qed.

(** C4 (amended). For a row that the low-stock query hands to the
    classifiers (its quantity is at most its minimum) with a positive
    minimum of at most 2^53, the status of [inventory.py] and the status of
    the CSV export of [reports.py] are the same text, with ratio = quantity
    / minimum: OUT OF STOCK exactly when the quantity is 0; otherwise
    CRITICAL exactly when ratio <= 0.25; LOW exactly when 0.25 < ratio <=
    0.5; WARNING exactly when 0.5 < ratio <= 1; OK exactly when 1 < ratio,
    which no such row has.  The boundary values fall in the more severe
    tier. *)
Theorem stock_tiers (products : list Store.product) (p : Store.product) :
  p ∈ Store.low_stock_query products ->
  0 < Store.min_stock p <= 2 ^ 53 ->
  let quantity := Store.quantity p in
  let min_stock := Store.min_stock p in
  let ratio := (inject_Z quantity / inject_Z min_stock)%Q in
  exists s,
    Inventory.status quantity min_stock = Ok s
    /\ Reports.csv_status quantity min_stock = s
    /\ (s = "OUT OF STOCK" <-> quantity = 0)
    /\ (s = "CRITICAL" <-> quantity <> 0 /\ (ratio <= 1 # 4)%Q)
    /\ (s = "LOW" <-> (1 # 4 < ratio)%Q /\ (ratio <= 1 # 2)%Q)
    /\ (s = "WARNING" <-> (1 # 2 < ratio)%Q /\ (ratio <= 1)%Q)
    /\ (s = "OK" <-> (1 < ratio)%Q).
Proof.
  intros [_ Hle]%low_stock_query_elem Hm quantity min_stock ratio.
  subst ratio. fold quantity min_stock in Hle, Hm.
  assert (Hpos : 0 < min_stock) by lia.
  rewrite status_nonzero by lia. unfold Reports.csv_status.
  rewrite within_quarter, within_half by lia.
  rewrite true_div_le_quarter, true_div_le_half by done.
  eexists. split; [reflexivity|]. split; [reflexivity|].
  change (inject_Z quantity / inject_Z min_stock <= 1)%Q
    with (inject_Z quantity / inject_Z min_stock <= 1 # 1)%Q.
  change (1 < inject_Z quantity / inject_Z min_stock)%Q
    with (1 # 1 < inject_Z quantity / inject_Z min_stock)%Q.
  rewrite (ratio_le_iff quantity min_stock 1 4 Hpos).
  rewrite (ratio_le_iff quantity min_stock 1 2 Hpos).
  rewrite (ratio_le_iff quantity min_stock 1 1 Hpos).
  rewrite (ratio_lt_iff quantity min_stock 1 4 Hpos).
  rewrite (ratio_lt_iff quantity min_stock 1 2 Hpos).
  rewrite (ratio_lt_iff quantity min_stock 1 1 Hpos).
  destruct (decide (quantity = 0)) as [Hq|Hq];
    [|destruct (Z.leb_spec (quantity * 4) (1 * min_stock));
      [|destruct (Z.leb_spec (quantity * 2) (1 * min_stock))]];
    repeat split; intros; destruct_and?; try discriminate; try reflexivity; try lia.
Qed.

Lemma stock_tiers_witness :
  exists s,
    Inventory.status 25 100 = Ok s
    /\ Reports.csv_status 25 100 = s
    /\ (s = "OUT OF STOCK" <-> 25 = 0)
    /\ (s = "CRITICAL" <-> 25 <> 0 /\ (inject_Z 25 / inject_Z 100 <= 1 # 4)%Q)
    /\ (s = "LOW" <-> (1 # 4 < inject_Z 25 / inject_Z 100)%Q
                      /\ (inject_Z 25 / inject_Z 100 <= 1 # 2)%Q)
    /\ (s = "WARNING" <-> (1 # 2 < inject_Z 25 / inject_Z 100)%Q
                          /\ (inject_Z 25 / inject_Z 100 <= 1)%Q)
    /\ (s = "OK" <-> (1 < inject_Z 25 / inject_Z 100)%Q).
Proof.
  apply (stock_tiers
           [Store.Product "VS2400" "Mint 30ml" "E-Liquid" 12 10 (4 # 1);
            Store.Product "VS2401" "Mesh coil" "Coils" 25 100 (3 # 2)]
           (Store.Product "VS2401" "Mesh coil" "Coils" 25 100 (3 # 2))).
  - apply list_elem_of_In. vm_compute. tauto.
  - simpl. lia.
Defined.

(** The tiers at the boundaries of the specification's examples. *)
Lemma stock_tier_examples :
  Inventory.status 0 10 = Ok "OUT OF STOCK"
  /\ Inventory.status 2 10 = Ok "CRITICAL"
  /\ Inventory.status 25 100 = Ok "CRITICAL"
  /\ Inventory.status 26 100 = Ok "LOW"
  /\ Inventory.status 50 100 = Ok "LOW"
  /\ Inventory.status 51 100 = Ok "WARNING"
  /\ Inventory.status 100 100 = Ok "WARNING".
Proof. repeat split; vm_compute; reflexivity. Qed.

(** The groups of the displayed report follow the status of the export:
    out-of-stock rows are listed with the critical ones. *)
Lemma group_of_csv_status (q m : Z) :
  match Reports.group_of q m with
  | Reports.critical =>
      Reports.csv_status q m = "OUT OF STOCK" \/ Reports.csv_status q m = "CRITICAL"
  | Reports.low => Reports.csv_status q m = "LOW"
  | Reports.warning => Reports.csv_status q m = "WARNING"
  end.
Proof.
  unfold Reports.group_of, Reports.csv_status.
  destruct (decide (q = 0)); [by left|].
  destruct (Reports.within q m (1 # 4)); [by right|].
  by destruct (Reports.within q m (1 # 2)).
Qed.

(** C4, as stated, fails above 2^53, where the quotient and the minimum
    are rounded to 53 bits.  Both rows pass the query.  In [inventory.py]
    the quotient of 2^53 + 1 by 2^55 is rounded down to 0.25; in
    [reports.py] the minimum 2^53 + 3 is rounded up to 2^53 + 4, a quarter
    of which is the quantity.  Both rows get CRITICAL with a ratio above
    0.25. *)
Lemma status_rounded_at_quarter :
  Store.low_stock_query [Store.Product "A" "a" "c" (2 ^ 53 + 1) (2 ^ 55) 1;
                         Store.Product "B" "b" "c" (2 ^ 51 + 1) (2 ^ 53 + 3) 1]
  = [Store.Product "A" "a" "c" (2 ^ 53 + 1) (2 ^ 55) 1;
     Store.Product "B" "b" "c" (2 ^ 51 + 1) (2 ^ 53 + 3) 1]
  /\ Inventory.status (2 ^ 53 + 1) (2 ^ 55) = Ok "CRITICAL"
  /\ (1 # 4 < inject_Z (2 ^ 53 + 1) / inject_Z (2 ^ 55))%Q
  /\ Reports.csv_status (2 ^ 51 + 1) (2 ^ 53 + 3) = "CRITICAL"
  /\ (1 # 4 < inject_Z (2 ^ 51 + 1) / inject_Z (2 ^ 53 + 3))%Q.
Proof. repeat split; vm_compute; reflexivity. Qed.

(** ** No check of the threshold *)

Lemma status_tier (q m : Z) (s : string) :
  Inventory.status q m = Ok s -> s ∈ ["OUT OF STOCK"; "CRITICAL"; "LOW"; "WARNING"].
Proof.
  destruct (decide (m = 0)) as [->|Hm]; [by rewrite status_zero|].
  rewrite status_nonzero by done. intros [= <-].
  destruct (decide (q = 0)); [|repeat destruct (Qle_bool _ _)];
    apply list_elem_of_In; simpl; tauto.
Qed.

Lemma csv_status_tier (q m : Z) :
  Reports.csv_status q m ∈ ["OUT OF STOCK"; "CRITICAL"; "LOW"; "WARNING"].
Proof.
  unfold Reports.csv_status.
  destruct (decide (q = 0)); [|repeat destruct (Reports.within _ _ _)];
    apply list_elem_of_In; simpl; tauto.
Qed.


(** C8, as stated, fails: with a negative minimum stock the classifier of
    [inventory.py] returns a tier, and with a minimum stock of zero the
    classifier of [reports.py] returns a tier; neither reports a failure. *)
Lemma status_negative_threshold :
  Inventory.status (-5) (-2) = Ok "WARNING"
  /\ Reports.csv_status 0 0 = "OUT OF STOCK"
  /\ Reports.csv_status (-3) 0 = "CRITICAL".
Proof. repeat split. Qed.

(** C8 (amended). Neither classifier checks the threshold.  For every
    minimum stock other than zero, negative ones included, the classifier
    of [inventory.py] returns one of its four tiers; the classifier of
    [reports.py] returns one of the four tiers for every minimum stock,
    zero included. *)
Theorem classification_without_threshold_check (quantity min_stock : Z) :
  (min_stock <> 0 ->
   exists s, Inventory.status quantity min_stock = Ok s
             /\ s ∈ ["OUT OF STOCK"; "CRITICAL"; "LOW"; "WARNING"])
  /\ Reports.csv_status quantity min_stock ∈ ["OUT OF STOCK"; "CRITICAL"; "LOW"; "WARNING"].
Proof.
  split; [|apply csv_status_tier].
  intros Hm. destruct (Inventory.status quantity min_stock) as [s|e] eqn:Hs.
  - exists s. split; [done|]. by eapply status_tier.
  - by rewrite status_nonzero in Hs.
Qed.

Lemma classification_without_threshold_check_witness :
  (exists s, Inventory.status (-5) (-2) = Ok s
             /\ s ∈ ["OUT OF STOCK"; "CRITICAL"; "LOW"; "WARNING"])
  /\ Reports.csv_status 0 0 ∈ ["OUT OF STOCK"; "CRITICAL"; "LOW"; "WARNING"].
Proof.
  split.
  - apply (classification_without_threshold_check (-5) (-2)). discriminate.
  - apply (classification_without_threshold_check 0 0).
Defined.

(** In [inventory.py] a row whose minimum stock is zero raises
    ZeroDivisionError in the loop: the rows after it are not printed. *)
Lemma print_rows_abort (rows1 rows2 : list Store.product) (p : Store.product) :
  Store.min_stock p = 0 ->
  Inventory.print_rows (rows1 ++ p :: rows2)
  = ((Inventory.print_rows rows1).1,
     Some (default ZeroDivisionError (Inventory.print_rows rows1).2)).
Proof.
  intros Hp. induction rows1 as [|r rows1 IH]; simpl.
  - by rewrite Hp.
  - destruct (Inventory.status _ _) as [s|e]; [|done].
    rewrite IH. by destruct (Inventory.print_rows rows1) as [lines [e|]].
Qed.

(** ** The rows of the low-stock report *)




(** ** Ranking with a minimum of units *)

Section TopProductsFacts.
Import Dashboard.
Variable sort_values_desc : (group -> fnum) -> list group -> list group.
Hypothesis sort_values_perm : forall key l, sort_values_desc key l ≡ₚ l.

(** Filtering comes first: whatever the order the sort gives, a product of
    the ranking by average price is a product of the input that has at
    least the minimum of units sold. *)
Lemma top_by_margin_elem (min_units : Q) (top_n : nat) (product_data : list group)
    (g : group) :
  g ∈ top_by_margin sort_values_desc min_units top_n product_data ->
  g ∈ product_data /\ (min_units <= g_sold g)%Q.
Proof.
  unfold top_by_margin, at_least. intros Hin%subseteq_take.
  rewrite sort_values_perm in Hin. apply list_elem_of_filter in Hin as [Hle Hin].
  split; [done|]. by apply Qle_bool_iff, Is_true_true.
Qed.

(** A product below the minimum is left out, however high its average
    price. *)
Lemma below_threshold_excluded (min_units : Q) (top_n : nat)
    (product_data : list group) (g : group) :
  (g_sold g < min_units)%Q ->
  g ∉ top_by_margin sort_values_desc min_units top_n product_data.
Proof.
  intros Hlt [_ Hle]%top_by_margin_elem. by destruct (Qlt_not_le _ _ Hlt).
Qed.

End TopProductsFacts.


(** * Further properties of the sources *)

(** ** Dicts in insertion order *)

Lemma dict_find_store {V} (k k' : string) (v : V) (d : list (string * V)) :
  dict_find k (dict_store k' v d) = if decide (k = k') then Some v else dict_find k d.
Proof.
  induction d as [|[k0 v0] d IH]; simpl.
  - by destruct (decide (k = k')).
  - destruct (decide (k' = k0)) as [->|Hne]; simpl.
    + by destruct (decide (k = k0)).
    + destruct (decide (k = k0)) as [->|Hne'].
      * destruct (decide (k0 = k')); [by subst|done].
      * exact IH.
Qed.

Lemma dict_find_None {V} (k : string) (d : list (string * V)) :
  dict_find k d = None <-> k ∉ map fst d.
Proof.
  induction d as [|[k0 v0] d IH]; simpl.
  - split; [intros _ H; by apply elem_of_nil in H|done].
  - rewrite not_elem_of_cons. destruct (decide (k = k0)) as [->|Hne]; simpl.
    + split; [done|]. by intros [? _].
    + rewrite IH. tauto.
Qed.

Lemma dict_store_keys {V} (k : string) (v : V) (d : list (string * V)) :
  map fst (dict_store k v d)
  = if decide (k ∈ map fst d) then map fst d else map fst d ++ [k].
Proof.
  induction d as [|[k0 v0] d IH]; simpl.
  - destruct (decide (k ∈ [])) as [H|_]; [by apply elem_of_nil in H|done].
  - destruct (decide (k = k0)) as [->|Hne]; simpl.
    + destruct (decide (k0 ∈ k0 :: map fst d)) as [_|H]; [done|].
      destruct H. by left.
    + rewrite IH. destruct (decide (k ∈ map fst d)) as [Hin|Hin].
      * destruct (decide (k ∈ k0 :: map fst d)) as [_|H]; [done|].
        destruct H. by right.
      * destruct (decide (k ∈ k0 :: map fst d)) as [H|_]; [|done].
        apply elem_of_cons in H as [?|?]; done.
Qed.

Lemma dict_store_NoDup {V} (k : string) (v : V) (d : list (string * V)) :
  NoDup (map fst d) -> NoDup (map fst (dict_store k v d)).
Proof.
  intros Hd. rewrite dict_store_keys. destruct (decide (k ∈ map fst d)); [done|].
  apply NoDup_app. split; [done|]. split; [|apply NoDup_singleton].
  intros x Hx ->%list_elem_of_singleton. done.
Qed.

Lemma dict_elem_key {V} (k : string) (v : V) (d : list (string * V)) :
  (k, v) ∈ d -> k ∈ map fst d.
Proof.
  induction d as [|[k0 v0] d IH]; simpl.
  - by intros ?%elem_of_nil.
  - intros [[= -> ->]|H]%elem_of_cons; [by left|right; by apply IH].
Qed.

Lemma dict_elem_find {V} (k : string) (v : V) (d : list (string * V)) :
  NoDup (map fst d) -> (k, v) ∈ d <-> dict_find k d = Some v.
Proof.
  induction d as [|[k0 v0] d IH]; simpl; intros Hd.
  - split; [by intros ?%elem_of_nil|done].
  - apply NoDup_cons in Hd as [Hk0 Hd]. rewrite elem_of_cons, (IH Hd).
    destruct (decide (k = k0)) as [->|Hne].
    + split; [|intros [= ->]; by left].
      intros [[= ->]|Hf]; [done|].
      apply (proj2 (IH Hd)), dict_elem_key in Hf. done.
    + split; [intros [[= -> ->]|Hf]; done|by right].
Qed.

(** ** Grouping loops *)

Section GroupFold.
Context {A V : Type} (key : A -> string) (init : V) (upd : A -> V -> V).

(** The entry of a key after the loop: the updates of the elements with
    that key, in their order, applied to the entry before the loop (or to
    the initial value). *)
Lemma group_fold_find (c : string) (l : list A) (d : list (string * V)) :
  dict_find c (foldl (fun d x => dict_upsert (key x) init (upd x) d) d l)
  = match filter (fun x => key x = c) l with
    | [] => dict_find c d
    | xs => Some (foldl (fun v x => upd x v) (default init (dict_find c d)) xs)
    end.
Proof.
  revert d. induction l as [|x l IH]; intros d; [done|].
  cbn [foldl]. rewrite IH, filter_cons. unfold dict_upsert.
  rewrite dict_find_store.
  destruct (decide (key x = c)) as [<-|Hne].
  - destruct (decide (key x = key x)); [|done]. simpl.
    by destruct (filter _ l).
  - destruct (decide (c = key x)); [by subst|done].
Qed.

Lemma group_fold_keys (c : string) (l : list A) (d : list (string * V)) :
  c ∈ map fst (foldl (fun d x => dict_upsert (key x) init (upd x) d) d l)
  <-> c ∈ map fst d \/ exists x, x ∈ l /\ key x = c.
Proof.
  revert d. induction l as [|x l IH]; intros d; cbn [foldl].
  - split; [by left|]. intros [?|(x & ?%elem_of_nil & _)]; done.
  - rewrite IH. unfold dict_upsert. rewrite dict_store_keys.
    destruct (decide (key x ∈ map fst d)) as [Hin|Hin].
    + split.
      * intros [?|(y & Hy & <-)]; [by left|]. right. exists y. split; [by right|done].
      * intros [? | (y & [-> | Hy]%elem_of_cons & <-)]; [by left|by left|].
        right. by exists y.
    + rewrite elem_of_app, list_elem_of_singleton. split.
      * intros [[? | ->] | (y & Hy & <-)]; [by left| |].
        -- right. exists x. split; [by left|done].
        -- right. exists y. split; [by right|done].
      * intros [? | (y & [-> | Hy]%elem_of_cons & <-)]; [by left; left|by left; right|].
        right. by exists y.
Qed.

Lemma group_fold_NoDup (l : list A) (d : list (string * V)) :
  NoDup (map fst d) ->
  NoDup (map fst (foldl (fun d x => dict_upsert (key x) init (upd x) d) d l)).
Proof.
  revert d. induction l as [|x l IH]; intros d Hd; cbn [foldl]; [done|].
  apply IH. by apply dict_store_NoDup.
Qed.

(** A row of the grouped dict: its key has at least one element, and its
    value is the fold of the updates over the elements with that key. *)
Lemma group_fold_elem (c : string) (v : V) (l : list A) :
  (c, v) ∈ foldl (fun d x => dict_upsert (key x) init (upd x) d) [] l
  <-> filter (fun x => key x = c) l <> []
      /\ v = foldl (fun v x => upd x v) init (filter (fun x => key x = c) l).
Proof.
  rewrite dict_elem_find by (apply group_fold_NoDup; constructor).
  rewrite group_fold_find. simpl.
  destruct (filter _ l) as [|y ys]; [split; [done|by intros [? _]]|].
  split; [intros [= <-]; by split|by intros [_ ->]].
Qed.

End GroupFold.


Lemma StronglySorted_app_cross {A} (R : A -> A -> Prop) (l1 l2 : list A) :
  StronglySorted R (l1 ++ l2) ->
  StronglySorted R l1 /\ forall x y, x ∈ l1 -> y ∈ l2 -> R x y.
Proof.
  induction l1 as [|a l1 IH]; simpl; intros Hs.
  - split; [constructor|]. by intros x y ?%elem_of_nil.
  - apply StronglySorted_inv in Hs as [Hs Hall]. destruct (IH Hs) as [Hs1 Hcross].
    apply Forall_app in Hall as [Hall1 Hall2]. split; [by constructor|].
    intros x y [->|Hx]%elem_of_cons Hy; [|by apply Hcross].
    rewrite Forall_forall in Hall2. by apply Hall2.
Qed.

Lemma Qle_bool_total (a b : Q) : Qle_bool b a = false -> Qle_bool a b = true.
Proof.
  intros H. apply Qle_bool_iff. destruct (Qlt_le_dec b a) as [Hlt|Hle].
  - apply Qlt_le_weak in Hlt. apply Qle_bool_iff in Hlt. congruence.
  - done.
Qed.

Lemma sorted_desc_perm {A} (key : A -> Q) (l : list A) : sorted_desc key l ≡ₚ l.
Proof. apply sort_by_key_perm. Qed.

Lemma sorted_desc_sorted {A} (key : A -> Q) (l : list A) :
  StronglySorted (fun a b => (key b <= key a)%Q) (sorted_desc key l).
Proof.
  apply Sorted_StronglySorted.
  - intros a b c Hab Hbc. by eapply Qle_trans.
  - apply (sort_by_key_sorted (fun a b => Qle_bool b a) key).
    + intros a b. apply Qle_bool_total.
    + intros a b H. by apply Qle_bool_iff.
Qed.

Lemma sorted_desc_stable {A} (key : A -> Q) (q : Q) (l : list A) :
  filter (fun x => Qeq_bool (key x) q = true) (sorted_desc key l)
  = filter (fun x => Qeq_bool (key x) q = true) l.
Proof.
  apply (sort_by_key_stable (fun a b => Qle_bool b a) key (fun a => Qeq_bool a q)).
  intros a b Hab Ha%Qeq_bool_iff Hb%Qeq_bool_iff.
  assert (Hle : Qle_bool b a = true) by (apply Qle_bool_iff; rewrite Ha, Hb; apply Qle_refl).
  congruence.
Qed.

(** ** Sums *)

Lemma foldl_add_shift (a : Z) (l : list Z) : foldl Z.add a l = a + sum_int l.
Proof.
  unfold sum_int. revert a. induction l as [|x l IH]; intros a; simpl; [lia|].
  rewrite (IH (a + x)), (IH (0 + x)). lia.
Qed.

Lemma sum_int_cons (x : Z) (l : list Z) : sum_int (x :: l) = x + sum_int l.
Proof. unfold sum_int at 1. simpl. by rewrite foldl_add_shift. Qed.

Lemma foldl_Qplus_shift (a : Q) (l : list Q) : (foldl Qplus a l == a + sum_float l)%Q.
Proof.
  unfold sum_float. revert a. induction l as [|x l IH]; intros a; simpl; [ring|].
  rewrite (IH (a + x)%Q), (IH (0 + x)%Q). ring.
Qed.

Lemma sum_float_cons (x : Q) (l : list Q) : (sum_float (x :: l) == x + sum_float l)%Q.
Proof. unfold sum_float at 1. simpl. rewrite foldl_Qplus_shift. ring. Qed.

Lemma sum_float_zero (l : list Q) :
  Forall (fun x => (x == 0)%Q) l -> (sum_float l == 0)%Q.
Proof.
  induction 1 as [|x l Hx _ IH]; [reflexivity|].
  rewrite sum_float_cons, Hx, IH. ring.
Qed.

(** ** Inventory valuation *)

Section ValuationFacts.
Import Reports.
Variable float_sum : list Q -> Q.

Lemma add_item_fold (xs : list stock_row) (t : cat_totals) :
  let t' := foldl (fun v x => add_item x v) t xs in
  c_items t' = foldl Z.add (c_items t) (map v_quantity xs)
  /\ c_cost t' = foldl Qplus (c_cost t) (map inventory_value xs)
  /\ c_retail t' = foldl Qplus (c_retail t) (map retail_value xs).
Proof.
  revert t. induction xs as [|x xs IH]; intros t; simpl; [done|].
  apply (IH (add_item x t)).
Qed.

(** X1. The category table of the valuation report has one row per category
    present in the inventory, and the row of a category holds the sums of
    the quantities, of the cost values and of the retail values of exactly
    the items of that category. *)
Theorem valuation_categories_rows (inventory : list stock_row) :
  NoDup (map fst (valuation_categories inventory))
  /\ (forall c, c ∈ map fst (valuation_categories inventory)
               <-> exists item, item ∈ inventory /\ v_category item = c)
  /\ (forall c data,
        (c, data) ∈ valuation_categories inventory ->
        let items := filter (fun item => v_category item = c) inventory in
        items <> []
        /\ c_items data = sum_int (map v_quantity items)
        /\ c_cost data = sum_float (map inventory_value items)
        /\ c_retail data = sum_float (map retail_value items)).
Proof.
  unfold valuation_categories. split; [|split].
  - apply group_fold_NoDup. constructor.
  - intros c. rewrite group_fold_keys. split.
    + intros [?%elem_of_nil|?]; done.
    + by right.
  - intros c data [Hne ->]%group_fold_elem. split; [done|].
    apply (add_item_fold _ (CatTotals 0 0 0)).
Qed.

Lemma valuation_categories_rows_witness :
  ("Coils", CatTotals 7 (0 + 4 * (3 # 2) + 3 * (3 # 2)) (0 + 4 * 5 + 3 * 5))
    ∈ valuation_categories
        [StockRow "VS1" "Mesh coil" "Coils" 4 (3 # 2) 5;
         StockRow "VS2" "Mint 30ml" "E-Liquid" 2 4 9;
         StockRow "VS3" "Ceramic coil" "Coils" 3 (3 # 2) 5]
  /\ 7 = sum_int [4; 3].
Proof.
  assert (Hin : ("Coils", CatTotals 7 (0 + 4 * (3 # 2) + 3 * (3 # 2)) (0 + 4 * 5 + 3 * 5))
                  ∈ valuation_categories
                      [StockRow "VS1" "Mesh coil" "Coils" 4 (3 # 2) 5;
                       StockRow "VS2" "Mint 30ml" "E-Liquid" 2 4 9;
                       StockRow "VS3" "Ceramic coil" "Coils" 3 (3 # 2) 5])
    by (apply list_elem_of_In; vm_compute; tauto).
  split; [exact Hin|].
  destruct (valuation_categories_rows
              [StockRow "VS1" "Mesh coil" "Coils" 4 (3 # 2) 5;
               StockRow "VS2" "Mint 30ml" "E-Liquid" 2 4 9;
               StockRow "VS3" "Ceramic coil" "Coils" 3 (3 # 2) 5])
    as (_ & _ & Hrows).
  destruct (Hrows _ _ Hin) as (_ & Hitems & _). exact Hitems.
Defined.

Lemma upsert_items_sum (item : stock_row) (d : list (string * cat_totals)) :
  sum_int (map (fun kv => c_items kv.2)
               (dict_upsert (v_category item) (CatTotals 0 0 0) (add_item item) d))
  = sum_int (map (fun kv => c_items kv.2) d) + v_quantity item.
Proof.
  unfold dict_upsert. induction d as [|[k v] d IH]; simpl.
  - rewrite !sum_int_cons. unfold sum_int. simpl. lia.
  - destruct (decide (v_category item = k)) as [->|Hne]; simpl.
    + rewrite !sum_int_cons. simpl. lia.
    + rewrite !sum_int_cons, IH. simpl. lia.
Qed.

Lemma upsert_value_sum (g : cat_totals -> Q) (h : stock_row -> Q)
    (item : stock_row) (d : list (string * cat_totals)) :
  (g (CatTotals 0 0 0) == 0)%Q ->
  (forall t, g (add_item item t) == g t + h item)%Q ->
  (sum_float (map (fun kv => g kv.2)
                  (dict_upsert (v_category item) (CatTotals 0 0 0) (add_item item) d))
   == sum_float (map (fun kv => g kv.2) d) + h item)%Q.
Proof.
  intros H0 Hadd. unfold dict_upsert. induction d as [|[k v] d IH]; simpl.
  - rewrite !sum_float_cons, Hadd, H0. unfold sum_float. simpl. ring.
  - destruct (decide (v_category item = k)) as [->|Hne]; simpl.
    + rewrite !sum_float_cons. simpl. rewrite Hadd. ring.
    + rewrite !sum_float_cons, IH. simpl. ring.
Qed.

Lemma valuation_fold_totals (inventory : list stock_row) (d : list (string * cat_totals)) :
  let cats := foldl (fun categories item =>
                       dict_upsert (v_category item) (CatTotals 0 0 0) (add_item item)
                                   categories) d inventory in
  sum_int (map (fun kv => c_items kv.2) cats)
  = sum_int (map (fun kv => c_items kv.2) d) + sum_int (map v_quantity inventory)
  /\ (sum_float (map (fun kv => c_cost kv.2) cats)
      == sum_float (map (fun kv => c_cost kv.2) d)
         + sum_float (map inventory_value inventory))%Q
  /\ (sum_float (map (fun kv => c_retail kv.2) cats)
      == sum_float (map (fun kv => c_retail kv.2) d)
         + sum_float (map retail_value inventory))%Q.
Proof.
  revert d. induction inventory as [|item inventory IH]; intros d; cbn [foldl map].
  - unfold sum_int, sum_float. simpl. split; [lia|]. split; ring.
  - destruct (IH (dict_upsert (v_category item) (CatTotals 0 0 0) (add_item item) d))
      as (Hi & Hc & Hr).
    rewrite Hi, Hc, Hr, upsert_items_sum, sum_int_cons, !sum_float_cons.
    rewrite (upsert_value_sum c_cost inventory_value),
      (upsert_value_sum c_retail retail_value);
      try reflexivity; try (intros t; simpl; ring).
    split; [lia|]. split; ring.
Qed.

(** X2. The rows of the category table add up to the totals of the report:
    the items of the categories sum to the total of items, and (the sums
    taken exactly) the cost and retail values of the categories sum to the
    total cost and the total retail value. *)
Theorem valuation_categories_totals (inventory : list stock_row) :
  sum_int (map (fun kv => c_items kv.2) (valuation_categories inventory))
  = sum_int (map v_quantity inventory)
  /\ (sum_float (map (fun kv => c_cost kv.2) (valuation_categories inventory))
      == sum_float (map inventory_value inventory))%Q
  /\ (sum_float (map (fun kv => c_retail kv.2) (valuation_categories inventory))
      == sum_float (map retail_value inventory))%Q.
Proof.
  destruct (valuation_fold_totals inventory []) as (Hi & Hc & Hr).
  unfold valuation_categories. rewrite Hi, Hc, Hr.
  unfold sum_int, sum_float. simpl. split; [lia|]. split; ring.
Qed.

Lemma total_cost_no_stock (inventory : list stock_row) :
  (forall item, item ∈ inventory -> v_quantity item = 0) ->
  (sum_float (map inventory_value inventory) == 0)%Q.
Proof.
  intros Hq. apply sum_float_zero, Forall_forall.
  intros x (item & -> & Hin)%list_elem_of_fmap.
  unfold inventory_value. rewrite (Hq _ Hin). ring.
Qed.

(** X3. The valuation report fails with ZeroDivisionError exactly when the
    inventory is not empty and its total cost, as the interpreter's sum of
    floats returns it, is zero; an empty inventory gives no report and
    every other inventory gives one.  Whenever a sum of zeros is zero, an
    inventory in which every product has quantity 0 makes the report
    fail. *)
Theorem valuation_report_zero_cost (inventory : list stock_row) :
  (inventory_valuation_report float_sum inventory = Raise ZeroDivisionError
   <-> inventory <> [] /\ (float_sum (map inventory_value inventory) == 0)%Q)
  /\ (inventory = [] -> inventory_valuation_report float_sum inventory = Ok None)
  /\ (inventory <> [] ->
      ~ (float_sum (map inventory_value inventory) == 0)%Q ->
      exists v, inventory_valuation_report float_sum inventory = Ok (Some v))
  /\ ((forall l, Forall (fun x => (x == 0)%Q) l -> (float_sum l == 0)%Q) ->
      inventory <> [] ->
      (forall item, item ∈ inventory -> v_quantity item = 0) ->
      inventory_valuation_report float_sum inventory = Raise ZeroDivisionError).
Proof.
  assert (Hmain : inventory <> [] ->
            if Qeq_bool (float_sum (map inventory_value inventory)) 0
            then inventory_valuation_report float_sum inventory = Raise ZeroDivisionError
            else exists v, inventory_valuation_report float_sum inventory = Ok (Some v)).
  { intros Hne. destruct inventory as [|item0 rest]; [done|].
    unfold inventory_valuation_report. cbv zeta.
    destruct (Qeq_bool (float_sum (map inventory_value (item0 :: rest))) 0) eqn:Hz;
      unfold float_div at 1; rewrite Hz; [done|]. cbn [bind].
    match goal with
    | |- context [for_each ?f ?l] => destruct (for_each_ok f l) as (rows & -> & _)
    end.
    { intros [cat data] _. unfold float_div. rewrite Hz. simpl. eauto. }
    simpl. eauto. }
  split; [|split; [|split]].
  - split.
    + intros Hr. destruct inventory as [|item0 rest]; [discriminate Hr|].
      split; [done|]. specialize (Hmain ltac:(done)).
      destruct (Qeq_bool _ 0) eqn:Hz; [by apply Qeq_bool_iff|].
      destruct Hmain as [v Hv]. congruence.
    + intros [Hne Hz]. specialize (Hmain Hne).
      by rewrite (Qeq_eq_bool _ _ Hz) in Hmain.
  - by intros ->.
  - intros Hne Hnz. specialize (Hmain Hne).
    destruct (Qeq_bool _ 0) eqn:Hz; [|done]. by apply Qeq_bool_iff in Hz.
  - intros Hzero Hne Hq. specialize (Hmain Hne).
    assert (Hz : (float_sum (map inventory_value inventory) == 0)%Q).
    { apply Hzero, Forall_forall. intros x (item & -> & Hin)%list_elem_of_fmap.
      unfold inventory_value. rewrite (Hq _ Hin). ring. }
    by rewrite (Qeq_eq_bool _ _ Hz) in Hmain.
Qed.

(** X4. The ten most valuable items of the valuation report: there are ten
    of them, or all the items when there are fewer; they are items of the
    inventory, in non-increasing order of cost value; every item left out is
    worth no more than any of them; and items of equal value stay in the
    order of the query. *)
Theorem valuation_top_items (inventory : list stock_row) (v : valuation) :
  inventory_valuation_report float_sum inventory = Ok (Some v) ->
  length (top_items v) = min 10 (length inventory)
  /\ StronglySorted (fun a b => (inventory_value b <= inventory_value a)%Q) (top_items v)
  /\ (exists rest,
        inventory ≡ₚ top_items v ++ rest
        /\ forall x y, x ∈ top_items v -> y ∈ rest ->
                       (inventory_value y <= inventory_value x)%Q)
  /\ (forall q,
        filter (fun x => Qeq_bool (inventory_value x) q = true) (top_items v)
        `prefix_of` filter (fun x => Qeq_bool (inventory_value x) q = true) inventory).
Proof.
  intros Hrep.
  assert (Htop : top_items v = take 10 (sorted_desc inventory_value inventory)).
  { destruct inventory as [|item0 rest]; [discriminate Hrep|].
    unfold inventory_valuation_report in Hrep.
    destruct (float_div _ _) as [q|e]; [|discriminate Hrep]. cbn [bind] in Hrep.
    destruct (for_each _ _) as [rows|e]; [|discriminate Hrep]. cbn [bind] in Hrep.
    by injection Hrep as <-. }
  rewrite Htop. clear Hrep Htop.
  pose proof (sorted_desc_sorted inventory_value inventory) as Hs.
  rewrite <- (take_drop 10 (sorted_desc inventory_value inventory)) in Hs.
  apply StronglySorted_app_cross in Hs as (Hs1 & Hcross).
  split; [|split; [done|split]].
  - by rewrite length_take, (Permutation_length (sorted_desc_perm _ _)).
  - exists (drop 10 (sorted_desc inventory_value inventory)). split.
    + by rewrite take_drop, sorted_desc_perm.
    + intros x y Hx Hy. by apply Hcross.
  - intros q. rewrite <- (sorted_desc_stable inventory_value q inventory).
    rewrite <- (take_drop 10 (sorted_desc inventory_value inventory)) at 2.
    rewrite filter_app. by apply prefix_app_r.
Qed.

End ValuationFacts.

Lemma sum_left_to_right_zeros (l : list Q) :
  Forall (fun x => (x == 0)%Q) l -> (sum_left_to_right l == 0)%Q.
Proof.
  unfold sum_left_to_right. intros Hl.
  assert (H : forall acc : Q,
             (acc == 0)%Q -> (foldl (fun acc x => to_float (acc + x)) acc l == 0)%Q).
  { induction Hl as [|x l Hx _ IH]; intros acc Hacc; [done|]. simpl. apply IH.
    rewrite (to_float_comp _ 0) by (rewrite Hacc, Hx; ring). reflexivity. }
  by apply H.
Qed.

Lemma valuation_report_zero_cost_witness :
  Reports.inventory_valuation_report sum_left_to_right
    [Reports.StockRow "VS1" "Mesh coil" "Coils" 0 (3 # 2) 5;
     Reports.StockRow "VS2" "Mint 30ml" "E-Liquid" 0 4 9]
  = Raise ZeroDivisionError
  /\ Reports.inventory_valuation_report sum_left_to_right
       [Reports.StockRow "VS1" "Reserve" "Stock" 1 (10 ^ 16) 5;
        Reports.StockRow "VS2" "Mint 30ml" "E-Liquid" 1 1 9;
        Reports.StockRow "VS3" "Returned" "Stock" (-1) (10 ^ 16) 5]
     = Raise ZeroDivisionError.
Proof.
  pose proof (valuation_report_zero_cost sum_left_to_right) as H. split.
  - apply (proj2 (proj2 (proj2 (H _)))).
    + exact sum_left_to_right_zeros.
    + discriminate.
    + intros item Hin. apply list_elem_of_In in Hin. simpl in Hin.
      destruct Hin as [<-|[<-|[]]]; reflexivity.
  - apply (proj1 (H _)). split; [discriminate|]. vm_compute. reflexivity.
Defined.

Lemma valuation_top_items_witness :
  exists v,
    Reports.inventory_valuation_report sum_float
      [Reports.StockRow "VS1" "Mesh coil" "Coils" 4 (3 # 2) 5;
       Reports.StockRow "VS2" "Mint 30ml" "E-Liquid" 2 4 9] = Ok (Some v)
    /\ length (Reports.top_items v) = 2%nat.
Proof.
  assert (H : exists v,
             Reports.inventory_valuation_report sum_float
               [Reports.StockRow "VS1" "Mesh coil" "Coils" 4 (3 # 2) 5;
                Reports.StockRow "VS2" "Mint 30ml" "E-Liquid" 2 4 9] = Ok (Some v))
    by (eexists; vm_compute; reflexivity).
  destruct H as [v H]. exists v. split; [exact H|].
  apply (valuation_top_items _ _ _ H).
Defined.


(** ** Product performance and margins *)

Section MarginFacts.
Import Reports.



Lemma add_margin_fold (xs : list (string * Q)) (s0 : margin_stats) :
  let s := foldl (fun v x => add_margin x.2 v) s0 xs in
  m_count s = m_count s0 + Z.of_nat (length xs)
  /\ m_total_margin s = foldl Qplus (m_total_margin s0) (map snd xs)
  /\ (m_lowest s <= m_lowest s0)%Q
  /\ (m_highest s0 <= m_highest s)%Q
  /\ Forall (fun x => (m_lowest s <= x.2)%Q /\ (x.2 <= m_highest s)%Q) xs
  /\ ((m_lowest s == m_lowest s0)%Q \/ Exists (fun x => (m_lowest s == x.2)%Q) xs)
  /\ ((m_highest s == m_highest s0)%Q \/ Exists (fun x => (m_highest s == x.2)%Q) xs).
Proof.
  revert s0. induction xs as [|x xs IH]; intros s0; cbn [foldl length map].
  - split; [lia|]. split; [done|]. split; [apply Qle_refl|]. split; [apply Qle_refl|].
    split; [constructor|]. split; left; reflexivity.
  - destruct (IH (add_margin x.2 s0)) as (Hc & Ht & Hl & Hh & Hall & Hlo & Hhi).
    cbn [add_margin m_count m_total_margin m_lowest m_highest] in *.
    pose proof (Q.le_min_l (m_lowest s0) x.2) as Hmin_l.
    pose proof (Q.le_min_r (m_lowest s0) x.2) as Hmin_r.
    pose proof (Q.le_max_l (m_highest s0) x.2) as Hmax_l.
    pose proof (Q.le_max_r (m_highest s0) x.2) as Hmax_r.
    split; [lia|]. split; [done|].
    split; [by eapply Qle_trans|]. split; [by eapply Qle_trans|].
    split; [|split].
    + constructor; [|done]. split; by eapply Qle_trans.
    + destruct Hlo as [Hlo|Hlo]; [|right; by constructor 2].
      destruct (Q.min_dec (m_lowest s0) x.2) as [Hd|Hd].
      * left. by rewrite Hlo, Hd.
      * right. constructor 1. by rewrite Hlo, Hd.
    + destruct Hhi as [Hhi|Hhi]; [|right; by constructor 2].
      destruct (Q.max_dec (m_highest s0) x.2) as [Hd|Hd].
      * left. by rewrite Hhi, Hd.
      * right. constructor 1. by rewrite Hhi, Hd.
Qed.

Lemma margin_rows_facts (products : list (string * Q)) (c : string)
    (s : margin_stats) :
  (c, s) ∈ margin_categories products ->
  let rows := filter (fun item => item.1 = c) products in
  rows <> []
  /\ m_count s = Z.of_nat (length rows) /\ 1 <= m_count s
  /\ m_total_margin s = sum_float (map snd rows)
  /\ (m_lowest s <= 100)%Q /\ (0 <= m_highest s)%Q
  /\ Forall (fun x => (m_lowest s <= x.2)%Q /\ (x.2 <= m_highest s)%Q) rows
  /\ ((m_lowest s == 100)%Q \/ Exists (fun x => (m_lowest s == x.2)%Q) rows)
  /\ ((m_highest s == 0)%Q \/ Exists (fun x => (m_highest s == x.2)%Q) rows)
  /\ float_div (m_total_margin s) (inject_Z (m_count s))
     = Ok (m_total_margin s / inject_Z (m_count s))%Q.
Proof.
  unfold margin_categories. intros [Hne ->]%group_fold_elem. cbv zeta.
  destruct (add_margin_fold (filter (fun item => item.1 = c) products)
                            (MarginStats 0 0 100 0))
    as (Hc & Ht & Hl & Hh & Hall & Hlo & Hhi).
  cbn [m_count m_total_margin m_lowest m_highest] in *.
  assert (Hpos : 1 <= Z.of_nat (length (filter (fun item => item.1 = c) products))).
  { destruct (filter _ products); [done|]. simpl. lia. }
  split; [done|]. rewrite Hc. split; [lia|]. split; [lia|].
  split; [done|]. split; [done|]. split; [done|]. split; [done|].
  split; [done|]. split; [done|].
  unfold float_div. destruct (Qeq_bool _ 0) eqn:Hz; [|done].
  apply Qeq_bool_iff in Hz. unfold Qeq, inject_Z in Hz. simpl in Hz. lia.
Qed.

(** X6. Each row of the margin analysis by category covers at least one
    product, so its average never divides by zero; it counts the products
    of the category and adds up their margins.  Its lowest margin starts
    from 100 and its highest from 0: they bound every margin of the
    category, the lowest is 100 or the margin of one of its products, and
    the highest is 0 or the margin of one of its products (a category whose
    margins are all negative shows a highest margin of 0). *)
Theorem margin_categories_rows (products : list (string * Q)) (c : string)
    (s : margin_stats) :
  (c, s) ∈ margin_categories products ->
  let rows := filter (fun item => item.1 = c) products in
  rows <> []
  /\ m_count s = Z.of_nat (length rows) /\ 1 <= m_count s
  /\ m_total_margin s = sum_float (map snd rows)
  /\ (m_lowest s <= 100)%Q /\ (0 <= m_highest s)%Q
  /\ Forall (fun x => (m_lowest s <= x.2)%Q /\ (x.2 <= m_highest s)%Q) rows
  /\ ((m_lowest s == 100)%Q \/ Exists (fun x => (m_lowest s == x.2)%Q) rows)
  /\ ((m_highest s == 0)%Q \/ Exists (fun x => (m_highest s == x.2)%Q) rows)
  /\ float_div (m_total_margin s) (inject_Z (m_count s))
     = Ok (m_total_margin s / inject_Z (m_count s))%Q.
Proof. apply margin_rows_facts. Qed.

Lemma margin_categories_rows_witness :
  exists s,
    ("Coils", s) ∈ margin_categories [("Coils", -10); ("Pods", 30); ("Coils", -25)]%Q
    /\ m_count s = 2 /\ (0 <= m_highest s)%Q.
Proof.
  assert (H : exists s,
             ("Coils", s)
               ∈ margin_categories [("Coils", -10); ("Pods", 30); ("Coils", -25)]%Q)
    by (eexists; apply list_elem_of_In; vm_compute; left; reflexivity).
  destruct H as [s H]. exists s. split; [exact H|].
  destruct (margin_categories_rows _ _ _ H) as (_ & Hc & _ & _ & _ & Hh & _).
  split; [exact Hc|exact Hh].
Defined.

(** The averages of the categories are always computed. *)
Lemma category_averages_ok (products : list (string * Q)) :
  exists rows, category_averages (margin_categories products) = Ok rows.
Proof.
  unfold category_averages.
  match goal with
  | |- context [for_each ?f ?l] => destruct (for_each_ok f l) as (rows & -> & _)
  end; [|by eexists].
  intros [cat data] Hin.
  destruct (margin_rows_facts _ _ _ Hin) as (_ & _ & _ & _ & _ & _ & _ & _ & _ & ->).
  simpl. eauto.
Qed.

End MarginFacts.

(** ** Report periods *)

Section PeriodFacts.
Import Reports.

Lemma days_in_month_bounds (y m : Z) : 28 <= days_in_month y m <= 31.
Proof.
  unfold days_in_month. destruct (m =? 2); [destruct (is_leap y); lia|].
  destruct ((m =? 4) || (m =? 6) || (m =? 9) || (m =? 11)); lia.
Qed.

Lemma replace_first_day (y m : Z) :
  1 <= y <= 9999 -> 1 <= m <= 12 -> replace_ymd y m 1 = Ok (Date y m 1).
Proof.
  intros Hy Hm. unfold replace_ymd, valid_dateb.
  pose proof (days_in_month_bounds y m).
  replace (1 <=? y) with true by (symmetry; apply Z.leb_le; lia).
  replace (y <=? 9999) with true by (symmetry; apply Z.leb_le; lia).
  replace (1 <=? m) with true by (symmetry; apply Z.leb_le; lia).
  replace (m <=? 12) with true by (symmetry; apply Z.leb_le; lia).
  replace (1 <=? 1) with true by done.
  replace (1 <=? days_in_month y m) with true by (symmetry; apply Z.leb_le; lia).
  done.
Qed.

(** X7. "Last Month": for a date that is not in January of year 1, the
    period starts on the first day of the month just before the current
    one (December of the year before, in January) and ends before the first
    day of the current month.  In January of year 1 the computation fails
    with ValueError. *)
Theorem last_month_period_spec (today : date) :
  valid_date today ->
  ((2 <= d_year today \/ 2 <= d_month today) ->
   exists start_date end_date,
     last_month_period today = Ok (start_date, end_date)
     /\ valid_date start_date /\ valid_date end_date
     /\ d_day start_date = 1 /\ d_day end_date = 1
     /\ month_number end_date = month_number today
     /\ month_number start_date = month_number today - 1)
  /\ (d_year today = 1 -> d_month today = 1 ->
      last_month_period today = Raise ValueError).
Proof.
  intros (Hy & Hm & Hd). unfold last_month_period. split.
  - intros Hnot_first. destruct (decide (d_month today - 1 = 0)) as [H0|H0].
    + rewrite (replace_first_day (d_year today - 1) 12) by lia.
      rewrite (replace_first_day (d_year today) (d_month today)) by lia.
      simpl. eexists _, _. split; [reflexivity|].
      unfold valid_date, month_number. simpl.
      pose proof (days_in_month_bounds (d_year today - 1) 12).
      pose proof (days_in_month_bounds (d_year today) (d_month today)).
      repeat split; lia.
    + rewrite (replace_first_day (d_year today) (d_month today - 1)) by lia.
      rewrite (replace_first_day (d_year today) (d_month today)) by lia.
      simpl. eexists _, _. split; [reflexivity|].
      unfold valid_date, month_number. simpl.
      pose proof (days_in_month_bounds (d_year today) (d_month today - 1)).
      pose proof (days_in_month_bounds (d_year today) (d_month today)).
      repeat split; lia.
  - intros Hy1 Hm1. rewrite Hy1, Hm1. reflexivity.
Qed.

Lemma last_month_period_spec_witness :
  exists start_date end_date,
    last_month_period (Date 2024 1 15) = Ok (start_date, end_date)
    /\ start_date = Date 2023 12 1 /\ end_date = Date 2024 1 1.
Proof.
  assert (Hv : valid_date (Date 2024 1 15)) by (vm_compute; intuition discriminate).
  destruct (proj1 (last_month_period_spec (Date 2024 1 15) Hv))
    as (start_date & end_date & Hp & _); [left; simpl; lia|].
  exists start_date, end_date. split; [exact Hp|].
  vm_compute in Hp. injection Hp as <- <-. split; reflexivity.
Defined.

Lemma previous_month_start_first (d : date) :
  valid_date d -> d_day d = 1 -> 13 <= month_number d ->
  exists d', previous_month_start d = Some d'
             /\ valid_date d' /\ d_day d' = 1
             /\ month_number d' = month_number d - 1.
Proof.
  intros (Hy & Hm & Hd) Hd1. unfold month_number, previous_month_start, minus_one_day.
  intros Hn. destruct (decide (1 < d_day d)) as [?|_]; [lia|].
  destruct (decide (1 < d_month d)) as [Hm1|Hm1].
  - eexists. split; [reflexivity|]. unfold valid_date, first_day. simpl.
    pose proof (days_in_month_bounds (d_year d) (d_month d - 1)). repeat split; lia.
  - destruct (decide (1 < d_year d)) as [Hy1|Hy1]; [|lia].
    eexists. split; [reflexivity|]. unfold valid_date, first_day. simpl.
    pose proof (days_in_month_bounds (d_year d - 1) 12). repeat split; lia.
Qed.

Lemma months_back_first (k : nat) (d : date) :
  valid_date d -> d_day d = 1 -> 12 + Z.of_nat k <= month_number d ->
  exists d', months_back k d = Some d'
             /\ valid_date d' /\ d_day d' = 1
             /\ month_number d' = month_number d - Z.of_nat k.
Proof.
  revert d. induction k as [|k IH]; intros d Hv Hd1 Hn.
  - exists d. split; [done|]. split; [done|]. split; [done|]. simpl. lia.
  - destruct (previous_month_start_first d Hv Hd1) as (d1 & Hp & Hv1 & Hd11 & Hn1); [lia|].
    destruct (IH d1 Hv1 Hd11) as (d' & Hb & Hv' & Hd' & Hn'); [lia|].
    exists d'. cbn [months_back]. rewrite Hp. simpl. rewrite Hb.
    split; [done|]. split; [done|]. split; [done|]. lia.
Qed.

Lemma first_day_valid (d : date) :
  valid_date d ->
  valid_date (first_day d) /\ d_day (first_day d) = 1
  /\ month_number (first_day d) = month_number d.
Proof.
  intros (Hy & Hm & Hd). unfold valid_date, first_day, month_number. simpl.
  pose proof (days_in_month_bounds (d_year d) (d_month d)). repeat split; lia.
Qed.

(** X8. From the second year on, "Last 3 Months" starts on the first day of
    the month two months before the current one and "Last 6 Months" on the
    first day of the month five months before it, whatever the lengths of
    the months in between; the subtraction of days never leaves the range
    of dates. *)
Theorem last_months_start_spec (today : date) :
  valid_date today -> 2 <= d_year today ->
  (exists d, last_3_months_start today = Some d
             /\ valid_date d /\ d_day d = 1
             /\ month_number d = month_number today - 2)
  /\ (exists d, last_6_months_start today = Some d
                /\ valid_date d /\ d_day d = 1
                /\ month_number d = month_number today - 5).
Proof.
  intros Hv Hy. destruct (first_day_valid today Hv) as (Hfv & Hf1 & Hfn).
  assert (Hn : 24 <= month_number today).
  { destruct Hv as (_ & Hm & _). unfold month_number. lia. }
  split.
  - destruct (months_back_first 2 (first_day today) Hfv Hf1) as (d & Hb & ? & ? & Hd);
      [simpl; lia|].
    exists d. split; [|split; [done|]; split; [done|]; simpl in Hd; lia].
    cbn [months_back] in Hb. unfold last_3_months_start.
    destruct (previous_month_start (first_day today)) as [d1|]; [|done]. simpl in *.
    by destruct (previous_month_start d1).
  - destruct (months_back_first 5 (first_day today) Hfv Hf1) as (d & Hb & ? & ? & Hd);
      [simpl; lia|].
    exists d. split; [done|]. split; [done|]. split; [done|]. simpl in Hd. lia.
Qed.

Lemma last_months_start_spec_witness :
  (exists d, last_3_months_start (Date 2024 3 31) = Some d
             /\ month_number d = month_number (Date 2024 3 31) - 2)
  /\ (exists d, last_6_months_start (Date 2024 3 31) = Some d
                /\ month_number d = month_number (Date 2024 3 31) - 5).
Proof.
  assert (Hv : valid_date (Date 2024 3 31)) by (vm_compute; intuition discriminate).
  destruct (last_months_start_spec (Date 2024 3 31) Hv)
    as [(d3 & H3 & _ & _ & Hn3) (d6 & H6 & _ & _ & Hn6)]; [simpl; lia|].
  split; [exists d3|exists d6]; split; assumption.
Defined.

End PeriodFacts.

(** ** The low-stock report: totals and groups *)

Section LowStockFacts.
Import Store Reports.




Lemma in_group_eq (g : severity) (p : product) :
  in_group g p = true <-> group_of (quantity p) (min_stock p) = g.
Proof. unfold in_group. destruct (group_of _ _), g; split; done. Qed.

Lemma severity_groups_from (l c0 l0 w0 : list product) :
  foldl (fun '(critical_l, low_l, warning_l) item =>
           match group_of (quantity item) (min_stock item) with
           | critical => (critical_l ++ [item], low_l, warning_l)
           | low => (critical_l, low_l ++ [item], warning_l)
           | warning => (critical_l, low_l, warning_l ++ [item])
           end)
        (c0, l0, w0) l
  = (c0 ++ filter (fun p => in_group critical p = true) l,
     l0 ++ filter (fun p => in_group low p = true) l,
     w0 ++ filter (fun p => in_group warning p = true) l).
Proof.
  revert c0 l0 w0. induction l as [|p l IH]; intros c0 l0 w0; cbn [foldl].
  - by rewrite !app_nil_r.
  - rewrite !filter_cons.
    destruct (group_of (quantity p) (min_stock p)) eqn:Hg; rewrite IH;
      repeat (first [rewrite decide_True by (apply in_group_eq; congruence)
                    |rewrite decide_False by (rewrite in_group_eq; congruence)]);
      by rewrite <- ?app_assoc.
Qed.

Lemma three_groups_perm (l : list product) :
  filter (fun p => in_group critical p = true) l
  ++ filter (fun p => in_group low p = true) l
  ++ filter (fun p => in_group warning p = true) l ≡ₚ l.
Proof.
  induction l as [|p l IH]; [done|]. rewrite !filter_cons.
  destruct (group_of (quantity p) (min_stock p)) eqn:Hg;
    repeat (first [rewrite decide_True by (apply in_group_eq; congruence)
                  |rewrite decide_False by (rewrite in_group_eq; congruence)]); simpl.
  - by rewrite IH.
  - rewrite <- Permutation_middle. by rewrite IH.
  - rewrite app_assoc, <- Permutation_middle, <- app_assoc. by rewrite IH.
Qed.

(** X10. The displayed low-stock report puts every row in exactly one of
    its three lists, keeping the order of the query inside each list: the
    lists together are a rearrangement of the rows, and the out-of-stock
    rows counted in the header are all in the critical list. *)
Theorem severity_groups_partition (low_stock : list product) :
  exists critical_l low_l warning_l,
    severity_groups low_stock = (critical_l, low_l, warning_l)
    /\ critical_l = filter (fun p => in_group critical p = true) low_stock
    /\ low_l = filter (fun p => in_group low p = true) low_stock
    /\ warning_l = filter (fun p => in_group warning p = true) low_stock
    /\ critical_l ++ low_l ++ warning_l ≡ₚ low_stock
    /\ (forall p, p ∈ low_stock -> quantity p = 0 -> p ∈ critical_l)
    /\ (out_of_stock_count low_stock <= length critical_l)%nat.
Proof.
  eexists _, _, _. split; [apply (severity_groups_from low_stock [] [] [])|].
  simpl. split; [done|]. split; [done|]. split; [done|].
  split; [apply three_groups_perm|]. split.
  - intros p Hp Hq. apply list_elem_of_filter. split; [|done].
    apply in_group_eq. unfold group_of. rewrite Hq. done.
  - unfold out_of_stock_count. induction low_stock as [|p l IH]; [done|].
    rewrite !filter_cons.
    destruct (decide (quantity p = 0)) as [Hq|Hq].
    + rewrite decide_True; [simpl; lia|].
      apply in_group_eq. unfold group_of. by rewrite Hq.
    + destruct (decide (in_group critical p = true)); simpl; lia.
Qed.

Lemma ratio_order_total (a b : option Q * string) :
  order_le a b = false -> order_le b a = true.
Proof.
  unfold order_le. destruct a as [[x|] na], b as [[y|] nb]; simpl; try done.
  - destruct (Qlt_le_dec x y) as [?|Hxy]; [done|].
    destruct (Qlt_le_dec y x) as [?|Hyx]; [done|]. intros Hn.
    destruct (String.leb_total na nb); congruence.
  - intros Hn. destruct (String.leb_total na nb); congruence.
Qed.

Lemma null_ratio_first (l : list product) :
  Sorted (fun a b => sql_ratio a = None \/ sql_ratio b <> None) l ->
  forall p0 rest, l = p0 :: rest -> sql_ratio p0 <> None ->
  Forall (fun p => sql_ratio p <> None) l.
Proof.
  induction 1 as [|a l Hs IH Hhd]; intros p0 rest Heq Hp0; [done|].
  injection Heq as -> ->. constructor; [done|].
  destruct Hhd as [|b l' [Hab|Hab]]; [constructor|done|].
  by apply (IH b l').
Qed.

(** X11. One product with a minimum stock of 0 and no stock left silences
    the low-stock alert of the inventory menu: its row comes first in the
    query (its ratio is NULL), the division by its minimum raises
    ZeroDivisionError, and no product row at all is printed. *)
Theorem zero_minimum_blocks_alert (products : list product) (p : product) :
  p ∈ products -> min_stock p = 0 -> quantity p <= 0 ->
  Inventory.check_low_stock products = ([], Some ZeroDivisionError).
Proof.
  intros Hp Hm Hq. unfold Inventory.check_low_stock.
  assert (Hin : p ∈ low_stock_query products) by (apply low_stock_query_elem; split; [done|lia]).
  assert (Hnull : sql_ratio p = None) by (unfold sql_ratio; by rewrite Hm).
  assert (Hs : Sorted (fun a b => sql_ratio a = None \/ sql_ratio b <> None)
                      (low_stock_query products)).
  { apply (sort_by_key_sorted order_le (fun p => (sql_ratio p, name p)) ratio_order_total).
    intros a b. unfold order_le. simpl.
    destruct (sql_ratio a), (sql_ratio b); try done; by (left + right). }
  destruct (low_stock_query products) as [|p0 rest] eqn:Hls; [by apply elem_of_nil in Hin|].
  assert (Hp0 : sql_ratio p0 = None).
  { destruct (sql_ratio p0) as [r|] eqn:Hr; [|done]. exfalso.
    assert (Hall : Forall (fun p => sql_ratio p <> None) (p0 :: rest)).
    { eapply null_ratio_first; [apply Hs|reflexivity|by rewrite Hr]. }
    rewrite Forall_forall in Hall. by apply (Hall p). }
  unfold sql_ratio in Hp0. destruct (decide (min_stock p0 = 0)) as [H0|?]; [|done].
  simpl. by rewrite H0.
Qed.

Lemma zero_minimum_blocks_alert_witness :
  Inventory.check_low_stock
    [Product "VS2401" "Mesh coil" "Coils" 2 10 (3 # 2);
     Product "VS2402" "Sample pod" "Devices" 0 0 9]
  = ([], Some ZeroDivisionError).
Proof.
  apply (zero_minimum_blocks_alert _ (Product "VS2402" "Sample pod" "Devices" 0 0 9)).
  - apply list_elem_of_In. simpl. tauto.
  - reflexivity.
  - simpl. lia.
Defined.

End LowStockFacts.

(** ** Choosing by number in the inventory menu *)

Section SelectionFacts.
Variable int : string -> result Z.

Lemma getitem_numbered {A} (l : list A) (k : Z) :
  1 <= k <= Z.of_nat (length l) ->
  exists x, l !! Z.to_nat (k - 1) = Some x /\ getitem l (k - 1) = Ok x.
Proof.
  intros Hk. unfold getitem. destruct (decide (0 <= k - 1)); [|lia].
  apply index_lt. lia.
Qed.

(** X12. The numbered choices of the inventory menu never index out of
    range and never wrap around to the end of the list: the category of a
    new product is the one at the typed number when the number is between 1
    and the number of categories, any other number is refused, and the only
    failure is the one of reading the number.  The product to update is
    chosen the same way among several matches; a single match is taken
    without reading a number, and no match gives no update. *)
Theorem selection_by_number (categories : list string) (products : list Store.product)
    (typed : string) :
  match Inventory.select_category int categories typed with
  | Ok (Some c) =>
      exists k, int typed = Ok k /\ 1 <= k <= Z.of_nat (length categories)
                /\ categories !! Z.to_nat (k - 1) = Some c
  | Ok None =>
      exists k, int typed = Ok k /\ (k < 1 \/ Z.of_nat (length categories) < k)
  | Raise e => int typed = Raise e
  end
  /\ match products with
     | [] => Inventory.select_product int products typed = Ok None
     | [p] => Inventory.select_product int products typed = Ok (Some p)
     | _ =>
         match Inventory.select_product int products typed with
         | Ok (Some p) =>
             exists k, int typed = Ok k /\ 1 <= k <= Z.of_nat (length products)
                       /\ products !! Z.to_nat (k - 1) = Some p
         | Ok None =>
             exists k, int typed = Ok k /\ (k < 1 \/ Z.of_nat (length products) < k)
         | Raise e => int typed = Raise e
         end
     end.
Proof.
  assert (Hsel : forall (A : Type) (l : list A),
             match bind (int typed) (fun choice =>
                     if decide (choice < 1 \/ choice > Z.of_nat (length l))
                     then Ok None
                     else bind (getitem l (choice - 1)) (fun x => Ok (Some x))) with
             | Ok (Some c) =>
                 exists k, int typed = Ok k /\ 1 <= k <= Z.of_nat (length l)
                           /\ l !! Z.to_nat (k - 1) = Some c
             | Ok None => exists k, int typed = Ok k /\ (k < 1 \/ Z.of_nat (length l) < k)
             | Raise e => int typed = Raise e
             end).
  { intros A l. destruct (int typed) as [k|e]; simpl; [|done].
    destruct (decide (k < 1 \/ k > Z.of_nat (length l))) as [Hout|Hin].
    - exists k. split; [done|lia].
    - destruct (getitem_numbered l k) as (x & Hx & ->); [lia|].
      simpl. exists k. split; [done|]. split; [lia|done]. }
  split; [apply Hsel|].
  destruct products as [|p [|p' rest]]; [done|done|].
  unfold Inventory.select_product.
  destruct (decide (1 < length (p :: p' :: rest))%nat) as [_|Hn]; [|simpl in Hn; lia].
  apply Hsel.
Qed.

End SelectionFacts.

(** ** The [monthly] command: what stops it *)

Lemma keyed_first_error {A K} (key : A -> result K) (l1 l2 : list A) (x : A) (e : exn) :
  (forall y, y ∈ l1 -> exists k, key y = Ok k) -> key x = Raise e ->
  keyed key (l1 ++ x :: l2) = Raise e.
Proof.
  intros Hok Hx. induction l1 as [|y l1 IH]; simpl.
  - by rewrite Hx.
  - destruct (Hok y) as [k ->]; [by left|]. simpl.
    rewrite IH; [done|]. intros z Hz. apply Hok. by right.
Qed.

(** X13. The [monthly] command answers "not enough reports" for fewer than
    two reports without looking at them.  With two reports or more it
    fails before printing anything when a year is not an integer, with the
    error of the first such report. *)
Theorem monthly_stops (int : string -> result Z) (reports : list Main.report) :
  ((length reports < 2)%nat -> Main.monthly int reports = Ok Main.NotEnoughReports)
  /\ (forall l1 r l2 e,
        reports = l1 ++ r :: l2 -> (2 <= length reports)%nat ->
        (forall x, x ∈ l1 -> exists y, int (Main.year x) = Ok y) ->
        int (Main.year r) = Raise e ->
        Main.monthly int reports = Raise e).
Proof.
  unfold Main.monthly. split.
  - intros Hlen. by destruct (decide (length reports < 2)%nat).
  - intros l1 r l2 e -> Hlen Hok He.
    destruct (decide (length (l1 ++ r :: l2) < 2)%nat); [lia|].
    unfold Main.sorted_reports, sorted.
    rewrite (keyed_first_error _ l1 l2 r e); [done| |].
    + intros x Hx. destruct (Hok x Hx) as [y Hy]. eexists. by apply get_sort_key_ok.
    + unfold Main.get_sort_key. by rewrite He.
Qed.

Lemma monthly_stops_witness :
  Main.monthly int_of_digits [Main.Report "Jan" "2024" []] = Ok Main.NotEnoughReports
  /\ Main.monthly int_of_digits
       [Main.Report "Jan" "2024" []; Main.Report "Feb" "20x4" []; Main.Report "Mar" "2024" []]
     = Raise ValueError.
Proof.
  split.
  - apply (monthly_stops int_of_digits [Main.Report "Jan" "2024" []]). simpl. lia.
  - apply (proj2 (monthly_stops int_of_digits _)
             [Main.Report "Jan" "2024" []] (Main.Report "Feb" "20x4" [])
             [Main.Report "Mar" "2024" []]).
    + reflexivity.
    + simpl. lia.
    + intros x Hx. apply list_elem_of_In in Hx. simpl in Hx.
      destruct Hx as [<-|[]]. by exists 2024.
    + reflexivity.
Defined.

(** ** The timeline of the sidebar *)

Section TimelineFacts.
Import Dashboard.

Lemma for_each_map {A B} (f : A -> result B) (g : A -> B) (l : list A) :
  (forall x, x ∈ l -> f x = Ok (g x)) -> for_each f l = Ok (map g l).
Proof.
  induction l as [|x l IH]; intros Hf; simpl; [done|].
  rewrite (Hf x) by (by left). simpl. rewrite IH; [done|].
  intros y Hy. apply Hf. by right.
Qed.

Lemma label_tokens (m : string) :
  (2 <= length (split m))%nat ->
  index (split m) 0 = Ok (first_token m) /\ index (split m) 1 = Ok (second_token m).
Proof.
  unfold index, first_token, second_token.
  destruct (split m) as [|a [|b l]]; simpl; intros H; try lia. done.
Qed.

Lemma group_months_from_ok (l : list string) (d : list (string * list string)) :
  Forall (fun m => (2 <= length (split m))%nat) l ->
  group_months_from d l
  = Ok (foldl (fun d m => dict_upsert (second_token m) []
                            (fun names => names ++ [first_token m]) d) d l).
Proof.
  intros Hl. revert d. induction Hl as [|m l Hm _ IH]; intros d; [done|].
  cbn [group_months_from foldl]. destruct (label_tokens m Hm) as [-> ->]. simpl.
  apply IH.
Qed.

Lemma group_months_from_short (l : list string) (d : list (string * list string)) :
  Exists (fun m => (length (split m) < 2)%nat) l ->
  group_months_from d l = Raise IndexError.
Proof.
  intros Hl. revert d. induction l as [|m l IH]; intros d; [by apply Exists_nil in Hl|].
  cbn [group_months_from].
  destruct (decide (length (split m) < 2)%nat) as [Hshort|Hlong].
  - unfold index. destruct (split m) as [|a [|b t]]; simpl in *; try done. lia.
  - destruct (label_tokens m) as [-> ->]; [lia|]. simpl. apply IH.
    apply Exists_cons in Hl as [?|?]; [lia|done].
Qed.

Lemma append_names_fold (xs : list string) (names : list string) :
  foldl (fun v x => v ++ [first_token x]) names xs = names ++ map first_token xs.
Proof.
  revert names. induction xs as [|x xs IH]; intros names; simpl.
  - by rewrite app_nil_r.
  - by rewrite IH, <- app_assoc.
Qed.

(** The entries of the year dictionary, for labels of two tokens or more. *)
Lemma group_months_grouped (months_list : list string) :
  Forall (fun m => (2 <= length (split m))%nat) months_list ->
  exists years_dict,
    group_months_by_year months_list = Ok years_dict
    /\ NoDup (map fst years_dict)
    /\ (forall year, year ∈ map fst years_dict
                     <-> exists m, m ∈ months_list /\ second_token m = year)
    /\ (forall year names,
          (year, names) ∈ years_dict
          <-> names <> []
              /\ names = map first_token
                             (filter (fun m => second_token m = year) months_list)).
Proof.
  intros Hl. eexists. split; [by apply group_months_from_ok|]. split; [|split].
  - apply (group_fold_NoDup second_token [] (fun m names => names ++ [first_token m])).
    constructor.
  - intros year.
    rewrite (group_fold_keys second_token [] (fun m names => names ++ [first_token m])).
    split; [intros [?%elem_of_nil|?]; done|by right].
  - intros year names.
    rewrite (group_fold_elem second_token [] (fun m names => names ++ [first_token m])).
    rewrite append_names_fold. simpl.
    destruct (filter _ months_list); simpl; split; intros [H ->]; split; done.
Qed.

(** X14. When every label has at least two tokens, [group_months_by_year]
    returns one entry per year that occurs as second token, and the entry
    of a year lists the first tokens of the labels of that year, in the
    order of the labels (tokens after the second are ignored). *)
Theorem group_months_by_year_spec (months_list : list string) :
  Forall (fun m => (2 <= length (split m))%nat) months_list ->
  exists years_dict,
    group_months_by_year months_list = Ok years_dict
    /\ NoDup (map fst years_dict)
    /\ (forall year, year ∈ map fst years_dict
                     <-> exists m, m ∈ months_list /\ second_token m = year)
    /\ (forall year names,
          (year, names) ∈ years_dict
          <-> names <> []
              /\ names = map first_token
                             (filter (fun m => second_token m = year) months_list)).
Proof. apply group_months_grouped. Qed.

Lemma group_months_by_year_spec_witness :
  exists years_dict,
    group_months_by_year ["Jan 2024"; "Dec 2023"; "Feb 2024 (partial)"] = Ok years_dict
    /\ ("2024", ["Jan"; "Feb"]) ∈ years_dict.
Proof.
  destruct (group_months_by_year_spec ["Jan 2024"; "Dec 2023"; "Feb 2024 (partial)"])
    as (years_dict & Hd & _ & _ & Hrows).
  - repeat (constructor; [vm_compute; lia|]). constructor.
  - exists years_dict. split; [exact Hd|]. apply Hrows. split; [discriminate|].
    vm_compute. reflexivity.
Defined.

(** X15. A label with fewer than two tokens, to which the sort key function
    gives the empty key without complaint, makes [group_months_by_year] and
    with it the timeline of the sidebar fail with IndexError, wherever it
    stands in the list. *)
Theorem short_label_breaks_timeline (months : list string) (m : string) :
  m ∈ months -> (length (split m) < 2)%nat ->
  get_month_year_key m = ""
  /\ group_months_by_year months = Raise IndexError
  /\ timeline months = Raise IndexError.
Proof.
  intros Hm Hshort.
  assert (Hg : group_months_by_year months = Raise IndexError).
  { apply group_months_from_short, Exists_exists. by exists m. }
  split; [|split; [done|]].
  - unfold get_month_year_key. destruct (split m) as [|a [|b t]]; simpl in *; try done. lia.
  - unfold timeline. destruct months; [by apply elem_of_nil in Hm|]. by rewrite Hg.
Qed.

Lemma short_label_breaks_timeline_witness :
  timeline ["Jan 2024"; "2024"; "Feb 2024"] = Raise IndexError.
Proof.
  apply (short_label_breaks_timeline ["Jan 2024"; "2024"; "Feb 2024"] "2024").
  - apply list_elem_of_In. simpl. tauto.
  - vm_compute. lia.
Defined.

Lemma str_leb_total (a b : string) : String.leb b a = false -> String.leb a b = true.
Proof. intros H. destruct (String.leb_total a b); congruence. Qed.

Lemma Z_leb_total (a b : Z) : (a <=? b) = false -> (b <=? a) = true.
Proof. intros H%Z.leb_gt. apply Z.leb_le. lia. Qed.

(** X16. When every label has at least two tokens the timeline has one line
    per year, each year at most the one before it as text (the newest
    first), and the line of a year lists the month names of that year, as
    many times as they occur, by non-decreasing month number (a name that
    is not a three-letter month counts as 0 and comes first). *)
Theorem timeline_lines (months : list string) :
  Forall (fun m => (2 <= length (split m))%nat) months ->
  exists lines,
    timeline months = Ok lines
    /\ NoDup (map fst lines)
    /\ Sorted (fun a b => String.leb b a = true) (map fst lines)
    /\ (forall year, year ∈ map fst lines
                     <-> exists m, m ∈ months /\ second_token m = year)
    /\ (forall year names,
          (year, names) ∈ lines ->
          names ≡ₚ map first_token (filter (fun m => second_token m = year) months)
          /\ Sorted (fun a b => dict_get month_order a 0 <= dict_get month_order b 0)
                    names).
Proof.
  intros Hl. destruct months as [|m0 rest].
  { exists []. simpl. split; [done|]. split; [constructor|]. split; [constructor|]. split.
    - intros year. split; [by intros ?%elem_of_nil|]. by intros (m & ?%elem_of_nil & _).
    - by intros year names ?%elem_of_nil. }
  set (months := m0 :: rest) in *.
  destruct (group_months_grouped months Hl) as (d & Hd & Hnodup & Hkeys & Hrows).
  set (names_of := fun year => default [] (dict_find year d)).
  set (line := fun year =>
                 (year, sorted_int (fun m => dict_get month_order m 0) (names_of year))).
  assert (Hperm : sorted_str_desc (map fst d) ≡ₚ map fst d)
    by apply (sort_by_key_perm (fun a b => String.leb b a) (fun x => x)).
  assert (Hlines : timeline months = Ok (map line (sorted_str_desc (map fst d)))).
  { unfold timeline, months. fold months. rewrite Hd. cbn [bind].
    apply for_each_map. intros year Hy. rewrite Hperm in Hy.
    unfold dict_item, line, names_of.
    destruct (dict_find year d) as [names|] eqn:Hf; [done|].
    by apply dict_find_None in Hf. }
  assert (Hfst : map fst (map line (sorted_str_desc (map fst d)))
                 = sorted_str_desc (map fst d)).
  { rewrite map_map. apply map_id. }
  exists (map line (sorted_str_desc (map fst d))). rewrite Hfst.
  split; [done|]. split; [by rewrite Hperm|]. split; [|split].
  - apply (sort_by_key_sorted (fun a b => String.leb b a) (fun x => x)); [|done].
    intros a b. apply str_leb_total.
  - intros year. by rewrite Hperm.
  - intros year names (y & [= -> ->] & Hy)%list_elem_of_fmap.
    rewrite Hperm in Hy. unfold names_of.
    destruct (dict_find y d) as [ns|] eqn:Hf; [|by apply dict_find_None in Hf].
    apply dict_elem_find, Hrows in Hf as [_ ->]; [|done]. simpl. split.
    + apply (sort_by_key_perm Z.leb).
    + apply (sort_by_key_sorted Z.leb (fun m => dict_get month_order m 0)).
      * apply Z_leb_total.
      * intros a b H. by apply Z.leb_le.
Qed.

Lemma timeline_lines_witness :
  exists lines,
    timeline ["Mar 2024"; "Dec 2023"; "Jan 2024"] = Ok lines
    /\ map fst lines = ["2024"; "2023"].
Proof.
  destruct (timeline_lines ["Mar 2024"; "Dec 2023"; "Jan 2024"]) as (lines & Ht & _).
  - repeat (constructor; [vm_compute; lia|]). constructor.
  - exists lines. split; [exact Ht|]. vm_compute in Ht. by injection Ht as <-.
Defined.

End TimelineFacts.

(** ** The text key of the dashboard and the numeric key of the analyzer *)


Lemma compare_app_same_length (a b s t : string) :
  String.length a = String.length b ->
  String.compare (a +:+ s) (b +:+ t)
  = match String.compare a b with
    | Eq => String.compare s t
    | r => r
    end.
Proof.
  revert b. induction a as [|c a IH]; intros [|d b]; try done.
  intros [= Hlen]. rewrite !app_cons. simpl.
  destruct (Ascii.compare c d); [by apply IH|done|done].
Qed.

Lemma split_token (y : string) : no_space y = true -> y <> "" -> split y = [y].
Proof.
  intros Hy Hne. unfold split. rewrite <- (app_empty_r y) at 1.
  rewrite split_go_token by done. simpl. change ("" +:+ y) with y.
  by destruct (decide (y = "")).
Qed.

(** The month codes of the dashboard are in the order of the month numbers
    of the analyzer. *)
Lemma month_codes_order (m1 m2 : string) :
  m1 ∈ map fst canonical_months -> m2 ∈ map fst canonical_months ->
  no_space m1 = true /\ m1 <> "" /\ slice_to 3 m1 = m1
  /\ no_space m2 = true /\ m2 <> "" /\ slice_to 3 m2 = m2
  /\ String.compare ("-" +:+ dict_get Dashboard.month_num m1 "00")
                    ("-" +:+ dict_get Dashboard.month_num m2 "00")
     = (dict_get Main.month_order m1 0 ?= dict_get Main.month_order m2 0).
Proof.
  assert (Hall : forallb (fun '(a, b) =>
                    no_space a && bool_decide (a <> "") && bool_decide (slice_to 3 a = a)
                    && bool_decide
                         (String.compare ("-" +:+ dict_get Dashboard.month_num a "00")
                                         ("-" +:+ dict_get Dashboard.month_num b "00")
                          = (dict_get Main.month_order a 0 ?= dict_get Main.month_order b 0)))
                  (list_prod (map fst canonical_months) (map fst canonical_months))
                = true) by (vm_compute; reflexivity).
  rewrite forallb_forall in Hall. intros H1%list_elem_of_In H2%list_elem_of_In.
  pose proof (Hall (m1, m2) (proj2 (in_prod_iff _ _ m1 m2) (conj H1 H2))) as H12.
  pose proof (Hall (m2, m1) (proj2 (in_prod_iff _ _ m2 m1) (conj H2 H1))) as H21.
  cbv beta iota zeta in H12, H21.
  apply andb_prop in H12 as [[[Hn1 He1]%andb_prop Hs1]%andb_prop Hc].
  apply andb_prop in H21 as [[[Hn2 He2]%andb_prop Hs2]%andb_prop _].
  apply bool_decide_eq_true in He1, Hs1, Hc, He2, Hs2. done.
Qed.

(** X17. On labels made of a three-letter month and a year written with
    digits, the text key the dashboard sorts with and the numeric key the
    analyzer sorts with order two reports the same way whenever the two
    years are written with the same number of digits. *)
Theorem sort_keys_agree (m1 m2 y1 y2 : string) (d1 d2 : frame) :
  m1 ∈ map fst canonical_months -> m2 ∈ map fst canonical_months ->
  all_digits y1 = true -> all_digits y2 = true -> y1 <> "" ->
  String.length y1 = String.length y2 ->
  exists k1 k2,
    Main.get_sort_key int_of_digits (Main.Report m1 y1 d1) = Ok k1
    /\ Main.get_sort_key int_of_digits (Main.Report m2 y2 d2) = Ok k2
    /\ str_lt (Dashboard.get_month_year_key (Main.month_label (Main.Report m1 y1 d1)))
              (Dashboard.get_month_year_key (Main.month_label (Main.Report m2 y2 d2)))
       = tuple_lt k1 k2.
Proof.
  intros Hm1 Hm2 Hy1 Hy2 Hne1 Hlen.
  assert (Hne2 : y2 <> "") by (intros ->; destruct y1; done).
  destruct (month_codes_order m1 m2 Hm1 Hm2) as (Hn1 & He1 & Hs1 & Hn2 & He2 & Hs2 & Hc).
  destruct (digits_value_bounds y1 0 Hy1) as (v1 & Hv1 & _).
  destruct (digits_value_bounds y2 0 Hy2) as (v2 & Hv2 & _).
  exists (v1, dict_get Main.month_order m1 0), (v2, dict_get Main.month_order m2 0).
  assert (Hint : forall y v, y <> "" -> digits_value 0 y = Some v -> int_of_digits y = Ok v).
  { intros y v Hy Hv. unfold int_of_digits. destruct y; [done|]. by rewrite Hv. }
  unfold Main.get_sort_key. cbn [Main.month Main.year].
  rewrite (Hint _ _ Hne1 Hv1), (Hint _ _ Hne2 Hv2), Hs1, Hs2.
  split; [done|]. split; [done|].
  unfold Main.month_label, Dashboard.get_month_year_key. cbn [Main.month Main.year].
  rewrite !split_label by done.
  rewrite !split_token by (done || by apply all_digits_no_space).
  unfold str_lt, String.ltb, tuple_lt. cbv beta iota zeta. cbn [fst snd].
  rewrite (compare_app_same_length y1 y2) by done.
  rewrite (compare_digits y1 y2 0 v1 v2) by done. rewrite Hc.
  destruct (Z.compare_spec v1 v2) as [->|Hlt|Hgt].
  - rewrite Z.ltb_irrefl, Z.eqb_refl. cbn [orb andb].
    destruct (Z.compare_spec (dict_get Main.month_order m1 0)
                             (dict_get Main.month_order m2 0)) as [->|Hl|Hg].
    + by rewrite Z.ltb_irrefl.
    + symmetry. by apply Z.ltb_lt.
    + symmetry. apply Z.ltb_ge. lia.
  - symmetry. apply orb_true_iff. left. by apply Z.ltb_lt.
  - symmetry. apply orb_false_iff. split; [apply Z.ltb_ge; lia|].
    apply andb_false_iff. left. apply Z.eqb_neq. lia.
Qed.

Lemma sort_keys_agree_witness :
  exists k1 k2,
    Main.get_sort_key int_of_digits (Main.Report "Dec" "2023" []) = Ok k1
    /\ Main.get_sort_key int_of_digits (Main.Report "Jan" "2024" []) = Ok k2
    /\ str_lt (Dashboard.get_month_year_key "Dec 2023")
              (Dashboard.get_month_year_key "Jan 2024")
       = tuple_lt k1 k2.
Proof.
  apply (sort_keys_agree "Dec" "Jan" "2023" "2024" [] []);
    try reflexivity; try discriminate; apply list_elem_of_In; simpl; tauto.
Defined.

(** ** Reports of the same period *)

Lemma keyed_pairs {A K} (key : A -> result K) (dflt : K) (l : list A) (kl : list (K * A)) :
  keyed key l = Ok kl ->
  kl = map (fun x => (match key x with Ok k => k | Raise _ => dflt end, x)) l
  /\ Forall (fun x => exists k, key x = Ok k) l.
Proof.
  revert kl. induction l as [|x l IH]; simpl; intros kl H.
  - injection H as <-. by split.
  - destruct (key x) as [k|e] eqn:Hk; [|discriminate]. simpl in H.
    destruct (keyed key l) as [kl'|e] eqn:Hkl; [|discriminate]. simpl in H.
    injection H as <-. destruct (IH _ eq_refl) as [-> Hall]. split; [done|].
    constructor; [by exists k|done].
Qed.

Lemma filter_agree {A} (P Q : A -> Prop) `{!forall x, Decision (P x)}
    `{!forall x, Decision (Q x)} (l : list A) :
  Forall (fun x => P x <-> Q x) l -> filter P l = filter Q l.
Proof.
  induction 1 as [|x l Hx _ IH]; [done|]. rewrite !filter_cons, IH.
  destruct (decide (P x)), (decide (Q x)); tauto.
Qed.

(** X18. The [monthly] command keeps every report, duplicates of a period
    included: the sorted list is a rearrangement of the parsed reports, and
    the reports that have the same (year, month) key stay in the order in
    which they were parsed. *)
Theorem sorted_reports_stable (int : string -> result Z) (l l' : list Main.report)
    (k : Z * Z) :
  Main.sorted_reports int l = Ok l' ->
  l' ≡ₚ l
  /\ filter (fun r => has_sort_key int k r = true) l'
     = filter (fun r => has_sort_key int k r = true) l.
Proof.
  intros Hs. split; [by apply (sorted_reports_ordered int)|].
  unfold Main.sorted_reports, sorted in Hs.
  destruct (keyed (Main.get_sort_key int) l) as [kl|e] eqn:Hkl; [|discriminate].
  simpl in Hs. injection Hs as <-.
  destruct (keyed_pairs _ (0, 0) _ _ Hkl) as [-> Hall].
  set (kf := fun x => match Main.get_sort_key int x with Ok k => k | Raise _ => (0, 0) end).
  pose (same := fun a : Z * Z => bool_decide (a = k)).
  assert (Hsame : forall l0 : list Main.report,
             Forall (fun x => exists k, Main.get_sort_key int x = Ok k) l0 ->
             filter (fun r => has_sort_key int k r = true) l0
             = filter (fun r => same (kf r) = true) l0).
  { intros l0 Hl0. apply filter_agree. eapply Forall_impl; [exact Hl0|].
    intros r [k' Hk']. unfold has_sort_key, kf, same. by rewrite Hk'. }
  rewrite (Hsame l Hall), Hsame.
  - apply (sort_by_key_stable tuple_le kf same).
    intros a b Hab Ha%bool_decide_eq_true Hb%bool_decide_eq_true. subst.
    unfold tuple_le, tuple_lt in Hab. apply negb_false_iff in Hab.
    apply orb_true_iff in Hab as [H|[_ H]%andb_true_iff]; apply Z.ltb_lt in H; lia.
  - eapply Forall_forall. intros r Hr. eapply (proj1 (Forall_forall _ _) Hall).
    pose proof (sort_by_key_perm tuple_le kf l) as Hp.
    unfold kf in Hp. by rewrite <- Hp.
Qed.

Lemma sorted_reports_stable_witness :
  exists l',
    Main.sorted_reports int_of_digits
      [Main.Report "Feb" "2024" [Row None (Some "A") 1 1];
       Main.Report "Jan" "2024" [];
       Main.Report "Feb" "2024" [Row None (Some "B") 2 2]] = Ok l'
    /\ filter (fun r => has_sort_key int_of_digits (2024, 2) r = true) l'
       = [Main.Report "Feb" "2024" [Row None (Some "A") 1 1];
          Main.Report "Feb" "2024" [Row None (Some "B") 2 2]].
Proof.
  assert (H : exists l',
             Main.sorted_reports int_of_digits
               [Main.Report "Feb" "2024" [Row None (Some "A") 1 1];
                Main.Report "Jan" "2024" [];
                Main.Report "Feb" "2024" [Row None (Some "B") 2 2]] = Ok l')
    by (eexists; vm_compute; reflexivity).
  destruct H as [l' H]. exists l'. split; [exact H|].
  destruct (sorted_reports_stable _ _ _ (2024, 2) H) as [_ ->]. reflexivity.
Defined.

(** ** The lines of the [monthly] command *)

Lemma lookup_map {A B} (f : A -> B) (l : list A) (i : nat) (x : A) :
  l !! i = Some x -> map f l !! i = Some (f x).
Proof.
  intros H. pose proof (list_lookup_fmap f l i) as E. rewrite H in E. exact E.
Qed.

Lemma growth_rate_None (prev cur : Q) :
  Main.growth_rate prev cur = None <-> (prev <= 0)%Q.
Proof.
  unfold Main.growth_rate. destruct (Qlt_le_dec 0 prev) as [Hlt|Hle]; split; try done.
  intros H. by destruct (Qlt_not_le _ _ Hlt).
Qed.

(** X19. The [monthly] command on two reports or more whose years are
    integers: the reports are put in chronological order (a rearrangement
    in which the (year, month) keys never decrease); it prints one total
    per report, in that order and without the TOTAL rows, and one growth
    line less; growth line [i] compares the totals of reports [i] and
    [i + 1] of that order, and its units and sales growths are N/A exactly
    when the earlier total is not positive. *)
Theorem monthly_growth_between_neighbours (int : string -> result Z)
    (l : list Main.report) :
  (2 <= length l)%nat ->
  (forall r, r ∈ l -> exists y, int (Main.year r) = Ok y) ->
  exists l' totals g,
    Main.sorted_reports int l = Ok l'
    /\ l' ≡ₚ l
    /\ Sorted (fun a b => exists ka kb,
                   Main.get_sort_key int a = Ok ka /\ Main.get_sort_key int b = Ok kb
                   /\ tuple_le ka kb = true) l'
    /\ Main.monthly int l = Ok (Main.Tables totals (Some g))
    /\ length totals = length l
    /\ length g = (length l - 1)%nat
    /\ (forall (i : nat) r,
          l' !! i = Some r ->
          totals !! i = Some (Main.month_label r,
                              col_sum Sold (drop_total (Main.data r)),
                              col_sum Net_Sales (drop_total (Main.data r))))
    /\ forall (i : nat) r0 r1,
        l' !! i = Some r0 -> l' !! S i = Some r1 ->
        g !! i = Some (Main.month_label r0 +:+ " to " +:+ Main.month_label r1,
                       Main.growth_rate (col_sum Sold (drop_total (Main.data r0)))
                                        (col_sum Sold (drop_total (Main.data r1))),
                       Main.growth_rate (col_sum Net_Sales (drop_total (Main.data r0)))
                                        (col_sum Net_Sales (drop_total (Main.data r1))))
           /\ (Main.growth_rate (col_sum Sold (drop_total (Main.data r0)))
                                (col_sum Sold (drop_total (Main.data r1))) = None
               <-> (col_sum Sold (drop_total (Main.data r0)) <= 0)%Q)
           /\ (Main.growth_rate (col_sum Net_Sales (drop_total (Main.data r0)))
                                (col_sum Net_Sales (drop_total (Main.data r1))) = None
               <-> (col_sum Net_Sales (drop_total (Main.data r0)) <= 0)%Q).
Proof.
  intros Hlen Hint. unfold Main.monthly.
  destruct (decide (length l < 2)%nat) as [?|_]; [lia|].
  destruct (keyed_total (Main.get_sort_key int) l) as [kl Hkl].
  { intros r Hr. destruct (Hint r Hr) as [y Hy]. eexists. by apply get_sort_key_ok. }
  destruct (Main.sorted_reports int l) as [l'|e] eqn:Hsort;
    [|unfold Main.sorted_reports, sorted in Hsort; by rewrite Hkl in Hsort].
  destruct (sorted_reports_ordered _ _ _ Hsort) as [Hperm Hsorted].
  pose proof (Permutation_length Hperm) as Hplen. simpl.
  destruct (decide (2 <= length l')%nat) as [_|?]; [|lia].
  destruct (growth_data_adjacent (length l') (map Main.month_label l')
              (map (fun r => col_sum Sold (drop_total (Main.data r))) l')
              (map (fun r => col_sum Net_Sales (drop_total (Main.data r))) l'))
    as (g & -> & Hg & Hline); try apply length_map.
  simpl. exists l'. eexists _, g. split; [reflexivity|].
  split; [exact Hperm|]. split; [exact Hsorted|]. split; [reflexivity|].
  split; [rewrite !length_zip_with, !length_map; lia|]. split; [lia|]. split.
  - intros i r Hr. rewrite !lookup_zip_with.
    rewrite (lookup_map Main.month_label l' i r Hr).
    rewrite (lookup_map (fun r => col_sum Sold (drop_total (Main.data r))) l' i r Hr).
    by rewrite (lookup_map (fun r => col_sum Net_Sales (drop_total (Main.data r)))
                  l' i r Hr).
  - intros i r0 r1 H0 H1. split; [|split; apply growth_rate_None].
    apply Hline;
      match goal with |- map ?f ?l0 !! ?j = _ => by apply (lookup_map f l0 j) end.
Qed.

Lemma monthly_growth_between_neighbours_witness :
  exists l' totals g,
    Main.sorted_reports int_of_digits
      [Main.Report "Feb" "2024" [Row None (Some "A") 3 30];
       Main.Report "Jan" "2024" [Row None (Some "A") 2 20; Row None (Some "TOTAL") 2 20];
       Main.Report "Mar" "2024" []] = Ok l'
    /\ Main.monthly int_of_digits
         [Main.Report "Feb" "2024" [Row None (Some "A") 3 30];
          Main.Report "Jan" "2024" [Row None (Some "A") 2 20; Row None (Some "TOTAL") 2 20];
          Main.Report "Mar" "2024" []]
       = Ok (Main.Tables totals (Some g))
    /\ length totals = 3%nat
    /\ length g = 2%nat.
Proof.
  destruct (monthly_growth_between_neighbours int_of_digits
              [Main.Report "Feb" "2024" [Row None (Some "A") 3 30];
               Main.Report "Jan" "2024"
                 [Row None (Some "A") 2 20; Row None (Some "TOTAL") 2 20];
               Main.Report "Mar" "2024" []])
    as (l' & totals & g & Hs & _ & _ & Hm & Ht & Hg & _).
  - simpl. lia.
  - intros r Hr. apply list_elem_of_In in Hr. simpl in Hr.
    destruct Hr as [<-|[<-|[<-|[]]]]; by exists 2024.
  - exists l', totals, g. split; [exact Hs|]. split; [exact Hm|]. split; [exact Ht|exact Hg].
Defined.
